(** * PharmaTrustChain back end: registration workflow and batch proxy

    A shallow embedding of the Express route handlers of [src/server.ts]
    (the SQLite/Sequelize registration workflow, the admin revoke route and
    the start-up seeding) and of the metadata-pinning back end
    ([uploadToIPFS], [POST /register-product], [POST /revoke-batch]).

    Handlers are written in a state-and-exception monad over a [World]
    holding the two tables and the log of outbound calls.  Everything the
    repository consumes as a black box (the contract binding, the pinning
    service, the QR encoder and the ECMAScript conversions) is read from an
    [Env] record, so every theorem holds whatever those collaborators answer. *)

From Stdlib Require Import String Ascii List ZArith Bool Lia DecimalString.
Import ListNotations.
Local Open Scope string_scope.
Local Open Scope Z_scope.

(** ** JavaScript values *)

(** An IEEE double: not-a-number, an infinity, or the finite value
    [m * 2^e].  Only the sign and the zero test are ever inspected. *)
Inductive jsnum : Type :=
| NaN
| Inf (negative : bool)
| Fin (m e : Z).

Definition num (z : Z) : jsnum := Fin z 0.

#[local] Unset Elimination Schemes.
Inductive jsval : Type :=
| VUndefined
| VNull
| VBool (b : bool)
| VNum (n : jsnum)
| VStr (s : string)
| VArr (items : list jsval)
| VObj (fields : list (string * jsval)).
#[local] Set Elimination Schemes.

Definition str_nonempty (s : string) : bool :=
  match s with EmptyString => false | String _ _ => true end.

(** [!n] is true exactly for [0], [-0] and [NaN]. *)
Definition num_truthy (n : jsnum) : bool :=
  match n with
  | NaN => false
  | Inf _ => true
  | Fin m _ => negb (m =? 0)
  end.

(** [n <= 0]; every comparison with [NaN] is false. *)
Definition num_le0 (n : jsnum) : bool :=
  match n with
  | NaN => false
  | Inf negative => negative
  | Fin m _ => m <=? 0
  end.

(** ECMAScript ToBoolean. *)
Definition truthy (v : jsval) : bool :=
  match v with
  | VUndefined | VNull => false
  | VBool b => b
  | VNum n => num_truthy n
  | VStr s => str_nonempty s
  | VArr _ | VObj _ => true
  end.

(** A body field read at a declared type: [None] when the body lacks it. *)
Definition opt_truthy (v : option string) : bool :=
  match v with
  | None => false
  | Some s => str_nonempty s
  end.

Definition opt_str (v : option string) : jsval :=
  match v with None => VUndefined | Some s => VStr s end.

(** [a ?? b] *)
Definition nullish_or (a b : jsval) : jsval :=
  match a with
  | VUndefined | VNull => b
  | _ => a
  end.

(** ** Exceptions *)

Record JsError : Type := mkError { message : option string }.

Definition error_of (s : string) : JsError := mkError (Some s).

(** [err.message || fallback] *)
Definition message_or (e : JsError) (fallback : string) : string :=
  match message e with
  | Some s => if str_nonempty s then s else fallback
  | None => fallback
  end.

Inductive result (A : Type) : Type :=
| Ok (a : A)
| Throw (e : JsError).
Arguments Ok {A} a.
Arguments Throw {A} e.

(** ** The external collaborators *)

(** A submitted transaction: its hash and what awaiting [tx.wait()] gives. *)
Record Tx : Type := mkTx { hash : string; wait : result unit }.

Record Env : Type := mkEnv {
  (* contract binding *)
  registerUser : string -> string -> Z -> result Tx;
  revokeBatch : list jsval -> result Tx;
  registerProduct : jsval -> jsval -> jsval -> result Tx;
  (* axios.post to the pinning service: the response's [data] *)
  pinFileToIPFS : jsval -> result jsval;
  (* QRCode.toDataURL *)
  toDataURL : string -> result string;
  (* ethers.isAddress *)
  isAddress : string -> result bool;
  (* ECMAScript Number(string) and template-literal ToString *)
  Number : string -> jsnum;
  ToString : jsval -> string;
  (* process.env.FRONTEND_URL *)
  FRONTEND_URL : jsval
}.

(** Outbound calls, in the order they are issued. *)
Inductive Event : Type :=
| CallRegisterUser (wallet name : string) (role : Z)
| CallRevokeBatch (args : list jsval)
| CallRegisterProduct (name batchId ipfsHash : jsval)
| CallWait (txHash : string)
| CallPin (document : jsval)
| CallQr (text : string).

Definition is_chain_write (ev : Event) : bool :=
  match ev with
  | CallRegisterUser _ _ _ | CallRevokeBatch _ | CallRegisterProduct _ _ _ => true
  | _ => false
  end.

Definition is_registerProduct (ev : Event) : bool :=
  match ev with CallRegisterProduct _ _ _ => true | _ => false end.

Definition is_revokeBatch (ev : Event) : bool :=
  match ev with CallRevokeBatch _ => true | _ => false end.

Definition is_registerUser (ev : Event) : bool :=
  match ev with CallRegisterUser _ _ _ => true | _ => false end.

Definition count_events (p : Event -> bool) (l : list Event) : nat :=
  length (filter p l).

(** ** Tables *)

Record User : Type := mkUser {
  id : Z;
  name : string;
  email : string;
  role : Z;
  walletAddress : string;
  licenseNumber : string;
  status : string
}.

Record PPBRecord : Type := mkPPB {
  ppb_id : Z;
  ppb_name : string;
  ppb_email : string;
  ppb_licenseNumber : string;
  ppb_role : Z
}.

(** The database file and the log of outbound calls.  [user_seq] and
    [ppb_seq] are the AUTOINCREMENT counters of the two tables. *)
Record World : Type := mkWorld {
  users : list User;
  user_seq : Z;
  ppb : list PPBRecord;
  ppb_seq : Z;
  calls : list Event
}.

Definition with_users (l : list User) (w : World) : World :=
  mkWorld l (user_seq w) (ppb w) (ppb_seq w) (calls w).

Definition log (ev : Event) (w : World) : World :=
  mkWorld (users w) (user_seq w) (ppb w) (ppb_seq w) (calls w ++ [ev]).

Definition empty_world : World := mkWorld [] 0 [] 0 [].

(** ** The handler monad: state plus exceptions *)

Definition M (A : Type) : Type := World -> result A * World.

Definition ret {A} (a : A) : M A := fun w => (Ok a, w).

Definition throw {A} (e : JsError) : M A := fun w => (Throw e, w).

Definition bind {A B} (c : M A) (k : A -> M B) : M B :=
  fun w =>
    match c w with
    | (Ok a, w') => k a w'
    | (Throw e, w') => (Throw e, w')
    end.

Definition lift {A} (r : result A) : M A := fun w => (r, w).

Notation "x <- c ;; k" := (bind c (fun x => k))
  (at level 61, c at next level, right associativity).
Notation "c ;;; k" := (bind c (fun _ => k))
  (at level 61, right associativity).

(** An outbound call: logged, then answered by the environment. *)
Definition call {A} (ev : Event) (answer : result A) : M A :=
  fun w => (answer, log ev w).

Record Response : Type := mkResponse { code : Z; body : jsval }.

(** [res.json(b)] and [res.status(c).json(b)] *)
Definition json (b : jsval) : Response := mkResponse 200 b.
Definition status_json (c : Z) (b : jsval) : Response := mkResponse c b.

(** [try { c } catch (err) { h err }] around a whole handler. *)
Definition try_catch (c : M Response) (h : JsError -> Response)
  : World -> Response * World :=
  fun w =>
    match c w with
    | (Ok r, w') => (r, w')
    | (Throw e, w') => (h e, w')
    end.

(** ** The Sequelize models, as the handlers use them *)

Definition dq : string := String (ascii_of_nat 34) EmptyString.
Definition newline : string := String (ascii_of_nat 10) EmptyString.

(** Template-literal conversion of an integer. *)
Definition string_of_Z (z : Z) : string := NilZero.string_of_int (Z.to_int z).

Inductive UserCol : Type := ColWalletAddress | ColStatus.

Definition col_name (c : UserCol) : string :=
  match c with
  | ColWalletAddress => "walletAddress"
  | ColStatus => "status"
  end.

Definition col_value (c : UserCol) (u : User) : string :=
  match c with
  | ColWalletAddress => walletAddress u
  | ColStatus => status u
  end.

(** The query generator refuses a [where] entry whose value is [undefined]. *)
Definition undefined_where (column : string) : JsError :=
  error_of ("WHERE parameter " ++ dq ++ column ++ dq ++ " has invalid "
            ++ dq ++ "undefined" ++ dq ++ " value").

Fixpoint compile_where (wh : list (UserCol * option string))
  : result (list (UserCol * string)) :=
  match wh with
  | [] => Ok []
  | (c, None) :: _ => Throw (undefined_where (col_name c))
  | (c, Some v) :: rest =>
      match compile_where rest with
      | Ok conds => Ok ((c, v) :: conds)
      | Throw e => Throw e
      end
  end.

Definition row_matches (conds : list (UserCol * string)) (u : User) : bool :=
  forallb (fun cv => (col_value (fst cv) u =? snd cv)%string) conds.

(** [User.findOne({ where })] *)
Definition User_findOne (wh : list (UserCol * option string)) : M (option User) :=
  fun w =>
    match compile_where wh with
    | Ok conds => (Ok (find (row_matches conds) (users w)), w)
    | Throw e => (Throw e, w)
    end.

(** [User.findAll({ where })] *)
Definition User_findAll (wh : list (UserCol * option string)) : M (list User) :=
  fun w =>
    match compile_where wh with
    | Ok conds => (Ok (filter (row_matches conds) (users w)), w)
    | Throw e => (Throw e, w)
    end.

(** [PPBRecord.findOne({ where: { licenseNumber } })] *)
Definition PPBRecord_findOne (license : option string) : M (option PPBRecord) :=
  fun w =>
    match license with
    | Some l => (Ok (find (fun r => (ppb_licenseNumber r =? l)%string) (ppb w)), w)
    | None => (Throw (undefined_where "licenseNumber"), w)
    end.

Definition PPBRecord_findAll : M (list PPBRecord) := fun w => (Ok (ppb w), w).

Definition PPBRecord_count : M Z := fun w => (Ok (Z.of_nat (length (ppb w))), w).

(** The attributes handed to [User.create]. *)
Record UserAttrs : Type := mkUserAttrs {
  a_name : option string;
  a_email : option string;
  a_role : option Z;
  a_walletAddress : option string;
  a_licenseNumber : option string;
  a_status : string
}.

Definition missing {A} (field : string) (v : option A) : list string :=
  match v with None => [field] | Some _ => [] end.

(** The [allowNull: false] columns left without a value, in model order. *)
Definition null_columns (a : UserAttrs) : list string :=
  missing "name" (a_name a) ++ missing "email" (a_email a)
  ++ missing "role" (a_role a) ++ missing "walletAddress" (a_walletAddress a)
  ++ missing "licenseNumber" (a_licenseNumber a).

Definition notNull_violation (a : UserAttrs) : JsError :=
  error_of (String.concat ("," ++ newline)
              (map (fun f => "notNull Violation: User." ++ f ++ " cannot be null")
                   (null_columns a))).

Definition unique_violation : JsError := error_of "Validation error".

(** [User.create(attrs)]: schema validation, the unique index on
    [walletAddress], then an insert under a fresh AUTOINCREMENT id. *)
Definition User_create (a : UserAttrs) : M User :=
  fun w =>
    match a_name a, a_email a, a_role a, a_walletAddress a, a_licenseNumber a with
    | Some n, Some e, Some r, Some wa, Some l =>
        if existsb (fun u => (walletAddress u =? wa)%string) (users w)
        then (Throw unique_violation, w)
        else
          let u := mkUser (user_seq w + 1) n e r wa l (a_status a) in
          (Ok u, mkWorld (users w ++ [u]) (user_seq w + 1) (ppb w) (ppb_seq w) (calls w))
    | _, _, _, _, _ => (Throw (notNull_violation a), w)
    end.

Definition set_status (s : string) (u : User) : User :=
  mkUser (id u) (name u) (email u) (role u) (walletAddress u) (licenseNumber u) s.

(** [user.status = s; await user.save()]: the changed column is written to
    the row with the instance's primary key. *)
Definition User_save_status (user : User) (s : string) : M unit :=
  fun w =>
    (Ok tt,
     with_users (map (fun u => if id u =? id user then set_status s u else u) (users w)) w).

(** [user.destroy()] *)
Definition User_destroy (user : User) : M unit :=
  fun w => (Ok tt, with_users (filter (fun u => negb (id u =? id user)) (users w)) w).

Record PPBAttrs : Type := mkPPBAttrs {
  p_name : string;
  p_email : string;
  p_licenseNumber : string;
  p_role : Z
}.

(** [PPBRecord.bulkCreate(sample)]: rows are inserted in order; the unique
    index on [licenseNumber] aborts the statement. *)
Fixpoint bulk_insert (sample : list PPBAttrs) (rows : list PPBRecord) (seq : Z)
  : option (list PPBRecord * Z) :=
  match sample with
  | [] => Some (rows, seq)
  | a :: rest =>
      if existsb (fun r => (ppb_licenseNumber r =? p_licenseNumber a)%string) rows
      then None
      else bulk_insert rest
             (rows ++ [mkPPB (seq + 1) (p_name a) (p_email a) (p_licenseNumber a) (p_role a)])
             (seq + 1)
  end.

Definition PPBRecord_bulkCreate (sample : list PPBAttrs) : M unit :=
  fun w =>
    match bulk_insert sample (ppb w) (ppb_seq w) with
    | Some (rows, seq) => (Ok tt, mkWorld (users w) (user_seq w) rows seq (calls w))
    | None => (Throw unique_violation, w)
    end.

(** ** The registration back end ([src/server.ts]) *)

Module Server.

Definition user_json (u : User) : jsval :=
  VObj [("id", VNum (num (id u))); ("name", VStr (name u)); ("email", VStr (email u));
        ("role", VNum (num (role u))); ("walletAddress", VStr (walletAddress u));
        ("licenseNumber", VStr (licenseNumber u)); ("status", VStr (status u))].

Definition ppb_json (r : PPBRecord) : jsval :=
  VObj [("id", VNum (num (ppb_id r))); ("name", VStr (ppb_name r));
        ("email", VStr (ppb_email r)); ("licenseNumber", VStr (ppb_licenseNumber r));
        ("role", VNum (num (ppb_role r)))].

(** The helper is wrapped in its own try/catch; no route calls it. *)
Definition isValidAddress (env : Env) (a : string) : bool :=
  match isAddress env a with
  | Ok b => b
  | Throw _ => false
  end.

(** The body of [POST /signup], each field [None] when absent. *)
Record SignupBody : Type := mkSignup {
  b_name : option string;
  b_email : option string;
  b_role : option Z;
  b_walletAddress : option string;
  b_licenseNumber : option string
}.

Definition msg_wallet_required : jsval :=
  VObj [("message", VStr "Wallet address required")].
Definition msg_already_registered : jsval :=
  VObj [("message", VStr "User already registered locally. Please log in.")].
Definition msg_license_not_found : jsval :=
  VObj [("message", VStr "License number not found in PPB database")].
Definition msg_signup_ok : jsval :=
  VObj [("success", VBool true);
        ("message", VStr "Registration pending verification by admin")].

(** [POST /signup] *)
Definition post_signup (req : SignupBody) : World -> Response * World :=
  try_catch
    (if negb (opt_truthy (b_walletAddress req)) then
       ret (status_json 400 msg_wallet_required)
     else
       existingUser <- User_findOne [(ColWalletAddress, b_walletAddress req)] ;;
       match existingUser with
       | Some _ => ret (status_json 400 msg_already_registered)
       | None =>
           licenseExists <- PPBRecord_findOne (b_licenseNumber req) ;;
           match licenseExists with
           | None => ret (status_json 400 msg_license_not_found)
           | Some _ =>
               User_create
                 (mkUserAttrs (b_name req) (b_email req) (b_role req)
                    (b_walletAddress req) (b_licenseNumber req) "pending") ;;;
               ret (json msg_signup_ok)
           end
       end)
    (fun error =>
       status_json 500 (VObj [("error", VStr (message_or error "Internal Server Error"))])).

Definition msg_not_approved : jsval :=
  VObj [("error", VStr "User not found or not approved")].

(** [POST /login] *)
Definition post_login (wallet : option string) : World -> Response * World :=
  try_catch
    (user <- User_findOne [(ColWalletAddress, wallet); (ColStatus, Some "approved")] ;;
     match user with
     | None => ret (status_json 404 msg_not_approved)
     | Some u => ret (json (VObj [("success", VBool true); ("user", user_json u)]))
     end)
    (fun _ => status_json 500 (VObj [("error", VStr "Login failed")])).

(** [GET /pending-requests] *)
Definition get_pending_requests : World -> Response * World :=
  try_catch
    (pending <- User_findAll [(ColStatus, Some "pending")] ;;
     ret (json (VObj [("success", VBool true); ("data", VArr (map user_json pending))])))
    (fun _ => status_json 500 (VObj [("error", VStr "Failed to fetch pending requests")])).

Definition msg_already_processed : jsval :=
  VObj [("error", VStr "User not found or already processed")].
Definition msg_approved : jsval :=
  VObj [("success", VBool true); ("message", VStr "User approved and registered on chain")].
Definition msg_rejected : jsval :=
  VObj [("success", VBool true); ("message", VStr "User registration rejected")].

(** [POST /approve-request/:wallet] *)
Definition post_approve_request (env : Env) (wallet : string)
  : World -> Response * World :=
  try_catch
    (found <- User_findOne [(ColWalletAddress, Some wallet); (ColStatus, Some "pending")] ;;
     match found with
     | None => ret (status_json 404 msg_already_processed)
     | Some user =>
         tx <- call (CallRegisterUser (walletAddress user) (name user) (role user))
                    (registerUser env (walletAddress user) (name user) (role user)) ;;
         call (CallWait (hash tx)) (wait tx) ;;;
         User_save_status user "approved" ;;;
         ret (json msg_approved)
     end)
    (fun err => status_json 500 (VObj [("error", VStr (message_or err "Failed to approve user"))])).

(** [POST /reject-request/:wallet] *)
Definition post_reject_request (wallet : string) : World -> Response * World :=
  try_catch
    (found <- User_findOne [(ColWalletAddress, Some wallet); (ColStatus, Some "pending")] ;;
     match found with
     | None => ret (status_json 404 msg_already_processed)
     | Some user =>
         User_destroy user ;;;
         ret (json msg_rejected)
     end)
    (fun _ => status_json 500 (VObj [("error", VStr "Failed to reject user")])).

(** [GET /api/user-status/:wallet] *)
Definition get_user_status (wallet : string) : World -> Response * World :=
  try_catch
    (user <- User_findOne [(ColWalletAddress, Some wallet)] ;;
     match user with
     | None => ret (status_json 404 (VObj [("status", VStr "not_found")]))
     | Some u => ret (json (VObj [("status", VStr (status u))]))
     end)
    (fun _ => status_json 500 (VObj [("error", VStr "Failed to check user status")])).

(** [GET /api/ppb] *)
Definition get_ppb : World -> Response * World :=
  try_catch
    (records <- PPBRecord_findAll ;;
     ret (json (VObj [("success", VBool true); ("data", VArr (map ppb_json records))])))
    (fun _ => status_json 500 (VObj [("error", VStr "Failed to fetch PPB records")])).

(** [GET /user/:wallet] *)
Definition get_user (wallet : string) : World -> Response * World :=
  try_catch
    (user <- User_findOne [(ColWalletAddress, Some wallet)] ;;
     match user with
     | None =>
         ret (status_json 404 (VObj [("success", VBool false); ("message", VStr "User not found")]))
     | Some u => ret (json (VObj [("success", VBool true); ("data", user_json u)]))
     end)
    (fun _ => status_json 500 (VObj [("success", VBool false); ("error", VStr "Server error")])).

Definition msg_invalid_batch : jsval := VObj [("error", VStr "Invalid batch id")].
Definition msg_revoked : jsval :=
  VObj [("success", VBool true); ("message", VStr "Batch revoked on chain")].

(** [!batchId || batchId <= 0] *)
Definition invalid_batch_id (batchId : jsnum) : bool :=
  negb (num_truthy batchId) || num_le0 batchId.

(** [POST /revoke-batch/:id], with [req.params.id] and [req.body.reason]. *)
Definition post_revoke_batch (env : Env) (batchIdRaw : string) (body_reason : jsval)
  : World -> Response * World :=
  try_catch
    (let reason := nullish_or body_reason (VStr "Revoked by admin") in
     let batchId := Number env batchIdRaw in
     if invalid_batch_id batchId then
       ret (status_json 400 msg_invalid_batch)
     else
       tx <- call (CallRevokeBatch [VNum batchId; reason])
                  (revokeBatch env [VNum batchId; reason]) ;;
       call (CallWait (hash tx)) (wait tx) ;;;
       ret (json msg_revoked))
    (fun err => status_json 500 (VObj [("error", VStr (message_or err "Failed to revoke batch"))])).

(** One entry of the seeding loop, for loop index [i]. *)
Definition seed_entry (i : Z) : PPBAttrs :=
  mkPPBAttrs ("Verified Entity " ++ string_of_Z i)
             ("verified" ++ string_of_Z i ++ "@example.com")
             ("PPB-" ++ string_of_Z (1000 + i))
             (Z.rem (i - 1) 3 + 1).

(** [for (let i = 1; i <= 20; i++) sample.push(...)], from index [i] on;
    the fuel bounds the number of iterations. *)
Fixpoint seed_loop (fuel : nat) (i : Z) (sample : list PPBAttrs) : list PPBAttrs :=
  match fuel with
  | O => sample
  | S fuel' =>
      if i <=? 20 then seed_loop fuel' (i + 1) (sample ++ [seed_entry i]) else sample
  end.

Definition seed_sample : list PPBAttrs := seed_loop 21 1 [].

Inductive Boot : Type := Listening | Exited.

(** The start-up block: seed the registry mirror when it is empty, then
    listen; any failure exits the process. *)
Definition startup : World -> Boot * World :=
  fun w =>
    match
      (count <- PPBRecord_count ;;
       if count =? 0 then PPBRecord_bulkCreate seed_sample else ret tt) w
    with
    | (Ok _, w') => (Listening, w')
    | (Throw _, w') => (Exited, w')
    end.

End Server.

(** ** The pinning back end ([uploadToIPFS] and its routes) *)

Module Proxy.

Fixpoint assoc (k : string) (fields : list (string * jsval)) : jsval :=
  match fields with
  | [] => VUndefined
  | (k', v) :: rest => if (k' =? k)%string then v else assoc k rest
  end.

(** [v.IpfsHash] for a property no primitive wrapper defines: reading it
    off [undefined] or [null] is a TypeError. *)
Definition get_IpfsHash (v : jsval) : result jsval :=
  match v with
  | VUndefined =>
      Throw (error_of "Cannot read properties of undefined (reading 'IpfsHash')")
  | VNull =>
      Throw (error_of "Cannot read properties of null (reading 'IpfsHash')")
  | VObj fields => Ok (assoc "IpfsHash" fields)
  | _ => Ok VUndefined
  end.

(** [try { c } catch (error) { throw error }] *)
Definition rethrow {A} (c : M A) : M A :=
  fun w =>
    match c w with
    | (Ok a, w') => (Ok a, w')
    | (Throw e, w') => (Throw e, w')
    end.

(** [uploadToIPFS(product)]: posts the document, returns [response.data]. *)
Definition uploadToIPFS (env : Env) (product : jsval) : M jsval :=
  rethrow (call (CallPin product) (pinFileToIPFS env product)).

Definition msg_missing_fields : jsval :=
  VObj [("error", VStr "Missing fields: name, batchId, details")].

(** [POST /register-product], with the three body fields
    ([VUndefined] when absent). *)
Definition post_register_product (env : Env) (name batchId details : jsval)
  : World -> Response * World :=
  if negb (truthy name) || negb (truthy batchId) || negb (truthy details) then
    fun w => (status_json 400 msg_missing_fields, w)
  else
    try_catch
      (ipfsResponse <- uploadToIPFS env details ;;
       ipfsHash <- lift (get_IpfsHash ipfsResponse) ;;
       tx <- call (CallRegisterProduct name batchId ipfsHash)
                  (registerProduct env name batchId ipfsHash) ;;
       call (CallWait (hash tx)) (wait tx) ;;;
       let verifyUrl :=
         ToString env (FRONTEND_URL env) ++ "/verify/" ++ ToString env batchId in
       qrCodeData <- call (CallQr verifyUrl) (toDataURL env verifyUrl) ;;
       ret (json (VObj [("txHash", VStr (hash tx)); ("ipfsHash", ipfsHash);
                        ("verifyUrl", VStr verifyUrl); ("qrCode", VStr qrCodeData)])))
      (fun err => status_json 500 (VObj [("error", opt_str (message err))])).

Definition msg_missing_batchId : jsval := VObj [("error", VStr "Missing batchId")].

(** [POST /revoke-batch], with [req.body.batchId]. *)
Definition post_revoke_batch (env : Env) (batchId : jsval)
  : World -> Response * World :=
  if negb (truthy batchId) then
    fun w => (status_json 400 msg_missing_batchId, w)
  else
    try_catch
      (tx <- call (CallRevokeBatch [batchId]) (revokeBatch env [batchId]) ;;
       call (CallWait (hash tx)) (wait tx) ;;;
       ret (json (VObj [("txHash", VStr (hash tx))])))
      (fun err => status_json 500 (VObj [("error", opt_str (message err))])).

End Proxy.

(** ** Requests, runs and the store invariant *)

Inductive Request : Type :=
| Signup (b : Server.SignupBody)
| Login (wallet : option string)
| PendingRequests
| Approve (wallet : string)
| Reject (wallet : string)
| UserStatus (wallet : string)
| GetUser (wallet : string)
| GetPpb
| RevokeBatch (batchIdRaw : string) (body_reason : jsval).

Definition handle (env : Env) (req : Request) : World -> Response * World :=
  match req with
  | Signup b => Server.post_signup b
  | Login wallet => Server.post_login wallet
  | PendingRequests => Server.get_pending_requests
  | Approve wallet => Server.post_approve_request env wallet
  | Reject wallet => Server.post_reject_request wallet
  | UserStatus wallet => Server.get_user_status wallet
  | GetUser wallet => Server.get_user wallet
  | GetPpb => Server.get_ppb
  | RevokeBatch raw reason => Server.post_revoke_batch env raw reason
  end.

(** The states the service can be in: the empty database file, then any
    sequence of (re)starts and requests, each against an arbitrary
    environment. *)
Inductive reachable : World -> Prop :=
| reach_empty : reachable empty_world
| reach_startup w : reachable w -> reachable (snd (Server.startup w))
| reach_request env req w : reachable w -> reachable (snd (handle env req w)).

(** The same environment with another [ethers.isAddress]. *)
Definition with_isAddress (f : string -> result bool) (env : Env) : Env :=
  mkEnv (registerUser env) (revokeBatch env) (registerProduct env)
        (pinFileToIPFS env) (toDataURL env) f (Number env) (ToString env)
        (FRONTEND_URL env).

(** The outbound calls a run issued. *)
Definition issued (w w' : World) : list Event :=
  skipn (length (calls w)) (calls w').

Fixpoint distinct_by {A K : Type} (eqb : K -> K -> bool) (key : A -> K) (l : list A)
  : bool :=
  match l with
  | [] => true
  | x :: rest =>
      negb (existsb (fun y => eqb (key y) (key x)) rest) && distinct_by eqb key rest
  end.

(** What the schema and the handlers maintain on the [User] table: the
    unique index on [walletAddress], the primary key below the
    AUTOINCREMENT counter, and no empty wallet address. *)
Definition store_ok (w : World) : bool :=
  distinct_by String.eqb walletAddress (users w)
  && distinct_by Z.eqb id (users w)
  && forallb (fun u => id u <=? user_seq w) (users w)
  && forallb (fun u => str_nonempty (walletAddress u)) (users w).

Definition has_wallet (wallet : string) (w : World) : bool :=
  existsb (fun u => (walletAddress u =? wallet)%string) (users w).

Definition has_row (wallet st : string) (w : World) : bool :=
  existsb (fun u => (walletAddress u =? wallet)%string && (status u =? st)%string)
          (users w).

(** The row [Approve] and [Reject] select. *)
Definition pending_row (wallet : string) (w : World) : option User :=
  find (row_matches [(ColWalletAddress, wallet); (ColStatus, "pending")]) (users w).

Definition known_license (l : string) (w : World) : bool :=
  existsb (fun r => (ppb_licenseNumber r =? l)%string) (ppb w).

(** The on-chain registration, or its confirmation wait, fails. *)
Definition chain_fails (r : result Tx) : bool :=
  match r with
  | Throw _ => true
  | Ok tx => match wait tx with Throw _ => true | Ok _ => false end
  end.

Definition status_body (s : string) : jsval := VObj [("status", VStr s)].

Definition is_nan (n : jsnum) : bool :=
  match n with NaN => true | _ => false end.

(** ** Shapes of results *)

Definition error_body (m : string) : jsval := VObj [("error", VStr m)].

(** The world a successful signup leaves behind. *)
Definition signed_up (req : Server.SignupBody) (w : World) : World :=
  match Server.b_name req, Server.b_email req, Server.b_role req,
        Server.b_walletAddress req, Server.b_licenseNumber req with
  | Some n, Some e, Some r, Some wa, Some l =>
      mkWorld (users w ++ [mkUser (user_seq w + 1) n e r wa l "pending"])
              (user_seq w + 1) (ppb w) (ppb_seq w) (calls w)
  | _, _, _, _, _ => w
  end.

Definition complete (req : Server.SignupBody) : bool :=
  match Server.b_name req, Server.b_email req, Server.b_role req with
  | Some _, Some _, Some _ => true
  | _, _, _ => false
  end.

(** ** Two statements of the specification the code does not satisfy *)

(** "For every licenseNumber with no matching PPBRecord, Signup fails with
    NotFoundError (HTTP 404) and no row is created." *)
Definition unknown_license_is_404 : Prop :=
  forall (req : Server.SignupBody) (l : string) (w : World),
    Server.b_licenseNumber req = Some l ->
    known_license l w = false ->
    code (fst (Server.post_signup req w)) = 404
    /\ users (snd (Server.post_signup req w)) = users w.

(** A body [batchId] the specification calls missing or non-positive:
    absent, or a number that is zero, negative or NaN. *)
Definition missing_or_non_positive (batchId : jsval) : bool :=
  match batchId with
  | VUndefined => true
  | VNum n => Server.invalid_batch_id n
  | _ => false
  end.

(** "For every request whose batchId is missing or non-positive,
    RevokeBatch fails with ValidationError and no contract call is made",
    on both revoke routes. *)
Definition revoke_rejects_non_positive : Prop :=
  (forall env raw reason w,
      Server.invalid_batch_id (Number env raw) = true ->
      code (fst (Server.post_revoke_batch env raw reason w)) = 400
      /\ issued w (snd (Server.post_revoke_batch env raw reason w)) = [])
  /\ (forall env batchId w,
         missing_or_non_positive batchId = true ->
         code (fst (Proxy.post_revoke_batch env batchId w)) = 400
         /\ issued w (snd (Proxy.post_revoke_batch env batchId w)) = []).

(** ** Sample data *)

Definition acme : Server.SignupBody :=
  Server.mkSignup (Some "Acme Pharma") (Some "a@x.com") (Some 1) (Some "0xABC")
                  (Some "PPB-1001").

Definition acme_unlicensed : Server.SignupBody :=
  Server.mkSignup (Some "Acme Pharma") (Some "a@x.com") (Some 1) (Some "0xABC")
                  (Some "PPB-9999").

Definition seeded_world : World := snd (Server.startup empty_world).

Definition tx_confirmed : Tx := mkTx "0xfeed" (Ok tt).
Definition tx_reverted : Tx := mkTx "0xdead" (Throw (error_of "transaction reverted")).

(** Stand-ins for the runtime's conversions, exact on the inputs the
    examples use: decimal integer literals for [Number], strings and small
    integers for template literals, and the 0x-prefixed 40-digit form for
    [ethers.isAddress]. *)
Definition digit_of (c : ascii) : option Z :=
  let n := Z.of_nat (nat_of_ascii c) in
  if (48 <=? n) && (n <=? 57) then Some (n - 48) else None.

Fixpoint digits_value (s : string) (acc : Z) : option Z :=
  match s with
  | EmptyString => Some acc
  | String c rest =>
      match digit_of c with
      | Some d => digits_value rest (10 * acc + d)
      | None => None
      end
  end.

Definition integer_literal (s : string) : jsnum :=
  match s with
  | EmptyString => num 0
  | String "-" EmptyString => NaN
  | String "-" rest =>
      match digits_value rest 0 with Some z => num (- z) | None => NaN end
  | _ => match digits_value s 0 with Some z => num z | None => NaN end
  end.

Definition template_string (v : jsval) : string :=
  match v with
  | VStr s => s
  | VNum (Fin m 0) => string_of_Z m
  | VBool true => "true"
  | VBool false => "false"
  | VNull => "null"
  | VUndefined => "undefined"
  | _ => "[object Object]"
  end.

Definition is_hex_digit (c : ascii) : bool :=
  let n := Z.of_nat (nat_of_ascii c) in
  ((48 <=? n) && (n <=? 57)) || ((65 <=? n) && (n <=? 70))
  || ((97 <=? n) && (n <=? 102)).

Fixpoint all_hex (s : string) : bool :=
  match s with
  | EmptyString => true
  | String c rest => is_hex_digit c && all_hex rest
  end.

Definition is_hex_address (s : string) : bool :=
  match s with
  | String "0" (String "x" digits) => Nat.eqb (String.length digits) 40 && all_hex digits
  | _ => false
  end.

(** An environment in which every collaborator answers. *)
Definition env_up : Env :=
  mkEnv (fun _ _ _ => Ok tx_confirmed) (fun _ => Ok tx_confirmed)
        (fun _ _ _ => Ok tx_confirmed)
        (fun _ => Ok (VObj [("IpfsHash", VStr "QmHash")]))
        (fun _ => Ok "data:image/png;base64,AAAA")
        (fun a => Ok (is_hex_address a))
        integer_literal
        template_string
        (VStr "http://localhost:3000").

(** The chain rejects every write; the pinning service is unreachable. *)
Definition env_down : Env :=
  mkEnv (fun _ _ _ => Throw (error_of "execution reverted"))
        (fun _ => Throw (error_of "execution reverted"))
        (fun _ _ _ => Throw (error_of "execution reverted"))
        (fun _ => Throw (error_of "Request failed with status code 401"))
        (fun _ => Ok "data:image/png;base64,AAAA")
        (fun a => Ok (is_hex_address a))
        integer_literal
        template_string
        VUndefined.

(** The chain accepts the write but the confirmation wait fails. *)
Definition env_reverting : Env :=
  mkEnv (fun _ _ _ => Ok tx_reverted) (fun _ => Ok tx_reverted)
        (fun _ _ _ => Ok tx_reverted)
        (fun _ => Ok VNull)
        (fun _ => Ok "data:image/png;base64,AAAA")
        (fun _ => Throw (error_of "invalid address"))
        integer_literal
        template_string
        VUndefined.

Definition seed_licenses : list string :=
  ["PPB-1001"; "PPB-1002"; "PPB-1003"; "PPB-1004"; "PPB-1005";
   "PPB-1006"; "PPB-1007"; "PPB-1008"; "PPB-1009"; "PPB-1010";
   "PPB-1011"; "PPB-1012"; "PPB-1013"; "PPB-1014"; "PPB-1015";
   "PPB-1016"; "PPB-1017"; "PPB-1018"; "PPB-1019"; "PPB-1020"].

Definition pending_world : World := snd (Server.post_signup acme seeded_world).
Definition approved_world : World :=
  snd (Server.post_approve_request env_up "0xABC" pending_world).

From Stdlib Require Import DecimalPos DecimalZ.

(** ** The seed viewer *)

Module Viewer.

(** [GET /seeded] *)
Definition get_seeded : World -> Response * World :=
  fun w =>
    match PPBRecord_findAll w with
    | (Ok records, w') =>
        (json (VObj [("success", VBool true);
                     ("total", VNum (num (Z.of_nat (length records))));
                     ("data", VArr (map Server.ppb_json records))]), w')
    | (Throw error, w') =>
        (status_json 500 (VObj [("error", VStr "Failed to fetch seeded data");
                                ("details", opt_str (message error))]), w')
    end.

End Viewer.

(** ** The contract gateways

    The stateless routes: the remaining routes of the pinning back end
    (verify with QR code, transfer of ownership, on-chain signup and login),
    the bare proxy that validates nothing, and the Pinata upload and batch
    listings of [src/server.ts].  A handler returns its response and the
    outbound calls it issued, in order. *)

Module Gateway.

(** A thrown value, with the three fields the routes read off it. *)
Record Failure : Type := mkFailure {
  f_reason : option string;
  f_data_message : option string;
  f_message : option string
}.

Definition plain_error (m : string) : Failure := mkFailure None None (Some m).

Inductive outcome (A : Type) : Type :=
| Done (a : A)
| Failed (e : Failure).
Arguments Done {A} a.
Arguments Failed {A} e.

Record GTx : Type := mkGTx { tx_hash : string; tx_wait : outcome unit }.

(** A batch as the contract returns it; [id] and [timestamp] are bigints. *)
Record ChainBatch : Type := mkChainBatch {
  cb_id : option Z;
  cb_name : jsval;
  cb_batchNumber : jsval;
  cb_ipfsHash : jsval;
  cb_manufacturer : jsval;
  cb_currentOwner : jsval;
  cb_revoked : jsval;
  cb_timestamp : option Z;
  cb_revokeReason : jsval
}.

(** What [fetch] resolves to. *)
Record FetchResponse : Type := mkFetchResponse {
  resp_ok : bool;
  resp_text : outcome string;
  resp_json : outcome jsval
}.

Record Services : Type := mkServices {
  verifyBatch : string -> outcome jsval;
  verifyProduct : string -> outcome (list jsval);
  transferOwnership : jsval -> jsval -> outcome GTx;
  revokeBatch : jsval -> outcome GTx;
  registerProduct : jsval -> jsval -> jsval -> outcome GTx;
  registerUser : jsval -> string -> jsval -> outcome GTx;
  login : jsval -> string -> outcome jsval;
  getBatchesByManufacturer : string -> outcome (list ChainBatch);
  getAllBatches : outcome (list ChainBatch);
  (* ethers.id: the keccak256 of a string; throws on anything else *)
  ethers_id : jsval -> outcome string;
  toDataURL : string -> outcome string;
  (* fetch to pinJSONToIPFS with bearer token, metadata name and content *)
  fetch_pin : string -> jsval -> jsval -> outcome FetchResponse;
  PINATA_JWT : option string;
  Date_now : Z;
  (* Number(bigint): the nearest double *)
  Number_of_bigint : Z -> jsnum
}.

Inductive Call : Type :=
| CVerifyBatch (batchId : string)
| CVerifyProduct (batchId : string)
| CTransferOwnership (batchId newOwner : jsval)
| CRevokeBatch (batchId : jsval)
| CRegisterProduct (name batchId ipfsHash : jsval)
| CRegisterUser (username : jsval) (passwordHash : string) (role : jsval)
| CLogin (username : jsval) (passwordHash : string)
| CGetBatchesByManufacturer (wallet : string)
| CGetAllBatches
| CWait (txHash : string)
| CQr (text : string)
| CFetchPin (token : string) (pinName content : jsval).

Definition is_write (c : Call) : bool :=
  match c with
  | CTransferOwnership _ _ | CRevokeBatch _ | CRegisterProduct _ _ _
  | CRegisterUser _ _ _ => true
  | _ => false
  end.

(** Writer-and-exception monad: the value or the thrown failure, and the
    calls issued so far. *)
Definition G (A : Type) : Type := (outcome A * list Call)%type.

Definition done {A} (a : A) : G A := (Done a, []).

Definition lift_outcome {A} (o : outcome A) : G A := (o, []).

Definition invoke {A} (c : Call) (answer : outcome A) : G A := (answer, [c]).

Definition gbind {A B} (c : G A) (k : A -> G B) : G B :=
  match c with
  | (Done a, l) => let (r, l') := k a in (r, (l ++ l')%list)
  | (Failed e, l) => (Failed e, l)
  end.

Notation "x <~ c ;; k" := (gbind c (fun x => k))
  (at level 61, c at next level, right associativity).

(** [try { c } catch (err) { h err }] *)
Definition guard (c : G Response) (h : Failure -> Response) : Response * list Call :=
  match c with
  | (Done r, l) => (r, l)
  | (Failed e, l) => (h e, l)
  end.

(** [v.k] for a key that no primitive wrapper or array defines. *)
Definition read (v : jsval) (k : string) : G jsval :=
  match v with
  | VUndefined =>
      lift_outcome
        (Failed (plain_error ("Cannot read properties of undefined (reading '" ++ k ++ "')")))
  | VNull =>
      lift_outcome
        (Failed (plain_error ("Cannot read properties of null (reading '" ++ k ++ "')")))
  | VObj fields => done (Proxy.assoc k fields)
  | _ => done VUndefined
  end.

(** [const { k, ... } = req.body], at its first property: a body that is
    [undefined] or [null] cannot be destructured. *)
Definition destructure (body : jsval) (k : string) : G jsval :=
  match body with
  | VUndefined =>
      lift_outcome
        (Failed (plain_error ("Cannot destructure property '" ++ k
                              ++ "' of 'req.body' as it is undefined.")))
  | VNull =>
      lift_outcome
        (Failed (plain_error ("Cannot destructure property '" ++ k
                              ++ "' of 'req.body' as it is null.")))
  | _ => read body k
  end.

(** What [read] yields on a value that is neither [undefined] nor [null]. *)
Definition field (v : jsval) (k : string) : jsval :=
  match v with
  | VObj fields => Proxy.assoc k fields
  | _ => VUndefined
  end.

Definition nonempty_opt (v : option string) : option string :=
  match v with
  | Some s => if str_nonempty s then Some s else None
  | None => None
  end.

(** [err.reason || err.data?.message || err.message || fallback] *)
Definition reason_or (e : Failure) (fallback : string) : string :=
  match nonempty_opt (f_reason e), nonempty_opt (f_data_message e),
        nonempty_opt (f_message e) with
  | Some r, _, _ => r
  | None, Some d, _ => d
  | None, None, Some m => m
  | None, None, None => fallback
  end.

(** [{ error: err.message }] *)
Definition message_body (e : Failure) : jsval := VObj [("error", opt_str (f_message e))].

(** *** The pinning back end, remaining routes *)

(** [GET /verify/:batchId], with the QR code of the batch id. *)
Definition get_verify (s : Services) (batchId : string) : Response * list Call :=
  guard
    (data <~ invoke (CVerifyBatch batchId) (verifyBatch s batchId) ;;
     qrCode <~ invoke (CQr batchId) (toDataURL s batchId) ;;
     valid <~ read data "valid" ;;
     owner <~ read data "owner" ;;
     revoked <~ read data "revoked" ;;
     history <~ read data "history" ;;
     done (json (VObj [("valid", valid); ("owner", owner); ("revoked", revoked);
                       ("history", history); ("qrCode", VStr qrCode)])))
    (fun err => status_json 500 (message_body err)).

(** [POST /transfer-ownership], with the two body fields. *)
Definition post_transfer_ownership (s : Services) (batchId newOwner : jsval)
  : Response * list Call :=
  if negb (truthy batchId) || negb (truthy newOwner) then
    (status_json 400 (VObj [("error", VStr "Missing batchId or newOwner")]), [])
  else
    guard
      (tx <~ invoke (CTransferOwnership batchId newOwner)
                    (transferOwnership s batchId newOwner) ;;
       _ <~ invoke (CWait (tx_hash tx)) (tx_wait tx) ;;
       done (json (VObj [("txHash", VStr (tx_hash tx))])))
      (fun err => status_json 500 (message_body err)).

(** [POST /signup]: registers the user on chain under the hash of the
    password. *)
Definition post_signup (s : Services) (body : jsval) : Response * list Call :=
  guard
    (username <~ destructure body "username" ;;
     password <~ read body "password" ;;
     role <~ read body "role" ;;
     if negb (truthy username) || negb (truthy password) || negb (truthy role) then
       done (status_json 400 (VObj [("error", VStr "All fields are required")]))
     else
       passwordHash <~ lift_outcome (ethers_id s password) ;;
       tx <~ invoke (CRegisterUser username passwordHash role)
                    (registerUser s username passwordHash role) ;;
       _ <~ invoke (CWait (tx_hash tx)) (tx_wait tx) ;;
       done (json (VObj [("success", VBool true);
                         ("message", VStr "User registered successfully")])))
    (fun err => status_json 500 (VObj [("error", VStr (reason_or err "Signup failed"))])).

(** [POST /login]: asks the contract. *)
Definition post_login (s : Services) (body : jsval) : Response * list Call :=
  guard
    (username <~ destructure body "username" ;;
     password <~ read body "password" ;;
     if negb (truthy username) || negb (truthy password) then
       done (status_json 400 (VObj [("error", VStr "All fields are required")]))
     else
       passwordHash <~ lift_outcome (ethers_id s password) ;;
       user <~ invoke (CLogin username passwordHash) (login s username passwordHash) ;;
       user_exists <~ read user "exists" ;;
       if negb (truthy user_exists) then
         done (status_json 401 (VObj [("error", VStr "Invalid username or password")]))
       else
         user_role <~ read user "role" ;;
         user_wallet <~ read user "wallet" ;;
         done (json (VObj [("success", VBool true);
                           ("message", VStr "Login successful");
                           ("user", VObj [("username", username); ("role", user_role);
                                          ("wallet", user_wallet)])])))
    (fun err => status_json 500 (VObj [("error", VStr (reason_or err "Login failed"))])).

(** *** The bare proxy (second program of [src/server.ts]) *)

(** [const [valid, owner, revoked, history] = ...] *)
Definition element (l : list jsval) (i : nat) : jsval := nth i l VUndefined.

Definition bare_verify (s : Services) (batchId : string) : Response * list Call :=
  guard
    (r <~ invoke (CVerifyProduct batchId) (verifyProduct s batchId) ;;
     done (json (VObj [("valid", element r 0); ("owner", element r 1);
                       ("revoked", element r 2); ("history", element r 3)])))
    (fun err => status_json 500 (message_body err)).

Definition bare_register_product (s : Services) (name batchId ipfsHash : jsval)
  : Response * list Call :=
  guard
    (tx <~ invoke (CRegisterProduct name batchId ipfsHash)
                  (registerProduct s name batchId ipfsHash) ;;
     _ <~ invoke (CWait (tx_hash tx)) (tx_wait tx) ;;
     done (json (VObj [("txHash", VStr (tx_hash tx))])))
    (fun err => status_json 500 (message_body err)).

Definition bare_transfer_ownership (s : Services) (batchId newOwner : jsval)
  : Response * list Call :=
  guard
    (tx <~ invoke (CTransferOwnership batchId newOwner)
                  (transferOwnership s batchId newOwner) ;;
     _ <~ invoke (CWait (tx_hash tx)) (tx_wait tx) ;;
     done (json (VObj [("txHash", VStr (tx_hash tx))])))
    (fun err => status_json 500 (message_body err)).

Definition bare_revoke_batch (s : Services) (batchId : jsval) : Response * list Call :=
  guard
    (tx <~ invoke (CRevokeBatch batchId) (revokeBatch s batchId) ;;
     _ <~ invoke (CWait (tx_hash tx)) (tx_wait tx) ;;
     done (json (VObj [("txHash", VStr (tx_hash tx))])))
    (fun err => status_json 500 (message_body err)).

(** *** Pinata upload and batch listings of [src/server.ts] *)

(** [typeof raw === "object" && raw !== null] *)
Definition is_object (v : jsval) : bool :=
  match v with
  | VObj _ | VArr _ => true
  | _ => false
  end.

(** [a || b] *)
Definition or_else (a b : jsval) : jsval := if truthy a then a else b.

(** [POST /pinata/upload] *)
Definition post_pinata_upload (s : Services) (body : jsval) : Response * list Call :=
  guard
    (body_metadata <~ read body "metadata" ;;
     let metadata := nullish_or body_metadata body in
     match nonempty_opt (PINATA_JWT s) with
     | None =>
         done (status_json 500 (VObj [("error", VStr "Pinata JWT not configured on server")]))
     | Some token =>
         metadata_name <~ read metadata "name" ;;
         let pinName :=
           nullish_or metadata_name (VStr ("batch-" ++ string_of_Z (Date_now s))) in
         response <~ invoke (CFetchPin token pinName metadata)
                            (fetch_pin s token pinName metadata) ;;
         if negb (resp_ok response) then
           text <~ lift_outcome (resp_text response) ;;
           done (status_json 500 (VObj [("error", VStr "Pinata upload failed");
                                        ("details", VStr text)]))
         else
           raw <~ lift_outcome (resp_json response) ;;
           if negb (is_object raw) then
             done (status_json 500 (VObj [("error", VStr "Invalid Pinata response");
                                          ("raw", raw)]))
           else
             upper <~ read raw "IpfsHash" ;;
             lower <~ read raw "ipfsHash" ;;
             let ipfsHash := or_else (or_else upper lower) VNull in
             if negb (truthy ipfsHash) then
               done (status_json 500 (VObj [("error", VStr "Pinata response missing hash");
                                            ("raw", raw)]))
             else
               done (json (VObj [("success", VBool true); ("ipfsHash", ipfsHash)]))
     end)
    (fun err =>
       status_json 500
         (VObj [("error",
                 VStr (match nonempty_opt (f_message err) with
                       | Some m => m
                       | None => "Pinata upload failed"
                       end))])).

(** [x?.toString()] on a bigint *)
Definition bigint_string (x : option Z) : jsval :=
  match x with
  | Some z => VStr (string_of_Z z)
  | None => VUndefined
  end.

(** [Number(x)] on a bigint; [Number(undefined)] is NaN. *)
Definition bigint_number (s : Services) (x : option Z) : jsval :=
  match x with
  | Some z => VNum (Number_of_bigint s z)
  | None => VNum NaN
  end.

(** The projection of [GET /batches]. *)
Definition format_batch (b : ChainBatch) : jsval :=
  VObj [("id", bigint_string (cb_id b)); ("name", cb_name b);
        ("batchNumber", cb_batchNumber b); ("ipfsHash", cb_ipfsHash b);
        ("manufacturer", cb_manufacturer b); ("currentOwner", cb_currentOwner b);
        ("revoked", cb_revoked b); ("timestamp", bigint_string (cb_timestamp b));
        ("revokeReason", cb_revokeReason b)].

(** The projection of [GET /manufacturer/batches]. *)
Definition format_manufacturer_batch (s : Services) (b : ChainBatch) : jsval :=
  VObj [("id", bigint_string (cb_id b)); ("name", cb_name b);
        ("batchNumber", cb_batchNumber b); ("ipfsHash", cb_ipfsHash b);
        ("manufacturer", cb_manufacturer b); ("currentOwner", cb_currentOwner b);
        ("revoked", cb_revoked b); ("revokeReason", cb_revokeReason b);
        ("timestamp", bigint_number s (cb_timestamp b))].

(** [GET /batches] *)
Definition get_batches (s : Services) : Response * list Call :=
  guard
    (batches <~ invoke CGetAllBatches (getAllBatches s) ;;
     done (json (VObj [("success", VBool true);
                       ("data", VArr (map format_batch batches))])))
    (fun error =>
       status_json 500
         (VObj [("success", VBool false);
                ("message", VStr "Failed to fetch batches from blockchain");
                ("error", opt_str (f_message error))])).

(** [GET /manufacturer/batches?walletAddress=] *)
Definition get_manufacturer_batches (s : Services) (walletAddress : option string)
  : Response * list Call :=
  guard
    (match nonempty_opt walletAddress with
     | None =>
         done (status_json 400 (VObj [("success", VBool false);
                                      ("message", VStr "Missing wallet address")]))
     | Some wallet =>
         batches <~ invoke (CGetBatchesByManufacturer wallet)
                           (getBatchesByManufacturer s wallet) ;;
         done (json (VObj [("success", VBool true);
                           ("data", VArr (map (format_manufacturer_batch s) batches))]))
     end)
    (fun _ =>
       status_json 500
         (VObj [("success", VBool false);
                ("message", VStr "Error fetching manufacturer batches")])).

(** [Array.prototype.map] with a callback that may throw. *)
Fixpoint map_outcome {A B} (f : A -> outcome B) (l : list A) : outcome (list B) :=
  match l with
  | [] => Done []
  | x :: rest =>
      match f x with
      | Failed e => Failed e
      | Done y =>
          match map_outcome f rest with
          | Failed e => Failed e
          | Done ys => Done (y :: ys)
          end
      end
  end.

(** The projection of [GET /admin/all-batches]; [to_number] is ECMAScript
    [Number] on a decimal string.  Reading [toString] off an absent id
    throws. *)
Definition format_admin_batch (to_number : string -> jsnum) (b : ChainBatch)
  : outcome jsval :=
  match cb_id b with
  | None =>
      Failed (plain_error "Cannot read properties of undefined (reading 'toString')")
  | Some z =>
      Done (VObj [("id", VNum (to_number (string_of_Z z))); ("name", cb_name b);
                  ("batchNumber", cb_batchNumber b); ("ipfsHash", cb_ipfsHash b);
                  ("manufacturer", cb_manufacturer b);
                  ("currentOwner", cb_currentOwner b);
                  ("revoked", VBool (truthy (cb_revoked b)));
                  ("timestamp",
                   VNum (match cb_timestamp b with
                         | Some t => to_number (string_of_Z t)
                         | None => NaN
                         end));
                  ("revokeReason", or_else (cb_revokeReason b) (VStr EmptyString))])
  end.

(** [GET /admin/all-batches] *)
Definition get_all_batches (s : Services) (to_number : string -> jsnum)
  : Response * list Call :=
  guard
    (raw <~ invoke CGetAllBatches (getAllBatches s) ;;
     batches <~ lift_outcome (map_outcome (format_admin_batch to_number) raw) ;;
     done (json (VObj [("success", VBool true); ("data", VArr batches)])))
    (fun err =>
       status_json 500
         (VObj [("error",
                 VStr (match nonempty_opt (f_message err) with
                       | Some m => m
                       | None => "Failed to fetch batches"
                       end))])).

End Gateway.

(** ** Workflow predicates *)

(** The statuses the handlers write. *)
Definition written_status (s : string) : bool :=
  (s =? "pending")%string || (s =? "approved")%string.

(** The log holds the on-chain registration of the row, followed by its
    confirmation wait. *)
Definition registered_on_chain (u : User) (l : list Event) : Prop :=
  exists before txHash after,
    l = (before
         ++ CallRegisterUser (walletAddress u) (name u) (role u)
            :: CallWait txHash :: after)%list.

(** A row is pending, or approved with its registration on the log. *)
Definition row_ok (l : list Event) (u : User) : Prop :=
  status u = "pending" \/ (status u = "approved" /\ registered_on_chain u l).

(** The rows [GET /pending-requests] lists. *)
Definition pending_rows (w : World) : list User :=
  filter (row_matches [(ColStatus, "pending")]) (users w).

Definition writes_users (req : Request) : bool :=
  match req with
  | Signup _ | Approve _ | Reject _ => true
  | _ => false
  end.

Definition calls_out (req : Request) : bool :=
  match req with
  | Approve _ | RevokeBatch _ _ => true
  | _ => false
  end.

(** ** All routes of the registration back end *)

(** The thirteen routes of the first program of [src/server.ts]: the nine
    that use the store, and the four that only reach outside. *)
Inductive Route : Type :=
| Stored (req : Request)
| Batches
| PinataUpload (body : jsval)
| ManufacturerBatches (walletAddress : option string)
| AdminAllBatches.

(** A route's answer, the world it leaves, and the calls it issued through
    the read-only contract binding and [fetch]. *)
Definition serve (env : Env) (s : Gateway.Services) (to_number : string -> jsnum)
  (r : Route) (w : World) : Response * World * list Gateway.Call :=
  match r with
  | Stored req => (handle env req w, [])
  | Batches => (fst (Gateway.get_batches s), w, snd (Gateway.get_batches s))
  | PinataUpload body =>
      (fst (Gateway.post_pinata_upload s body), w,
       snd (Gateway.post_pinata_upload s body))
  | ManufacturerBatches walletAddress =>
      (fst (Gateway.get_manufacturer_batches s walletAddress), w,
       snd (Gateway.get_manufacturer_batches s walletAddress))
  | AdminAllBatches =>
      (fst (Gateway.get_all_batches s to_number), w,
       snd (Gateway.get_all_batches s to_number))
  end.

Definition route_writes_users (r : Route) : bool :=
  match r with
  | Stored req => writes_users req
  | _ => false
  end.

(** The routes with no outbound call in their source. *)
Definition route_is_silent (r : Route) : bool :=
  match r with
  | Stored req => negb (calls_out req)
  | _ => false
  end.

(** ** Requests in flight

    A handler suspends at every [await].  The routes that write run here
    in the pieces their awaits cut them into, several requests at a time:
    a signup between its two lookups and [User.create], an approval
    between [registerUser], [tx.wait()] and [user.save()], a rejection
    between its lookup and [user.destroy()]. *)

Inductive InFlight : Type :=
| Creating (req : Server.SignupBody)
| Registering (user : User)
| Confirming (user : User) (tx : Tx)
| Destroying (user : User).

Definition signup_attrs (req : Server.SignupBody) : UserAttrs :=
  mkUserAttrs (Server.b_name req) (Server.b_email req) (Server.b_role req)
              (Server.b_walletAddress req) (Server.b_licenseNumber req) "pending".

Definition registerUser_call (u : User) : Event :=
  CallRegisterUser (walletAddress u) (name u) (role u).

Inductive overlapping : World -> list InFlight -> Prop :=
| over_empty : overlapping empty_world []
  (* a restart drops whatever was in flight *)
| over_startup w ts :
    overlapping w ts -> overlapping (snd (Server.startup w)) []
  (* a request that runs without interruption *)
| over_request env req w ts :
    overlapping w ts -> overlapping (snd (handle env req w)) ts
  (* the calls of a revocation, issued one await apart *)
| over_call ev w ts :
    overlapping w ts -> is_registerUser ev = false -> overlapping (log ev w) ts
  (* signup: both lookups passed *)
| over_signup_checked req wallet l w ts :
    overlapping w ts ->
    Server.b_walletAddress req = Some wallet -> str_nonempty wallet = true ->
    has_wallet wallet w = false ->
    Server.b_licenseNumber req = Some l -> known_license l w = true ->
    overlapping w (Creating req :: ts)
  (* signup: User.create *)
| over_signup_create req w t1 t2 :
    overlapping w (t1 ++ Creating req :: t2) ->
    overlapping (snd (User_create (signup_attrs req) w)) (t1 ++ t2)
  (* approve: pending row found, registerUser issued *)
| over_approve_found wallet user w ts :
    overlapping w ts ->
    pending_row wallet w = Some user ->
    overlapping (log (registerUser_call user) w) (Registering user :: ts)
  (* approve: registerUser returned tx, tx.wait() issued *)
| over_approve_returned user tx w t1 t2 :
    overlapping w (t1 ++ Registering user :: t2) ->
    overlapping (log (CallWait (hash tx)) w) (t1 ++ Confirming user tx :: t2)
  (* approve: the wait returned, user.save() *)
| over_approve_confirmed user tx w t1 t2 :
    overlapping w (t1 ++ Confirming user tx :: t2) ->
    wait tx = Ok tt ->
    overlapping (snd (User_save_status user "approved" w)) (t1 ++ t2)
  (* reject: pending row found *)
| over_reject_found wallet user w ts :
    overlapping w ts ->
    pending_row wallet w = Some user ->
    overlapping w (Destroying user :: ts)
  (* reject: user.destroy() *)
| over_reject_destroy user w t1 t2 :
    overlapping w (t1 ++ Destroying user :: t2) ->
    overlapping (snd (User_destroy user w)) (t1 ++ t2)
  (* an awaited call threw: the handler ends in its catch *)
| over_thrown task w t1 t2 :
    overlapping w (t1 ++ task :: t2) -> overlapping w (t1 ++ t2).

Definition same_identity (u v : User) : Prop :=
  walletAddress u = walletAddress v /\ name u = name v /\ role u = role v.

(** The log holds the row's [registerUser] call. *)
Definition call_logged (u : User) (l : list Event) : Prop :=
  exists before after, l = (before ++ registerUser_call u :: after)%list.

(** The log holds the row's [registerUser] call and, later, the wait for
    the transaction with hash [txHash]. *)
Definition wait_logged (u : User) (txHash : string) (l : list Event) : Prop :=
  exists before between after,
    l = (before ++ registerUser_call u :: between ++ CallWait txHash :: after)%list.

(** The log holds the row's [registerUser] call and a later confirmation
    wait. *)
Definition confirmation_logged (u : User) (l : list Event) : Prop :=
  exists txHash, wait_logged u txHash l.

Definition task_ok (w : World) (t : InFlight) : Prop :=
  match t with
  | Creating req =>
      exists wallet, Server.b_walletAddress req = Some wallet
                     /\ str_nonempty wallet = true
  | Registering user =>
      id user <= user_seq w
      /\ (forall v, In v (users w) -> id v = id user -> same_identity v user)
      /\ call_logged user (calls w)
  | Confirming user tx =>
      id user <= user_seq w
      /\ (forall v, In v (users w) -> id v = id user -> same_identity v user)
      /\ wait_logged user (hash tx) (calls w)
  | Destroying _ => True
  end.

(** Every row is pending, or approved with its registration and a later
    confirmation wait on the log. *)
Definition rows_logged (w : World) : Prop :=
  forall u, In u (users w) ->
            status u = "pending"
            \/ (status u = "approved" /\ confirmation_logged u (calls w)).

(** What one step may do to the world, as far as the tasks in flight can
    tell: the counter and the log only grow, and a row is an old row up to
    its status or carries a fresh id. *)
Definition grows (w w' : World) : Prop :=
  user_seq w <= user_seq w'
  /\ (exists evs, calls w' = (calls w ++ evs)%list)
  /\ forall v', In v' (users w') ->
                (exists v, In v (users w) /\ id v = id v' /\ same_identity v v')
                \/ user_seq w < id v'.

(** ** Sample services *)

(** The pinning service answers success without a content identifier. *)
Definition env_unidentified : Env :=
  mkEnv (fun _ _ _ => Ok tx_confirmed) (fun _ => Ok tx_confirmed)
        (fun _ _ _ => Ok tx_confirmed)
        (fun _ => Ok (VObj [("PinSize", VNum (num 42))]))
        (fun _ => Ok "data:image/png;base64,AAAA")
        (fun a => Ok (is_hex_address a))
        integer_literal
        template_string
        (VStr "http://localhost:3000").

Definition beta : Server.SignupBody :=
  Server.mkSignup (Some "Beta Labs") (Some "b@x.com") (Some 2) (Some "0xDEF")
                  (Some "PPB-1002").

Definition acme_pending : User :=
  mkUser 1 "Acme Pharma" "a@x.com" 1 "0xABC" "PPB-1001" "pending".
Definition beta_pending : User :=
  mkUser 2 "Beta Labs" "b@x.com" 2 "0xDEF" "PPB-1002" "pending".

Definition tx_a : Tx := mkTx "0xaaaa" (Ok tt).
Definition tx_b : Tx := mkTx "0xbbbb" (Ok tt).

(** Two approvals that overlap: both registrations are issued before
    either confirmation wait, then both rows are saved. *)
Definition two_pending_world : World := snd (Server.post_signup beta pending_world).
Definition overlap1 : World := log (registerUser_call acme_pending) two_pending_world.
Definition overlap2 : World := log (registerUser_call beta_pending) overlap1.
Definition overlap3 : World := log (CallWait (hash tx_a)) overlap2.
Definition overlap4 : World := log (CallWait (hash tx_b)) overlap3.
Definition overlap5 : World := snd (User_save_status acme_pending "approved" overlap4).
Definition overlapped_world : World :=
  snd (User_save_status beta_pending "approved" overlap5).

Definition acme_approved : User :=
  mkUser 1 "Acme Pharma" "a@x.com" 1 "0xABC" "PPB-1001" "approved".

Definition gtx_confirmed : Gateway.GTx := Gateway.mkGTx "0xfeed" (Gateway.Done tt).

Definition chain_user : jsval :=
  VObj [("exists", VBool true); ("role", VStr "Manufacturer"); ("wallet", VStr "0xABC")].

Definition no_user : jsval :=
  VObj [("exists", VBool false); ("role", VStr EmptyString); ("wallet", VStr "0x0")].

Definition sample_batch : Gateway.ChainBatch :=
  Gateway.mkChainBatch (Some 1) (VStr "Amoxil") (VStr "B-17") (VStr "QmHash")
    (VStr "0xABC") (VStr "0xABC") (VBool false) (Some 1700000000) (VStr EmptyString).

Definition pinata_ok : Gateway.FetchResponse :=
  Gateway.mkFetchResponse true (Gateway.Done "{}")
    (Gateway.Done (VObj [("IpfsHash", VStr "QmHash"); ("PinSize", VNum (num 42))])).

Definition pinata_denied : Gateway.FetchResponse :=
  Gateway.mkFetchResponse false (Gateway.Done "unauthorized")
    (Gateway.Failed (Gateway.plain_error "Unexpected token u in JSON")).

(** String passwords hash; anything else makes [ethers.id] throw. *)
Definition sample_id (v : jsval) : Gateway.outcome string :=
  match v with
  | VStr p => Gateway.Done ("keccak:" ++ p)
  | _ => Gateway.Failed (Gateway.plain_error "invalid string value")
  end.

Definition services_up : Gateway.Services :=
  Gateway.mkServices
    (fun _ => Gateway.Done (VObj [("valid", VBool true); ("owner", VStr "0xABC");
                                  ("revoked", VBool false); ("history", VArr [])]))
    (fun _ => Gateway.Done [VBool true; VStr "0xABC"; VBool false; VArr []])
    (fun _ _ => Gateway.Done gtx_confirmed)
    (fun _ => Gateway.Done gtx_confirmed)
    (fun _ _ _ => Gateway.Done gtx_confirmed)
    (fun _ _ _ => Gateway.Done gtx_confirmed)
    (fun _ _ => Gateway.Done chain_user)
    (fun _ => Gateway.Done [sample_batch])
    (Gateway.Done [sample_batch])
    sample_id
    (fun _ => Gateway.Done "data:image/png;base64,AAAA")
    (fun _ _ _ => Gateway.Done pinata_ok)
    (Some "jwt-token")
    1700000000000
    num.

(** The chain reverts with a reason, the QR encoder and Pinata fail, and
    no JWT is configured. *)
Definition services_down : Gateway.Services :=
  Gateway.mkServices
    (fun _ => Gateway.Done (VObj [("valid", VBool true); ("owner", VStr "0xABC");
                                  ("revoked", VBool false); ("history", VArr [])]))
    (fun _ => Gateway.Failed (Gateway.plain_error "call revert exception"))
    (fun _ _ => Gateway.Failed (Gateway.plain_error "execution reverted"))
    (fun _ => Gateway.Failed (Gateway.plain_error "execution reverted"))
    (fun _ _ _ => Gateway.Failed (Gateway.plain_error "execution reverted"))
    (fun _ _ _ =>
       Gateway.Failed (Gateway.mkFailure (Some "Username taken") None
                         (Some "execution reverted: Username taken")))
    (fun _ _ => Gateway.Done no_user)
    (fun _ => Gateway.Failed (Gateway.plain_error "network down"))
    (Gateway.Failed (Gateway.plain_error "network down"))
    sample_id
    (fun _ => Gateway.Failed (Gateway.plain_error "Input too long"))
    (fun _ _ _ => Gateway.Done pinata_denied)
    None
    1700000000000
    num.

(** * Properties *)

(** ** Lists with a key *)

Section Keyed.
Context {A K : Type}.
Variable eqb : K -> K -> bool.
Variable key : A -> K.
Hypothesis eqb_eq : forall a b, eqb a b = true <-> a = b.

Lemma eqb_sym (a b : K) : eqb a b = eqb b a.
Proof.
  destruct (eqb a b) eqn:Hab, (eqb b a) eqn:Hba; try reflexivity.
  - apply eqb_eq in Hab. subst. rewrite (proj2 (eqb_eq b b) eq_refl) in Hba.
    discriminate.
  - apply eqb_eq in Hba. subst. rewrite (proj2 (eqb_eq a a) eq_refl) in Hab.
    discriminate.
Qed.

Lemma no_key_not_in (x : A) (l : list A) :
  existsb (fun y => eqb (key y) (key x)) l = false ->
  forall y, In y l -> key y <> key x.
Proof.
  intros Hno y Hy Heq.
  assert (existsb (fun y => eqb (key y) (key x)) l = true) as Hex.
  { apply existsb_exists. exists y. split; [exact Hy | now apply eqb_eq]. }
  congruence.
Qed.

Lemma distinct_by_unique (l : list A) :
  distinct_by eqb key l = true ->
  forall u v, In u l -> In v l -> key u = key v -> u = v.
Proof.
  induction l as [|x rest IH]; simpl; intros Hd u v Hu Hv Hk; [contradiction|].
  apply andb_true_iff in Hd as [Hx Hrest].
  apply negb_true_iff in Hx.
  destruct Hu as [<-|Hu], Hv as [<-|Hv]; auto.
  - exfalso. exact (no_key_not_in _ _ Hx v Hv (eq_sym Hk)).
  - exfalso. exact (no_key_not_in _ _ Hx u Hu Hk).
Qed.

Lemma distinct_by_snoc (l : list A) (x : A) :
  distinct_by eqb key l = true ->
  existsb (fun y => eqb (key y) (key x)) l = false ->
  distinct_by eqb key (l ++ [x]) = true.
Proof.
  induction l as [|h rest IH]; simpl; intros Hd Hx; [reflexivity|].
  apply andb_true_iff in Hd as [Hh Hrest].
  apply orb_false_iff in Hx as [Hhx Hx].
  rewrite existsb_app. simpl.
  apply negb_true_iff in Hh. rewrite Hh. simpl.
  rewrite eqb_sym, Hhx. simpl.
  now apply IH.
Qed.

Lemma existsb_filter_false (p q : A -> bool) (l : list A) :
  existsb p l = false -> existsb p (filter q l) = false.
Proof.
  induction l as [|h rest IH]; simpl; intros H; [reflexivity|].
  apply orb_false_iff in H as [Hh Hrest].
  destruct (q h); simpl; [rewrite Hh; simpl|]; now apply IH.
Qed.

Lemma distinct_by_filter (q : A -> bool) (l : list A) :
  distinct_by eqb key l = true -> distinct_by eqb key (filter q l) = true.
Proof.
  induction l as [|h rest IH]; simpl; intros Hd; [reflexivity|].
  apply andb_true_iff in Hd as [Hh Hrest].
  destruct (q h); simpl; [|now apply IH].
  apply andb_true_iff. split; [|now apply IH].
  apply negb_true_iff in Hh. apply negb_true_iff.
  now apply existsb_filter_false.
Qed.

Lemma distinct_by_map (f : A -> A) (l : list A) :
  (forall x, key (f x) = key x) ->
  distinct_by eqb key (map f l) = distinct_by eqb key l.
Proof.
  intros Hf. induction l as [|h rest IH]; simpl; [reflexivity|].
  rewrite IH, Hf. f_equal. f_equal.
  clear IH. induction rest as [|y ys IHys]; simpl; [reflexivity|].
  now rewrite IHys, Hf.
Qed.
End Keyed.

(** ** Queries *)

Lemma find_app {A} (p : A -> bool) (l l' : list A) :
  find p (l ++ l') = match find p l with Some x => Some x | None => find p l' end.
Proof.
  induction l as [|h t IH]; simpl; [reflexivity|]. now destruct (p h).
Qed.

Lemma find_existsb_false {A} (p : A -> bool) (l : list A) :
  existsb p l = false -> find p l = None.
Proof.
  induction l as [|h t IH]; simpl; [reflexivity|].
  intros H. apply orb_false_iff in H as [-> Ht]. now apply IH.
Qed.

Lemma find_existsb_true {A} (p : A -> bool) (l : list A) :
  existsb p l = true -> exists x, find p l = Some x.
Proof.
  induction l as [|h t IH]; simpl; [discriminate|].
  destruct (p h); simpl; eauto.
Qed.

Lemma existsb_on_map {A B} (p : B -> bool) (f : A -> B) (l : list A) :
  existsb p (map f l) = existsb (fun x => p (f x)) l.
Proof.
  induction l as [|h t IH]; simpl; [reflexivity|]. now rewrite IH.
Qed.

Lemma find_ext {A} (p q : A -> bool) (l : list A) :
  (forall x, p x = q x) -> find p l = find q l.
Proof.
  intros H. induction l as [|h t IH]; simpl; [reflexivity|]. now rewrite H, IH.
Qed.

Lemma row_matches_wallet (wallet : string) (u : User) :
  row_matches [(ColWalletAddress, wallet)] u = (walletAddress u =? wallet)%string.
Proof. unfold row_matches. simpl. apply andb_true_r. Qed.

Lemma row_matches_wallet_status (wallet st : string) (u : User) :
  row_matches [(ColWalletAddress, wallet); (ColStatus, st)] u
  = ((walletAddress u =? wallet)%string && (status u =? st)%string).
Proof. unfold row_matches. simpl. now rewrite andb_true_r. Qed.

Lemma store_ok_wallets (w : World) :
  store_ok w = true ->
  forall u v, In u (users w) -> In v (users w) ->
              walletAddress u = walletAddress v -> u = v.
Proof.
  unfold store_ok. intros H.
  repeat (apply andb_true_iff in H as [H ?]).
  now apply (distinct_by_unique String.eqb walletAddress String.eqb_eq).
Qed.

Lemma store_ok_ids (w : World) :
  store_ok w = true ->
  forall u v, In u (users w) -> In v (users w) -> id u = id v -> u = v.
Proof.
  unfold store_ok. intros H.
  repeat (apply andb_true_iff in H as [H ?]).
  now apply (distinct_by_unique Z.eqb id Z.eqb_eq).
Qed.

Lemma store_ok_nonempty (w : World) (u : User) :
  store_ok w = true -> In u (users w) -> str_nonempty (walletAddress u) = true.
Proof.
  unfold store_ok. intros H Hu.
  repeat (apply andb_true_iff in H as [H ?]).
  match goal with Hf : forallb (fun u => str_nonempty _) _ = true |- _ =>
    exact (proj1 (forallb_forall _ _) Hf u Hu) end.
Qed.

(** With the unique index, a wallet's row is the one every query finds. *)
Lemma find_wallet_row (w : World) (u : User) :
  store_ok w = true -> In u (users w) ->
  find (row_matches [(ColWalletAddress, walletAddress u)]) (users w) = Some u.
Proof.
  intros Hok Hu.
  destruct (find _ (users w)) as [v|] eqn:Hf.
  - apply find_some in Hf as [Hv Hm].
    rewrite row_matches_wallet in Hm. apply String.eqb_eq in Hm.
    f_equal. now apply (store_ok_wallets w Hok).
  - exfalso. apply (find_none _ _ Hf) in Hu.
    rewrite row_matches_wallet, String.eqb_refl in Hu. discriminate.
Qed.

Lemma pending_row_spec (wallet : string) (w : World) (u : User) :
  pending_row wallet w = Some u ->
  In u (users w) /\ walletAddress u = wallet /\ status u = "pending".
Proof.
  unfold pending_row. intros Hf. apply find_some in Hf as [Hu Hm].
  rewrite row_matches_wallet_status in Hm.
  apply andb_true_iff in Hm as [Hw Hs].
  apply String.eqb_eq in Hw, Hs. auto.
Qed.

Lemma has_row_spec (wallet st : string) (w : World) :
  has_row wallet st w = true ->
  exists u, In u (users w) /\ walletAddress u = wallet /\ status u = st.
Proof.
  unfold has_row. intros H. apply existsb_exists in H as (u & Hu & Hm).
  apply andb_true_iff in Hm as [Hw Hs]. apply String.eqb_eq in Hw, Hs. eauto.
Qed.

(** A wallet has one row, hence one status. *)
Lemma pending_row_none (wallet st : string) (w : World) :
  store_ok w = true -> has_row wallet st w = true -> st <> "pending" ->
  pending_row wallet w = None.
Proof.
  intros Hok Hrow Hst.
  destruct (pending_row wallet w) as [v|] eqn:Hp; [|reflexivity].
  apply pending_row_spec in Hp as (Hv & Hvw & Hvs).
  apply has_row_spec in Hrow as (u & Hu & Huw & Hus).
  assert (u = v) by (apply (store_ok_wallets w Hok); congruence).
  subst v. congruence.
Qed.

(** ** The handlers, case by case *)

Lemma approve_cases (env : Env) (wallet : string) (w : World) :
  Server.post_approve_request env wallet w =
  match pending_row wallet w with
  | None => (status_json 404 Server.msg_already_processed, w)
  | Some user =>
      let ev := CallRegisterUser (walletAddress user) (name user) (role user) in
      match registerUser env (walletAddress user) (name user) (role user) with
      | Throw e =>
          (status_json 500 (error_body (message_or e "Failed to approve user")), log ev w)
      | Ok tx =>
          match wait tx with
          | Throw e =>
              (status_json 500 (error_body (message_or e "Failed to approve user")),
               log (CallWait (hash tx)) (log ev w))
          | Ok _ =>
              (json Server.msg_approved,
               with_users
                 (map (fun u => if id u =? id user then set_status "approved" u else u)
                      (users w))
                 (log (CallWait (hash tx)) (log ev w)))
          end
      end
  end.
Proof.
  unfold Server.post_approve_request, try_catch, bind, User_findOne, pending_row.
  simpl compile_where. cbv iota beta.
  destruct (find _ (users w)) as [user|]; [|reflexivity].
  unfold call at 1.
  destruct (registerUser env _ _ _) as [tx|e]; [|reflexivity].
  unfold call. destruct (wait tx) as [[]|e]; reflexivity.
Qed.

Lemma reject_cases (wallet : string) (w : World) :
  Server.post_reject_request wallet w =
  match pending_row wallet w with
  | None => (status_json 404 Server.msg_already_processed, w)
  | Some user =>
      (json Server.msg_rejected,
       with_users (filter (fun u => negb (id u =? id user)) (users w)) w)
  end.
Proof.
  unfold Server.post_reject_request, try_catch, bind, User_findOne, pending_row.
  simpl compile_where. cbv iota beta.
  destruct (find _ (users w)) as [user|]; reflexivity.
Qed.

Lemma user_status_cases (wallet : string) (w : World) :
  Server.get_user_status wallet w =
  match find (row_matches [(ColWalletAddress, wallet)]) (users w) with
  | None => (status_json 404 (status_body "not_found"), w)
  | Some u => (json (status_body (status u)), w)
  end.
Proof.
  unfold Server.get_user_status, try_catch, bind, User_findOne.
  simpl compile_where. cbv iota beta.
  destruct (find _ (users w)); reflexivity.
Qed.

Lemma login_cases (wallet : string) (w : World) :
  Server.post_login (Some wallet) w =
  match find (row_matches [(ColWalletAddress, wallet); (ColStatus, "approved")])
             (users w) with
  | None => (status_json 404 Server.msg_not_approved, w)
  | Some u => (json (VObj [("success", VBool true); ("user", Server.user_json u)]), w)
  end.
Proof.
  unfold Server.post_login, try_catch, bind, User_findOne.
  simpl compile_where. cbv iota beta.
  destruct (find _ (users w)); reflexivity.
Qed.

Lemma login_undefined (w : World) :
  Server.post_login None w = (status_json 500 (error_body "Login failed"), w).
Proof. reflexivity. Qed.

Lemma signup_cases (req : Server.SignupBody) (w : World) :
  Server.post_signup req w =
  match Server.b_walletAddress req with
  | None => (status_json 400 Server.msg_wallet_required, w)
  | Some wallet =>
      if negb (str_nonempty wallet) then (status_json 400 Server.msg_wallet_required, w)
      else if has_wallet wallet w then (status_json 400 Server.msg_already_registered, w)
      else
        match Server.b_licenseNumber req with
        | None =>
            (status_json 500
               (error_body (message_or (undefined_where "licenseNumber")
                                       "Internal Server Error")), w)
        | Some l =>
            if negb (known_license l w) then
              (status_json 400 Server.msg_license_not_found, w)
            else if complete req then (json Server.msg_signup_ok, signed_up req w)
            else
              (status_json 500
                 (error_body
                    (message_or
                       (notNull_violation
                          (mkUserAttrs (Server.b_name req) (Server.b_email req)
                             (Server.b_role req) (Some wallet) (Some l) "pending"))
                       "Internal Server Error")), w)
        end
  end.
Proof.
  unfold Server.post_signup, try_catch, signed_up, complete.
  destruct req as [n e r wa l].
  cbn [Server.b_walletAddress Server.b_licenseNumber Server.b_name
       Server.b_email Server.b_role].
  destruct wa as [wallet|]; [|reflexivity].
  unfold opt_truthy. destruct (str_nonempty wallet) eqn:Hne; [|reflexivity].
  cbv [negb]. unfold bind, User_findOne. simpl compile_where. cbv iota beta.
  unfold has_wallet.
  rewrite (find_ext _ (fun u => (walletAddress u =? wallet)%string) (users w)
             (row_matches_wallet wallet)).
  destruct (existsb _ (users w)) eqn:Hex.
  - apply find_existsb_true in Hex as [x ->]. reflexivity.
  - rewrite (find_existsb_false _ _ Hex).
    unfold PPBRecord_findOne. destruct l as [l|]; [|reflexivity].
    unfold known_license.
    destruct (existsb _ (ppb w)) eqn:Hl.
    + apply find_existsb_true in Hl as [x ->]. cbv [negb].
      unfold User_create. simpl.
      destruct n, e, r; try reflexivity.
      rewrite Hex. reflexivity.
    + rewrite (find_existsb_false _ _ Hl). reflexivity.
Qed.

(** ** The store invariant holds in every reachable state *)

Lemma store_ok_ext (w w' : World) :
  users w' = users w -> user_seq w' = user_seq w -> store_ok w' = store_ok w.
Proof. unfold store_ok. now intros -> ->. Qed.

Lemma store_ok_log (ev : Event) (w : World) : store_ok (log ev w) = store_ok w.
Proof. reflexivity. Qed.

Lemma store_ok_signed_up (req : Server.SignupBody) (wallet : string) (w : World) :
  store_ok w = true ->
  Server.b_walletAddress req = Some wallet ->
  str_nonempty wallet = true ->
  has_wallet wallet w = false ->
  store_ok (signed_up req w) = true.
Proof.
  intros Hok Hw Hne Hfresh. unfold signed_up. rewrite Hw.
  destruct (Server.b_name req) as [n|]; [|exact Hok].
  destruct (Server.b_email req) as [e|]; [|exact Hok].
  destruct (Server.b_role req) as [r|]; [|exact Hok].
  destruct (Server.b_licenseNumber req) as [l|]; [|exact Hok].
  unfold store_ok in *. cbn [users user_seq].
  repeat (apply andb_true_iff in Hok as [Hok ?]).
  repeat (apply andb_true_iff; split).
  - apply (distinct_by_snoc String.eqb walletAddress String.eqb_eq); assumption.
  - apply (distinct_by_snoc Z.eqb id Z.eqb_eq); [assumption|].
    cbn [id]. apply not_true_is_false. intros Hex.
    apply existsb_exists in Hex as (u & Hu & Hid). apply Z.eqb_eq in Hid.
    match goal with Hf : forallb (fun u => id u <=? _) _ = true |- _ =>
      pose proof (proj1 (forallb_forall _ _) Hf u Hu) as Hle end.
    cbv beta in Hle. apply Z.leb_le in Hle. lia.
  - rewrite forallb_app. apply andb_true_iff. split.
    + apply forallb_forall. intros u Hu.
      match goal with Hf : forallb (fun u => id u <=? _) _ = true |- _ =>
        pose proof (proj1 (forallb_forall _ _) Hf u Hu) as Hle end.
      cbv beta in Hle. apply Z.leb_le in Hle. apply Z.leb_le. lia.
    + cbn. rewrite Z.leb_refl. reflexivity.
  - rewrite forallb_app. apply andb_true_iff. split; [assumption|].
    cbn. now rewrite Hne.
Qed.

Lemma forallb_map_same {A} (p : A -> bool) (f : A -> A) (l : list A) :
  (forall x, p (f x) = p x) -> forallb p (map f l) = forallb p l.
Proof.
  intros H. induction l as [|h t IH]; simpl; [reflexivity|]. now rewrite H, IH.
Qed.

Lemma forallb_filter_true {A} (p q : A -> bool) (l : list A) :
  forallb p l = true -> forallb p (filter q l) = true.
Proof.
  induction l as [|h t IH]; simpl; intros H; [reflexivity|].
  apply andb_true_iff in H as [Hh Ht].
  destruct (q h); simpl; [rewrite Hh; simpl|]; now apply IH.
Qed.

Lemma store_ok_save (user : User) (s : string) (w : World) :
  store_ok (with_users
              (map (fun u => if id u =? id user then set_status s u else u) (users w)) w)
  = store_ok w.
Proof.
  unfold store_ok, with_users. cbn [users user_seq].
  set (f := fun u => if id u =? id user then set_status s u else u).
  assert (forall x, walletAddress (f x) = walletAddress x) as Hwa
      by (intros x; unfold f; now destruct (id x =? id user)).
  assert (forall x, id (f x) = id x) as Hid
      by (intros x; unfold f; now destruct (id x =? id user)).
  rewrite (distinct_by_map String.eqb walletAddress f _ Hwa).
  rewrite (distinct_by_map Z.eqb id f _ Hid).
  rewrite (forallb_map_same (fun u => id u <=? user_seq w) f)
    by (intros x; now rewrite Hid).
  rewrite (forallb_map_same (fun u => str_nonempty (walletAddress u)) f)
    by (intros x; now rewrite Hwa).
  reflexivity.
Qed.

Lemma store_ok_destroy (q : User -> bool) (w : World) :
  store_ok w = true -> store_ok (with_users (filter q (users w)) w) = true.
Proof.
  unfold store_ok, with_users. cbn [users user_seq]. intros H.
  repeat (apply andb_true_iff in H as [H ?]).
  repeat (apply andb_true_iff; split).
  - now apply (distinct_by_filter String.eqb walletAddress).
  - now apply (distinct_by_filter Z.eqb id).
  - now apply forallb_filter_true.
  - now apply forallb_filter_true.
Qed.

Lemma signup_preserves (req : Server.SignupBody) (w : World) :
  store_ok w = true -> store_ok (snd (Server.post_signup req w)) = true.
Proof.
  intros Hok. rewrite signup_cases.
  destruct (Server.b_walletAddress req) as [wallet|] eqn:Hw; [|exact Hok].
  destruct (str_nonempty wallet) eqn:Hne; [|exact Hok]. cbv [negb].
  destruct (has_wallet wallet w) eqn:Hfresh; [exact Hok|].
  destruct (Server.b_licenseNumber req) as [l|]; [|exact Hok].
  destruct (known_license l w); [|exact Hok]. cbv [negb].
  destruct (complete req); [|exact Hok].
  cbn [snd]. now apply (store_ok_signed_up req wallet).
Qed.

Lemma approve_preserves (env : Env) (wallet : string) (w : World) :
  store_ok w = true -> store_ok (snd (Server.post_approve_request env wallet w)) = true.
Proof.
  intros Hok. rewrite approve_cases.
  destruct (pending_row wallet w) as [user|]; [|exact Hok]. cbv zeta.
  destruct (registerUser env _ _ _) as [tx|e]; [|exact Hok].
  destruct (wait tx) as [?|e]; [|exact Hok].
  cbn [snd].
  rewrite (store_ok_ext (log (CallWait (hash tx))
                           (log (CallRegisterUser (walletAddress user) (name user)
                                   (role user)) w)) w eq_refl eq_refl) in *.
  etransitivity; [|exact Hok].
  exact (store_ok_save user "approved" w).
Qed.

Lemma reject_preserves (wallet : string) (w : World) :
  store_ok w = true -> store_ok (snd (Server.post_reject_request wallet w)) = true.
Proof.
  intros Hok. rewrite reject_cases.
  destruct (pending_row wallet w) as [user|]; [|exact Hok].
  now apply store_ok_destroy.
Qed.

Lemma login_pure (wallet : option string) (w : World) :
  snd (Server.post_login wallet w) = w.
Proof.
  destruct wallet as [wallet|]; [|reflexivity].
  rewrite login_cases. now destruct (find _ (users w)).
Qed.

Lemma user_status_pure (wallet : string) (w : World) :
  snd (Server.get_user_status wallet w) = w.
Proof. rewrite user_status_cases. now destruct (find _ (users w)). Qed.

Lemma get_user_pure (wallet : string) (w : World) :
  snd (Server.get_user wallet w) = w.
Proof.
  unfold Server.get_user, try_catch, bind, User_findOne. simpl compile_where.
  cbv iota beta. now destruct (find _ (users w)).
Qed.

Lemma revoke_users (env : Env) (raw : string) (reason : jsval) (w : World) :
  users (snd (Server.post_revoke_batch env raw reason w)) = users w
  /\ user_seq (snd (Server.post_revoke_batch env raw reason w)) = user_seq w.
Proof.
  unfold Server.post_revoke_batch, try_catch, bind, call.
  destruct (Server.invalid_batch_id _); [now split|].
  destruct (revokeBatch env _) as [tx|e]; [|now split].
  destruct (wait tx); now split.
Qed.

Lemma startup_users (w : World) :
  users (snd (Server.startup w)) = users w
  /\ user_seq (snd (Server.startup w)) = user_seq w.
Proof.
  unfold Server.startup, bind, PPBRecord_count, PPBRecord_bulkCreate, ret.
  destruct (Z.of_nat (length (ppb w)) =? 0); [|now split].
  destruct (bulk_insert _ _ _) as [[rows seq]|]; now split.
Qed.

Lemma handle_preserves (env : Env) (req : Request) (w : World) :
  store_ok w = true -> store_ok (snd (handle env req w)) = true.
Proof.
  intros Hok. destruct req; cbn [handle].
  - now apply signup_preserves.
  - now rewrite login_pure.
  - exact Hok.
  - now apply approve_preserves.
  - now apply reject_preserves.
  - now rewrite user_status_pure.
  - now rewrite get_user_pure.
  - exact Hok.
  - destruct (revoke_users env batchIdRaw body_reason w) as [Hu Hs].
    now rewrite (store_ok_ext _ _ Hu Hs).
Qed.

(** Every state the service reaches satisfies the store invariant. *)
Theorem reachable_store_ok (w : World) : reachable w -> store_ok w = true.
Proof.
  induction 1 as [|w Hw IH|env req w Hw IH].
  - reflexivity.
  - destruct (startup_users w) as [Hu Hs]. now rewrite (store_ok_ext _ _ Hu Hs).
  - now apply handle_preserves.
Qed.

(** ** Approval *)

Lemma issued_same (w : World) : issued w w = [].
Proof. unfold issued. apply skipn_all. Qed.

Lemma issued_log (w : World) (evs : list Event) (w' : World) :
  calls w' = (calls w ++ evs)%list -> issued w w' = evs.
Proof.
  unfold issued. intros ->. rewrite skipn_app, skipn_all, Nat.sub_diag. reflexivity.
Qed.

(** C1. When the on-chain [registerUser] call, or the wait for its
    confirmation, fails for a wallet with a pending row, [Approve] answers
    with an error body (HTTP 500), the [User] table is left as it was, the
    row is still the pending row of that wallet, and [UserStatus] for the
    wallet still answers "pending". *)
Theorem approve_chain_failure_keeps_pending
  (env : Env) (wallet : string) (w : World) (user : User) :
  store_ok w = true ->
  pending_row wallet w = Some user ->
  chain_fails (registerUser env (walletAddress user) (name user) (role user)) = true ->
  let r := Server.post_approve_request env wallet w in
  code (fst r) = 500
  /\ (exists m, body (fst r) = error_body m)
  /\ users (snd r) = users w
  /\ pending_row wallet (snd r) = Some user
  /\ fst (Server.get_user_status wallet (snd r)) = json (status_body "pending").
Proof.
  intros Hok Hrow Hfail r.
  assert (code (fst r) = 500 /\ (exists m, body (fst r) = error_body m)
          /\ users (snd r) = users w) as (Hc & Hb & Hu).
  { subst r. rewrite approve_cases, Hrow. cbv zeta.
    unfold chain_fails in Hfail.
    destruct (registerUser env _ _ _) as [tx|e].
    - destruct (wait tx) as [?|e]; [discriminate|].
      cbn. repeat split. eauto.
    - cbn. repeat split. eauto. }
  repeat split; try assumption.
  - unfold pending_row in *. now rewrite Hu.
  - rewrite user_status_cases, Hu.
    apply pending_row_spec in Hrow as (Hin & Hw & Hs).
    rewrite <- Hw, (find_wallet_row w user Hok Hin), Hs. reflexivity.
Qed.

Lemma approve_chain_failure_keeps_pending_witness :
  (let r := Server.post_approve_request env_down "0xABC" pending_world in
   code (fst r) = 500
   /\ (exists m, body (fst r) = error_body m)
   /\ users (snd r) = users pending_world
   /\ pending_row "0xABC" (snd r) = pending_row "0xABC" pending_world
   /\ fst (Server.get_user_status "0xABC" (snd r)) = json (status_body "pending"))
  /\
  (let r := Server.post_approve_request env_reverting "0xABC" pending_world in
   code (fst r) = 500
   /\ fst (Server.get_user_status "0xABC" (snd r)) = json (status_body "pending")).
Proof.
  split.
  - apply (approve_chain_failure_keeps_pending env_down "0xABC" pending_world
             (mkUser 1 "Acme Pharma" "a@x.com" 1 "0xABC" "PPB-1001" "pending"));
      reflexivity.
  - pose proof (approve_chain_failure_keeps_pending env_reverting "0xABC" pending_world
             (mkUser 1 "Acme Pharma" "a@x.com" 1 "0xABC" "PPB-1001" "pending")
             eq_refl eq_refl eq_refl) as H.
    cbv zeta in *. destruct H as (H1 & _ & _ & _ & H5). split; assumption.
Defined.

(** C5. Once a wallet's row is approved, [Approve] and [Reject] on that
    wallet both answer 404 (no pending row matches), leave the world
    untouched, and in particular issue no further [registerUser] call. *)
Theorem approved_wallet_is_final (env : Env) (wallet : string) (w : World) :
  store_ok w = true ->
  has_row wallet "approved" w = true ->
  Server.post_approve_request env wallet w
    = (status_json 404 Server.msg_already_processed, w)
  /\ Server.post_reject_request wallet w
    = (status_json 404 Server.msg_already_processed, w)
  /\ count_events is_registerUser
       (issued w (snd (Server.post_approve_request env wallet w))) = 0%nat.
Proof.
  intros Hok Hrow.
  assert (pending_row wallet w = None) as Hnone
      by (apply (pending_row_none wallet "approved" w Hok Hrow); discriminate).
  rewrite approve_cases, reject_cases, Hnone. cbn [snd].
  rewrite issued_same. repeat split.
Qed.

Lemma approved_wallet_is_final_witness :
  store_ok approved_world = true
  /\ has_row "0xABC" "approved" approved_world = true
  /\ Server.post_approve_request env_up "0xABC" approved_world
     = (status_json 404 Server.msg_already_processed, approved_world)
  /\ Server.post_reject_request "0xABC" approved_world
     = (status_json 404 Server.msg_already_processed, approved_world).
Proof.
  split; [reflexivity|]. split; [reflexivity|].
  destruct (approved_wallet_is_final env_up "0xABC" approved_world eq_refl eq_refl)
    as (Ha & Hr & _).
  split; assumption.
Defined.

(** ** Rejection *)

(** C6. For a wallet with a pending row, [Reject] answers success, deletes
    exactly that row, issues no outbound call, and [UserStatus] for the
    wallet then answers 404 with status "not_found", which is not the
    string "rejected". *)
Theorem reject_deletes_row (wallet : string) (w : World) (user : User) :
  store_ok w = true ->
  pending_row wallet w = Some user ->
  let r := Server.post_reject_request wallet w in
  fst r = json Server.msg_rejected
  /\ (forall v, In v (users (snd r)) <-> In v (users w) /\ v <> user)
  /\ calls (snd r) = calls w
  /\ Server.get_user_status wallet (snd r)
     = (status_json 404 (status_body "not_found"), snd r)
  /\ body (fst (Server.get_user_status wallet (snd r))) <> status_body "rejected".
Proof.
  intros Hok Hrow r.
  pose proof (pending_row_spec _ _ _ Hrow) as (Hin & Hw & Hs).
  assert (r = (json Server.msg_rejected,
               with_users (filter (fun u => negb (id u =? id user)) (users w)) w)) as Hr
      by (subst r; now rewrite reject_cases, Hrow).
  assert (forall v, In v (users (snd r)) <-> In v (users w) /\ v <> user) as Hrows.
  { rewrite Hr. cbn [snd with_users users]. intros v. rewrite filter_In. split.
    - intros [Hv Hid]. split; [exact Hv|]. intros ->.
      rewrite Z.eqb_refl in Hid. discriminate.
    - intros [Hv Hne]. split; [exact Hv|].
      apply negb_true_iff, Z.eqb_neq. intros Hid. apply Hne.
      now apply (store_ok_ids w Hok). }
  assert (Server.get_user_status wallet (snd r)
          = (status_json 404 (status_body "not_found"), snd r)) as Hstatus.
  { rewrite user_status_cases.
    destruct (find _ (users (snd r))) as [v|] eqn:Hf; [|reflexivity].
    exfalso. apply find_some in Hf as [Hv Hm].
    rewrite row_matches_wallet in Hm. apply String.eqb_eq in Hm.
    apply Hrows in Hv as [Hv Hne]. apply Hne.
    apply (store_ok_wallets w Hok); congruence. }
  repeat split.
  - now rewrite Hr.
  - now apply Hrows.
  - now apply Hrows.
  - intros [Hv Hne]. apply Hrows. now split.
  - now rewrite Hr.
  - exact Hstatus.
  - rewrite Hstatus. discriminate.
Qed.

Lemma reject_deletes_row_witness :
  pending_row "0xABC" pending_world
    = Some (mkUser 1 "Acme Pharma" "a@x.com" 1 "0xABC" "PPB-1001" "pending")
  /\ fst (Server.post_reject_request "0xABC" pending_world) = json Server.msg_rejected
  /\ fst (Server.get_user_status "0xABC"
            (snd (Server.post_reject_request "0xABC" pending_world)))
     = status_json 404 (status_body "not_found").
Proof.
  split; [reflexivity|].
  pose proof (reject_deletes_row "0xABC" pending_world
                (mkUser 1 "Acme Pharma" "a@x.com" 1 "0xABC" "PPB-1001" "pending")
                eq_refl eq_refl) as H.
  cbv zeta in H. destruct H as (H1 & _ & _ & H4 & _).
  split; [exact H1|]. now rewrite H4.
Defined.

(** ** Login *)

Lemma has_row_find (wallet st : string) (w : World) :
  find (row_matches [(ColWalletAddress, wallet); (ColStatus, st)]) (users w) = None
  <-> has_row wallet st w = false.
Proof.
  unfold has_row.
  rewrite (find_ext _ (fun u => (walletAddress u =? wallet)%string
                                && (status u =? st)%string) (users w)
             (row_matches_wallet_status wallet st)).
  split.
  - intros Hf. apply not_true_is_false. intros Hex.
    apply find_existsb_true in Hex as [x Hx]. congruence.
  - apply find_existsb_false.
Qed.

(** C7. [Login] never changes the world.  For a wallet with no approved
    row it answers 404; it answers 200 exactly when an approved row for the
    wallet exists; and a wallet whose row is pending is answered 404 although
    the row exists. *)
Theorem login_requires_approved (wallet : string) (w : World) :
  (forall body_wallet, snd (Server.post_login body_wallet w) = w)
  /\ (has_row wallet "approved" w = false ->
      fst (Server.post_login (Some wallet) w) = status_json 404 Server.msg_not_approved)
  /\ (code (fst (Server.post_login (Some wallet) w)) = 200
      <-> has_row wallet "approved" w = true)
  /\ (store_ok w = true -> has_row wallet "pending" w = true ->
      fst (Server.post_login (Some wallet) w) = status_json 404 Server.msg_not_approved).
Proof.
  assert (has_row wallet "approved" w = false ->
          fst (Server.post_login (Some wallet) w)
          = status_json 404 Server.msg_not_approved) as Hno.
  { intros Hrow. rewrite login_cases.
    now rewrite (proj2 (has_row_find wallet "approved" w) Hrow). }
  repeat split.
  - intros body_wallet. apply login_pure.
  - exact Hno.
  - intros Hcode. destruct (has_row wallet "approved" w) eqn:Hrow; [reflexivity|].
    rewrite (Hno eq_refl) in Hcode. discriminate.
  - intros Hrow. rewrite login_cases.
    destruct (find _ (users w)) eqn:Hf; [reflexivity|].
    apply has_row_find in Hf. congruence.
  - intros Hok Hpending. apply Hno.
    apply not_true_is_false. intros Happroved.
    apply has_row_spec in Hpending as (u & Hu & Huw & Hus).
    apply has_row_spec in Happroved as (v & Hv & Hvw & Hvs).
    assert (u = v) by (apply (store_ok_wallets w Hok); congruence).
    subst v. congruence.
Qed.

Lemma login_requires_approved_witness :
  (has_row "0xABC" "pending" pending_world = true
   /\ fst (Server.post_login (Some "0xABC") pending_world)
      = status_json 404 Server.msg_not_approved)
  /\ (has_row "0xDEF" "approved" approved_world = false
      /\ fst (Server.post_login (Some "0xDEF") approved_world)
         = status_json 404 Server.msg_not_approved)
  /\ code (fst (Server.post_login (Some "0xABC") approved_world)) = 200.
Proof.
  split; [split; [reflexivity|] | split; [split; [reflexivity|] | ]].
  - apply (proj2 (proj2 (proj2 (login_requires_approved "0xABC" pending_world))));
      reflexivity.
  - apply (proj1 (proj2 (login_requires_approved "0xDEF" approved_world)));
      reflexivity.
  - apply (proj2 (proj1 (proj2 (proj2 (login_requires_approved "0xABC" approved_world)))));
      reflexivity.
Defined.

(** ** Signup *)

(** C3. A signup whose walletAddress already has a row, whatever the row's
    status and whatever the other fields of the request, is answered 400
    "User already registered locally. Please log in." and leaves the world
    unchanged. *)
Theorem signup_duplicate_wallet_conflict
  (req : Server.SignupBody) (wallet : string) (w : World) :
  store_ok w = true ->
  Server.b_walletAddress req = Some wallet ->
  has_wallet wallet w = true ->
  Server.post_signup req w = (status_json 400 Server.msg_already_registered, w).
Proof.
  intros Hok Hw Hrow. rewrite signup_cases, Hw.
  assert (str_nonempty wallet = true) as Hne.
  { unfold has_wallet in Hrow. apply existsb_exists in Hrow as (u & Hu & Hm).
    apply String.eqb_eq in Hm. subst wallet. now apply (store_ok_nonempty w). }
  now rewrite Hne, Hrow.
Qed.

Lemma signup_duplicate_wallet_conflict_witness :
  has_wallet "0xABC" approved_world = true
  /\ Server.post_signup
       (Server.mkSignup (Some "Other") None (Some 3) (Some "0xABC") (Some "PPB-1007"))
       approved_world
     = (status_json 400 Server.msg_already_registered, approved_world)
  /\ Server.post_signup acme pending_world
     = (status_json 400 Server.msg_already_registered, pending_world).
Proof.
  split; [reflexivity|]. split.
  - apply (signup_duplicate_wallet_conflict _ "0xABC" approved_world); reflexivity.
  - apply (signup_duplicate_wallet_conflict acme "0xABC" pending_world); reflexivity.
Defined.

(** C4, as the specification states it, fails: an unknown license is
    answered 400, not 404. *)
Lemma unknown_license_is_404_fails :
  known_license "PPB-9999" seeded_world = false
  /\ Server.post_signup acme_unlicensed seeded_world
     = (status_json 400 Server.msg_license_not_found, seeded_world)
  /\ ~ unknown_license_is_404.
Proof.
  split; [reflexivity|]. split; [reflexivity|].
  intros H.
  destruct (H acme_unlicensed "PPB-9999" seeded_world eq_refl eq_refl) as [Hcode _].
  vm_compute in Hcode. discriminate.
Qed.

(** C4, amended.  A signup whose licenseNumber matches no PPBRecord is
    answered HTTP 400 and leaves the world unchanged (no row is created);
    when the walletAddress is present and not yet registered the body is
    the message "License number not found in PPB database". *)
Theorem signup_unknown_license_rejected
  (req : Server.SignupBody) (l : string) (w : World) :
  Server.b_licenseNumber req = Some l ->
  known_license l w = false ->
  code (fst (Server.post_signup req w)) = 400
  /\ snd (Server.post_signup req w) = w
  /\ (forall wallet,
        Server.b_walletAddress req = Some wallet ->
        str_nonempty wallet = true ->
        has_wallet wallet w = false ->
        fst (Server.post_signup req w) = status_json 400 Server.msg_license_not_found).
Proof.
  intros Hl Hunknown. rewrite signup_cases, Hl, Hunknown. cbv [negb].
  destruct (Server.b_walletAddress req) as [wallet|].
  - destruct (str_nonempty wallet) eqn:Hne.
    + destruct (has_wallet wallet w) eqn:Hrow.
      * repeat split. intros wallet' [= <-] _ Hfresh. congruence.
      * repeat split.
    + repeat split. intros wallet' [= <-] Hne'. congruence.
  - repeat split. discriminate.
Qed.

Lemma signup_unknown_license_rejected_witness :
  known_license "PPB-9999" seeded_world = false
  /\ Server.post_signup acme_unlicensed seeded_world
     = (status_json 400 Server.msg_license_not_found, seeded_world).
Proof.
  split; [reflexivity|].
  destruct (signup_unknown_license_rejected acme_unlicensed
              "PPB-9999" seeded_world eq_refl eq_refl) as (_ & Hw & Hbody).
  specialize (Hbody "0xABC" eq_refl eq_refl eq_refl).
  rewrite (surjective_pairing (Server.post_signup _ seeded_world)).
  now rewrite Hw, Hbody.
Defined.

(** A complete signup for an unregistered wallet and a known license
    creates the wallet's pending row. *)
Lemma signup_success (req : Server.SignupBody) (wallet l : string) (w : World) :
  Server.b_walletAddress req = Some wallet ->
  str_nonempty wallet = true ->
  has_wallet wallet w = false ->
  Server.b_licenseNumber req = Some l ->
  known_license l w = true ->
  complete req = true ->
  let r := Server.post_signup req w in
  fst r = json Server.msg_signup_ok
  /\ (exists u, users (snd r) = (users w ++ [u])%list
                /\ walletAddress u = wallet /\ licenseNumber u = l
                /\ status u = "pending")
  /\ has_row wallet "pending" (snd r) = true
  /\ fst (Server.get_user_status wallet (snd r)) = json (status_body "pending").
Proof.
  intros Hw Hne Hfresh Hl Hknown Hcomplete r. subst r.
  rewrite signup_cases, Hw, Hne, Hfresh, Hl, Hknown, Hcomplete. cbv [negb].
  cbn [fst snd]. unfold signed_up. rewrite Hw, Hl.
  unfold complete in Hcomplete.
  destruct (Server.b_name req) as [n|]; [|discriminate].
  destruct (Server.b_email req) as [e|]; [|discriminate].
  destruct (Server.b_role req) as [ro|]; [|discriminate].
  split; [reflexivity|]. split; [|split].
  - eexists. split; [reflexivity|]. cbn. auto.
  - unfold has_row. cbn [users]. rewrite existsb_app. cbn.
    rewrite String.eqb_refl. cbn. apply orb_true_r.
  - rewrite user_status_cases. cbn [users]. rewrite find_app.
    unfold has_wallet in Hfresh.
    rewrite (find_ext _ (fun u => (walletAddress u =? wallet)%string) (users w)
               (row_matches_wallet wallet)).
    rewrite (find_existsb_false _ _ Hfresh).
    cbn [find]. rewrite row_matches_wallet. cbn [walletAddress].
    rewrite String.eqb_refl. reflexivity.
Qed.

(** C10. Signup checks only that walletAddress is present.  No route's
    answer depends on what [ethers.isAddress] says (the helper
    [isValidAddress] is never consulted).  A complete request for an
    unregistered, non-empty wallet with a known license creates a pending
    row even when [isValidAddress] rejects the wallet string; and such a
    request lacking name, email or role is answered 500 with an error body,
    not 400, and creates no row. *)
Theorem signup_checks_presence_only
  (env : Env) (req : Server.SignupBody) (wallet l : string) (w : World) :
  Server.b_walletAddress req = Some wallet ->
  str_nonempty wallet = true ->
  has_wallet wallet w = false ->
  Server.b_licenseNumber req = Some l ->
  known_license l w = true ->
  (forall f any_req any_w,
      handle (with_isAddress f env) any_req any_w = handle env any_req any_w)
  /\ (complete req = true ->
      Server.isValidAddress env wallet = false ->
      fst (Server.post_signup req w) = json Server.msg_signup_ok
      /\ has_row wallet "pending" (snd (Server.post_signup req w)) = true)
  /\ (complete req = false ->
      code (fst (Server.post_signup req w)) = 500
      /\ (exists m, body (fst (Server.post_signup req w)) = error_body m)
      /\ snd (Server.post_signup req w) = w).
Proof.
  intros Hw Hne Hfresh Hl Hknown. split; [|split].
  - intros f any_req any_w. destruct any_req; reflexivity.
  - intros Hcomplete _.
    destruct (signup_success req wallet l w Hw Hne Hfresh Hl Hknown Hcomplete)
      as (Hr & _ & Hrow & _).
    split; assumption.
  - intros Hincomplete.
    rewrite signup_cases, Hw, Hne, Hfresh, Hl, Hknown, Hincomplete. cbv [negb].
    cbn. repeat split. eauto.
Qed.

Lemma signup_checks_presence_only_witness :
  (Server.isValidAddress env_up "not-a-wallet" = false
   /\ fst (Server.post_signup
             (Server.mkSignup (Some "Acme Pharma") (Some "a@x.com") (Some 1)
                (Some "not-a-wallet") (Some "PPB-1001")) seeded_world)
      = json Server.msg_signup_ok)
  /\ code (fst (Server.post_signup
                  (Server.mkSignup None (Some "a@x.com") (Some 1)
                     (Some "0xABC") (Some "PPB-1001")) seeded_world)) = 500.
Proof.
  split; [split; [reflexivity|] | ].
  - apply (proj1 (proj2 (signup_checks_presence_only env_up
                    (Server.mkSignup (Some "Acme Pharma") (Some "a@x.com") (Some 1)
                       (Some "not-a-wallet") (Some "PPB-1001"))
                    "not-a-wallet" "PPB-1001" seeded_world
                    eq_refl eq_refl eq_refl eq_refl eq_refl)));
      reflexivity.
  - apply (proj2 (proj2 (signup_checks_presence_only env_up
                    (Server.mkSignup None (Some "a@x.com") (Some 1)
                       (Some "0xABC") (Some "PPB-1001"))
                    "0xABC" "PPB-1001" seeded_world
                    eq_refl eq_refl eq_refl eq_refl eq_refl)));
      reflexivity.
Defined.

(** ** Start-up seeding *)

Lemma startup_nonempty (w : World) : ppb w <> [] -> Server.startup w = (Server.Listening, w).
Proof.
  intros Hne. unfold Server.startup, bind, PPBRecord_count.
  destruct (ppb w) as [|r rest] eqn:Hp; [contradiction|].
  replace (Z.of_nat (length (r :: rest)) =? 0) with false; [reflexivity|].
  symmetry. apply Z.eqb_neq. cbn [length]. lia.
Qed.

(** C9. Started on an empty PPBRecord table, the server seeds exactly the
    20 records with licenses "PPB-1001" to "PPB-1020" and listens; started
    on a non-empty table it changes nothing.  After seeding, a complete
    signup with license "PPB-1001" for a wallet that has no row yet is
    answered "Registration pending verification by admin", and UserStatus
    for that wallet then answers "pending". *)
Theorem seeding_and_first_signup (w : World) :
  (ppb w <> [] -> Server.startup w = (Server.Listening, w))
  /\ (ppb w = [] ->
      let w1 := snd (Server.startup w) in
      fst (Server.startup w) = Server.Listening
      /\ map ppb_licenseNumber (ppb w1) = seed_licenses
      /\ length (ppb w1) = 20%nat
      /\ users w1 = users w
      /\ Server.startup w1 = (Server.Listening, w1)
      /\ forall req wallet,
          Server.b_walletAddress req = Some wallet ->
          str_nonempty wallet = true ->
          has_wallet wallet w1 = false ->
          Server.b_licenseNumber req = Some "PPB-1001" ->
          complete req = true ->
          fst (Server.post_signup req w1) = json Server.msg_signup_ok
          /\ fst (Server.get_user_status wallet (snd (Server.post_signup req w1)))
             = json (status_body "pending")).
Proof.
  split; [apply startup_nonempty|].
  intros Hempty w1.
  assert (fst (Server.startup w) = Server.Listening
          /\ map ppb_licenseNumber (ppb w1) = seed_licenses
          /\ users w1 = users w) as (Hboot & Hlic & Husers).
  { subst w1. destruct w as [us useq p pseq cs]. cbn [ppb] in Hempty. subst p.
    vm_compute. repeat split. }
  assert (length (ppb w1) = 20%nat) as Hlen.
  { rewrite <- (length_map ppb_licenseNumber), Hlic. reflexivity. }
  assert (known_license "PPB-1001" w1 = true) as Hknown.
  { unfold known_license.
    rewrite <- (existsb_on_map (fun s => (s =? "PPB-1001")%string) ppb_licenseNumber).
    rewrite Hlic. reflexivity. }
  repeat (split; [assumption|]).
  split.
  - apply startup_nonempty. intros Hnil. rewrite Hnil in Hlen. discriminate.
  - intros req wallet Hw Hne Hfresh Hl Hcomplete.
    destruct (signup_success req wallet "PPB-1001" w1 Hw Hne Hfresh Hl Hknown Hcomplete)
      as (Hr & _ & _ & Hs).
    split; assumption.
Qed.

Lemma seeding_and_first_signup_witness :
  ppb empty_world = []
  /\ map ppb_licenseNumber (ppb seeded_world) = seed_licenses
  /\ fst (Server.post_signup acme seeded_world) = json Server.msg_signup_ok
  /\ fst (Server.get_user_status "0xABC" (snd (Server.post_signup acme seeded_world)))
     = json (status_body "pending")
  /\ Server.startup seeded_world = (Server.Listening, seeded_world).
Proof.
  split; [reflexivity|].
  pose proof (proj2 (seeding_and_first_signup empty_world) eq_refl) as H.
  cbv zeta in H. destruct H as (_ & Hlic & _ & _ & Hagain & Hsignup).
  destruct (Hsignup acme "0xABC" eq_refl eq_refl eq_refl eq_refl eq_refl) as [Hr Hs].
  split; [exact Hlic|]. split; [exact Hr|]. split; [exact Hs|].
  apply (proj1 (seeding_and_first_signup seeded_world)). discriminate.
Defined.

(** ** Product registration *)

(** With name, batchId and details present, the first outbound call of
    [RegisterProduct] is the pinning upload of the details; and when that
    upload throws (the service is unreachable or answers a non-success
    status) the route answers 500 with the upstream message, the upload is
    the only call of the run, and [registerProduct] is never called.  A
    reply that merely lacks the identifier does not throw. *)
Theorem register_product_pins_first
  (env : Env) (name batchId details : jsval) (w : World) :
  truthy name = true -> truthy batchId = true -> truthy details = true ->
  let r := Proxy.post_register_product env name batchId details w in
  (exists rest, issued w (snd r) = CallPin details :: rest)
  /\ (forall e,
        pinFileToIPFS env details = Throw e ->
        fst r = status_json 500 (VObj [("error", opt_str (message e))])
        /\ issued w (snd r) = [CallPin details]
        /\ count_events is_registerProduct (issued w (snd r)) = 0%nat
        /\ count_events is_chain_write (issued w (snd r)) = 0%nat).
Proof.
  intros Hn Hb Hd r. subst r.
  unfold Proxy.post_register_product. rewrite Hn, Hb, Hd. cbv [negb orb].
  unfold try_catch, bind, Proxy.uploadToIPFS, Proxy.rethrow, call, lift, ret.
  destruct (pinFileToIPFS env details) as [data|e0].
  - split; [|intros e He; discriminate].
    destruct (Proxy.get_IpfsHash data) as [ipfsHash|e1].
    + destruct (registerProduct env name batchId ipfsHash) as [tx|e2].
      * destruct (wait tx) as [?|e3].
        -- destruct (toDataURL env _) as [qr|e4]; cbn [fst snd];
             eexists; apply issued_log; cbn [calls log];
             repeat rewrite <- app_assoc; reflexivity.
        -- cbn [fst snd]. eexists. apply issued_log. cbn [calls log].
           repeat rewrite <- app_assoc. reflexivity.
      * cbn [fst snd]. eexists. apply issued_log. cbn [calls log].
        repeat rewrite <- app_assoc. reflexivity.
    + cbn [fst snd]. eexists. apply issued_log. reflexivity.
  - cbn [fst snd].
    assert (issued w (log (CallPin details) w) = [CallPin details]) as Hrun
        by (apply issued_log; reflexivity).
    split; [eexists; exact Hrun|].
    intros e [= <-]. rewrite Hrun. repeat split.
Qed.

Lemma register_product_pins_first_witness :
  let r := Proxy.post_register_product env_down (VStr "Amoxil") (VNum (num 7))
             (VObj [("dose", VStr "500mg")]) empty_world in
  fst r = status_json 500 (error_body "Request failed with status code 401")
  /\ calls (snd r) = [CallPin (VObj [("dose", VStr "500mg")])]
  /\ count_events is_registerProduct (issued empty_world (snd r)) = 0%nat.
Proof.
  pose proof (register_product_pins_first env_down (VStr "Amoxil") (VNum (num 7))
                (VObj [("dose", VStr "500mg")]) empty_world eq_refl eq_refl eq_refl) as H.
  cbv zeta in *. destruct H as [_ H].
  destruct (H (error_of "Request failed with status code 401") eq_refl)
    as (Hr & Hrun & Hcount & _).
  split; [exact Hr|]. split; [exact Hrun|exact Hcount].
Defined.

(** ** Batch revocation *)

Lemma invalid_batch_id_spec (n : jsnum) :
  Server.invalid_batch_id n = true <-> is_nan n = true \/ num_le0 n = true.
Proof.
  unfold Server.invalid_batch_id. destruct n as [|neg|m e]; cbn.
  - intuition.
  - intuition discriminate.
  - destruct (Z.eqb_spec m 0) as [->|Hm]; cbn.
    + intuition.
    + intuition discriminate.
Qed.

(** C8, as the specification states it, fails: the body route
    [POST /revoke-batch] hands a negative batchId to the contract binding;
    the answer is 500 when the binding throws and 200 when it returns,
    never 400. *)
Lemma revoke_rejects_non_positive_fails :
  missing_or_non_positive (VNum (num (-5))) = true
  /\ Proxy.post_revoke_batch env_down (VNum (num (-5))) empty_world
     = (status_json 500 (error_body "execution reverted"),
        log (CallRevokeBatch [VNum (num (-5))]) empty_world)
  /\ fst (Proxy.post_revoke_batch env_up (VNum (num (-5))) empty_world)
     = json (VObj [("txHash", VStr "0xfeed")])
  /\ issued empty_world (snd (Proxy.post_revoke_batch env_up (VNum (num (-5))) empty_world))
     = [CallRevokeBatch [VNum (num (-5))]; CallWait "0xfeed"]
  /\ ~ revoke_rejects_non_positive.
Proof.
  split; [reflexivity|]. split; [reflexivity|].
  split; [reflexivity|]. split; [reflexivity|].
  intros [_ H].
  destruct (H env_down (VNum (num (-5))) empty_world eq_refl) as [Hcode _].
  vm_compute in Hcode. discriminate.
Qed.

(** C8, amended.  [POST /revoke-batch/:id] answers 400 "Invalid batch id"
    with no outbound call when [Number(id)] is NaN, zero or negative, and
    otherwise issues exactly one [revokeBatch(batchId, reason)] call,
    followed by the confirmation wait when the call returns a transaction.
    [POST /revoke-batch] answers 400 "Missing batchId" with no outbound call
    only for a falsy body batchId; any other batchId, a negative number
    included, goes into exactly one [revokeBatch(batchId)] call, followed by
    the wait when the call returns. *)
Theorem revoke_batch_validation (env : Env) (w : World) :
  (forall raw reason,
      let n := Number env raw in
      let args := [VNum n; nullish_or reason (VStr "Revoked by admin")] in
      let r := Server.post_revoke_batch env raw reason w in
      (is_nan n = true \/ num_le0 n = true ->
       r = (status_json 400 Server.msg_invalid_batch, w))
      /\ (is_nan n = false -> num_le0 n = false ->
          issued w (snd r)
          = CallRevokeBatch args
              :: match revokeBatch env args with
                 | Ok tx => [CallWait (hash tx)]
                 | Throw _ => []
                 end
          /\ count_events is_revokeBatch (issued w (snd r)) = 1%nat))
  /\ (forall batchId,
         let r := Proxy.post_revoke_batch env batchId w in
         (truthy batchId = false ->
          r = (status_json 400 Proxy.msg_missing_batchId, w))
         /\ (truthy batchId = true ->
             issued w (snd r)
             = CallRevokeBatch [batchId]
                 :: match revokeBatch env [batchId] with
                    | Ok tx => [CallWait (hash tx)]
                    | Throw _ => []
                    end
             /\ count_events is_revokeBatch (issued w (snd r)) = 1%nat)).
Proof.
  split.
  - intros raw reason n args r. split.
    + intros Hbad. apply invalid_batch_id_spec in Hbad.
      subst r. unfold Server.post_revoke_batch, try_catch. fold n. now rewrite Hbad.
    + intros Hnan Hle.
      assert (Server.invalid_batch_id n = false) as Hvalid.
      { apply not_true_is_false. intros Hbad.
        apply invalid_batch_id_spec in Hbad as [Hbad|Hbad]; congruence. }
      assert (issued w (snd r)
              = CallRevokeBatch args
                  :: match revokeBatch env args with
                     | Ok tx => [CallWait (hash tx)]
                     | Throw _ => []
                     end) as Hrun.
      { subst r. unfold Server.post_revoke_batch, try_catch, bind, call, ret.
        fold n. rewrite Hvalid. fold args.
        destruct (revokeBatch env args) as [tx|e].
        - destruct (wait tx); cbn [fst snd]; apply issued_log; cbn [calls log];
            rewrite <- app_assoc; reflexivity.
        - cbn [fst snd]. apply issued_log. reflexivity. }
      split; [exact Hrun|]. rewrite Hrun.
      now destruct (revokeBatch env args).
  - intros batchId r. split.
    + intros Hfalsy. subst r. unfold Proxy.post_revoke_batch. now rewrite Hfalsy.
    + intros Htruthy.
      assert (issued w (snd r)
              = CallRevokeBatch [batchId]
                  :: match revokeBatch env [batchId] with
                     | Ok tx => [CallWait (hash tx)]
                     | Throw _ => []
                     end) as Hrun.
      { subst r. unfold Proxy.post_revoke_batch. rewrite Htruthy. cbv [negb].
        unfold try_catch, bind, call, ret.
        destruct (revokeBatch env [batchId]) as [tx|e].
        - destruct (wait tx); cbn [fst snd]; apply issued_log; cbn [calls log];
            rewrite <- app_assoc; reflexivity.
        - cbn [fst snd]. apply issued_log. reflexivity. }
      split; [exact Hrun|]. rewrite Hrun.
      now destruct (revokeBatch env [batchId]).
Qed.

Lemma revoke_batch_validation_witness :
  Server.post_revoke_batch env_up "abc" VUndefined empty_world
    = (status_json 400 Server.msg_invalid_batch, empty_world)
  /\ Server.post_revoke_batch env_up "-3" VUndefined empty_world
    = (status_json 400 Server.msg_invalid_batch, empty_world)
  /\ Server.post_revoke_batch env_up "0" VUndefined empty_world
    = (status_json 400 Server.msg_invalid_batch, empty_world)
  /\ calls (snd (Server.post_revoke_batch env_up "12" VUndefined empty_world))
    = [CallRevokeBatch [VNum (num 12); VStr "Revoked by admin"]; CallWait "0xfeed"]
  /\ Proxy.post_revoke_batch env_up (VNum (num 0)) empty_world
    = (status_json 400 Proxy.msg_missing_batchId, empty_world)
  /\ calls (snd (Proxy.post_revoke_batch env_up (VNum (num (-5))) empty_world))
    = [CallRevokeBatch [VNum (num (-5))]; CallWait "0xfeed"].
Proof.
  destruct (revoke_batch_validation env_up empty_world) as [Hid Hbody].
  split; [apply (proj1 (Hid "abc" VUndefined)); left; reflexivity|].
  split; [apply (proj1 (Hid "-3" VUndefined)); right; reflexivity|].
  split; [apply (proj1 (Hid "0" VUndefined)); right; reflexivity|].
  split; [apply (proj1 (proj2 (Hid "12" VUndefined) eq_refl eq_refl))|].
  split; [apply (proj1 (Hbody (VNum (num 0)))); reflexivity|].
  apply (proj1 (proj2 (Hbody (VNum (num (-5)))) eq_refl)).
Defined.

(** * Further properties of the registration workflow *)

Lemma find_wallet_status_row (w : World) (u : User) :
  store_ok w = true -> In u (users w) ->
  find (row_matches [(ColWalletAddress, walletAddress u); (ColStatus, status u)])
       (users w) = Some u.
Proof.
  intros Hok Hu.
  destruct (find _ (users w)) as [v|] eqn:Hf.
  - apply find_some in Hf as [Hv Hm].
    rewrite row_matches_wallet_status in Hm.
    apply andb_true_iff in Hm as [Hm _]. apply String.eqb_eq in Hm.
    f_equal. now apply (store_ok_wallets w Hok).
  - exfalso. apply (find_none _ _ Hf) in Hu.
    rewrite row_matches_wallet_status, !String.eqb_refl in Hu. discriminate.
Qed.

Lemma user_status_of_row (w : World) (u : User) :
  store_ok w = true -> In u (users w) ->
  Server.get_user_status (walletAddress u) w = (json (status_body (status u)), w).
Proof.
  intros Hok Hu. now rewrite user_status_cases, (find_wallet_row w u Hok Hu).
Qed.

(** The rows after a confirmed approval. *)
Lemma approved_rows (w : World) (user : User) :
  store_ok w = true -> In user (users w) ->
  forall v,
    In v (map (fun u => if id u =? id user then set_status "approved" u else u) (users w))
    <-> v = set_status "approved" user \/ (In v (users w) /\ v <> user).
Proof.
  intros Hok Huser v. rewrite in_map_iff. split.
  - intros (x & Hx & Hin). destruct (Z.eqb_spec (id x) (id user)) as [Hid|Hid].
    + left. assert (x = user) by now apply (store_ok_ids w Hok). now subst.
    + right. subst v. split; [exact Hin|]. intros ->. now apply Hid.
  - intros [->|[Hin Hne]].
    + exists user. now rewrite Z.eqb_refl.
    + exists v. split; [|exact Hin].
      destruct (Z.eqb_spec (id v) (id user)) as [Hid|Hid]; [|reflexivity].
      exfalso. apply Hne. now apply (store_ok_ids w Hok).
Qed.

(** X1. When the chain accepts and confirms the registration of a pending
    wallet, [Approve] answers success, has issued exactly
    [registerUser(wallet, name, role)] with the stored name and role and then
    the wait, flips that row and no other to "approved" (the rows keep
    their order), and afterwards [UserStatus] answers "approved" and [Login]
    returns the approved row. *)
Theorem approve_success
  (env : Env) (wallet : string) (w : World) (user : User) (tx : Tx) :
  store_ok w = true ->
  pending_row wallet w = Some user ->
  registerUser env (walletAddress user) (name user) (role user) = Ok tx ->
  wait tx = Ok tt ->
  let r := Server.post_approve_request env wallet w in
  fst r = json Server.msg_approved
  /\ issued w (snd r) = [CallRegisterUser wallet (name user) (role user); CallWait (hash tx)]
  /\ (forall v, In v (users (snd r))
                <-> v = set_status "approved" user \/ (In v (users w) /\ v <> user))
  /\ map id (users (snd r)) = map id (users w)
  /\ fst (Server.get_user_status wallet (snd r)) = json (status_body "approved")
  /\ fst (Server.post_login (Some wallet) (snd r))
     = json (VObj [("success", VBool true);
                   ("user", Server.user_json (set_status "approved" user))]).
Proof.
  intros Hok Hrow Hcall Hwait r.
  pose proof (pending_row_spec _ _ _ Hrow) as (Hin & Hw & Hs).
  pose proof (approve_preserves env wallet w Hok) as Hok'. fold r in Hok'.
  assert (r = (json Server.msg_approved,
               with_users
                 (map (fun u => if id u =? id user then set_status "approved" u else u)
                      (users w))
                 (log (CallWait (hash tx))
                      (log (CallRegisterUser (walletAddress user) (name user) (role user))
                           w)))) as Hr.
  { subst r. rewrite approve_cases, Hrow. cbv zeta. now rewrite Hcall, Hwait. }
  assert (forall v, In v (users (snd r))
                    <-> v = set_status "approved" user \/ (In v (users w) /\ v <> user))
    as Hrows.
  { rewrite Hr. cbn [snd with_users users]. now apply approved_rows. }
  assert (In (set_status "approved" user) (users (snd r))) as Hnew
      by (apply Hrows; now left).
  split; [now rewrite Hr|]. split; [|split; [exact Hrows|split; [|split]]].
  - rewrite Hr. cbn [snd]. apply issued_log. cbn [calls with_users log].
    rewrite <- app_assoc, Hw. reflexivity.
  - rewrite Hr. cbn [snd with_users users]. rewrite map_map. apply map_ext.
    intros u. now destruct (id u =? id user).
  - pose proof (user_status_of_row (snd r) _ Hok' Hnew) as Hst.
    cbn [set_status walletAddress status] in Hst. rewrite Hw in Hst. now rewrite Hst.
  - rewrite login_cases.
    pose proof (find_wallet_status_row (snd r) _ Hok' Hnew) as Hf.
    cbn [set_status walletAddress status] in Hf. rewrite Hw in Hf. now rewrite Hf.
Qed.

Lemma approve_success_witness :
  pending_row "0xABC" pending_world
    = Some (mkUser 1 "Acme Pharma" "a@x.com" 1 "0xABC" "PPB-1001" "pending")
  /\ fst (Server.post_approve_request env_up "0xABC" pending_world)
     = json Server.msg_approved
  /\ issued pending_world approved_world
     = [CallRegisterUser "0xABC" "Acme Pharma" 1; CallWait "0xfeed"]
  /\ fst (Server.get_user_status "0xABC" approved_world) = json (status_body "approved").
Proof.
  split; [reflexivity|].
  pose proof (approve_success env_up "0xABC" pending_world
                (mkUser 1 "Acme Pharma" "a@x.com" 1 "0xABC" "PPB-1001" "pending")
                tx_confirmed eq_refl eq_refl eq_refl eq_refl) as H.
  cbv zeta in H. destruct H as (H1 & H2 & _ & _ & H5 & _).
  split; [exact H1|]. split; [exact H2|exact H5].
Defined.

(** ** Invariants of the reachable states *)

Lemma distinct_by_NoDup {A K} (eqb : K -> K -> bool) (key : A -> K) (l : list A) :
  (forall a b, eqb a b = true <-> a = b) ->
  distinct_by eqb key l = true -> NoDup (map key l).
Proof.
  intros Heq. induction l as [|x rest IH]; simpl; intros Hd; [constructor|].
  apply andb_true_iff in Hd as [Hx Hrest]. apply negb_true_iff in Hx.
  constructor; [|now apply IH].
  intros Hin. apply in_map_iff in Hin as (y & Hk & Hy).
  exact (no_key_not_in eqb key Heq x rest Hx y Hy Hk).
Qed.

Lemma registered_app (u : User) (l evs : list Event) :
  registered_on_chain u l -> registered_on_chain u (l ++ evs).
Proof.
  intros (before & h & after & ->).
  exists before, h, (after ++ evs)%list.
  rewrite <- app_assoc. reflexivity.
Qed.

Lemma row_ok_app (u : User) (l evs : list Event) :
  row_ok l u -> row_ok (l ++ evs) u.
Proof.
  intros [Hp|[Ha Hr]]; [now left|right]. split; [exact Ha|now apply registered_app].
Qed.

Lemma signup_world (req : Server.SignupBody) (w : World) :
  snd (Server.post_signup req w) = w
  \/ (code (fst (Server.post_signup req w)) = 200
      /\ exists n e r wa l,
           req = Server.mkSignup (Some n) (Some e) (Some r) (Some wa) (Some l)
           /\ str_nonempty wa = true /\ has_wallet wa w = false
           /\ known_license l w = true
           /\ snd (Server.post_signup req w)
              = mkWorld (users w ++ [mkUser (user_seq w + 1) n e r wa l "pending"])
                        (user_seq w + 1) (ppb w) (ppb_seq w) (calls w)).
Proof.
  rewrite signup_cases. destruct req as [n e r wa l].
  unfold complete, signed_up.
  cbn [Server.b_walletAddress Server.b_licenseNumber Server.b_name Server.b_email
       Server.b_role].
  destruct wa as [wa|]; [|now left].
  destruct (str_nonempty wa) eqn:Hne; [|now left]. cbv [negb].
  destruct (has_wallet wa w) eqn:Hfresh; [now left|].
  destruct l as [l|]; [|now left].
  destruct (known_license l w) eqn:Hknown; [|now left]. cbv [negb].
  destruct n as [n|]; [|now left].
  destruct e as [e|]; [|now left].
  destruct r as [r|]; [|now left].
  right. split; [reflexivity|].
  exists n, e, r, wa, l. repeat split; assumption.
Qed.

Lemma startup_calls (w : World) : calls (snd (Server.startup w)) = calls w.
Proof.
  unfold Server.startup, bind, PPBRecord_count, PPBRecord_bulkCreate, ret.
  destruct (Z.of_nat (length (ppb w)) =? 0); [|reflexivity].
  now destruct (bulk_insert _ _ _) as [[rows seq]|].
Qed.

Lemma handle_rows (env : Env) (req : Request) (w : World) :
  store_ok w = true ->
  (forall u, In u (users w) -> row_ok (calls w) u) ->
  forall v, In v (users (snd (handle env req w))) ->
            row_ok (calls (snd (handle env req w))) v.
Proof.
  intros Hok Hrows. destruct req; cbn [handle].
  - destruct (signup_world b w) as [->|(_ & n & e & r & wa & l & _ & _ & _ & _ & ->)];
      [exact Hrows|].
    cbn [users calls]. intros v Hv. apply in_app_or in Hv as [Hv|[<-|[]]].
    + now apply Hrows.
    + now left.
  - now rewrite login_pure.
  - exact Hrows.
  - rewrite approve_cases.
    destruct (pending_row wallet w) as [user|] eqn:Hrow; [|exact Hrows]. cbv zeta.
    pose proof (pending_row_spec _ _ _ Hrow) as (Hin & _ & _).
    destruct (registerUser env _ _ _) as [tx|e].
    + destruct (wait tx) as [?|e]; cbn [snd users calls log with_users].
      * intros v Hv. apply (approved_rows w user Hok Hin) in Hv as [->|[Hv _]].
        -- right. split; [reflexivity|].
           exists (calls w), (hash tx), []. cbn [set_status walletAddress name role].
           rewrite <- app_assoc. reflexivity.
        -- rewrite <- app_assoc. now apply row_ok_app, Hrows.
      * intros v Hv. rewrite <- app_assoc. now apply row_ok_app, Hrows.
    + cbn [snd users calls log]. intros v Hv. now apply row_ok_app, Hrows.
  - rewrite reject_cases.
    destruct (pending_row wallet w) as [user|]; [|exact Hrows].
    cbn [snd users calls with_users]. intros v Hv.
    apply filter_In in Hv as [Hv _]. now apply Hrows.
  - now rewrite user_status_pure.
  - now rewrite get_user_pure.
  - exact Hrows.
  - unfold Server.post_revoke_batch, try_catch, bind, call, ret.
    destruct (Server.invalid_batch_id _); [exact Hrows|].
    destruct (revokeBatch env _) as [tx|e].
    + destruct (wait tx); cbn [snd users calls log]; intros v Hv;
        rewrite <- app_assoc; now apply row_ok_app, Hrows.
    + cbn [snd users calls log]. intros v Hv. now apply row_ok_app, Hrows.
Qed.

Lemma startup_seeds (w : World) :
  ppb w = [] ->
  fst (Server.startup w) = Server.Listening
  /\ map ppb_licenseNumber (ppb (snd (Server.startup w))) = seed_licenses.
Proof.
  destruct w as [us useq p pseq cs]. cbn [ppb]. intros ->. vm_compute. split; reflexivity.
Qed.

Lemma handle_ppb (env : Env) (req : Request) (w : World) :
  ppb (snd (handle env req w)) = ppb w.
Proof.
  destruct req; cbn [handle].
  - destruct (signup_world b w) as [->|(_ & n & e & r & wa & l & _ & _ & _ & _ & ->)];
      reflexivity.
  - now rewrite login_pure.
  - reflexivity.
  - rewrite approve_cases. destruct (pending_row wallet w); [|reflexivity]. cbv zeta.
    destruct (registerUser env _ _ _) as [tx|e]; [|reflexivity].
    now destruct (wait tx).
  - rewrite reject_cases. now destruct (pending_row wallet w).
  - now rewrite user_status_pure.
  - now rewrite get_user_pure.
  - reflexivity.
  - unfold Server.post_revoke_batch, try_catch, bind, call, ret.
    destruct (Server.invalid_batch_id _); [reflexivity|].
    destruct (revokeBatch env _) as [tx|e]; [|reflexivity]. now destruct (wait tx).
Qed.

(** Everything the reachable states have in common. *)
Lemma reachable_invariants (w : World) :
  reachable w ->
  store_ok w = true
  /\ (forall u, In u (users w) -> row_ok (calls w) u)
  /\ (ppb w = [] \/ map ppb_licenseNumber (ppb w) = seed_licenses).
Proof.
  induction 1 as [|w Hw (Hok & Hrows & Hppb)|env req w Hw (Hok & Hrows & Hppb)].
  - split; [reflexivity|]. split; [intros u []|now left].
  - destruct (startup_users w) as [Hu Hs]. split; [|split].
    + now rewrite (store_ok_ext _ _ Hu Hs).
    + rewrite Hu, startup_calls. exact Hrows.
    + destruct (ppb w) as [|r rest] eqn:Hp.
      * right. now apply startup_seeds.
      * rewrite startup_nonempty by (rewrite Hp; discriminate).
        cbn [snd]. rewrite Hp. destruct Hppb as [Hnil|Hseed]; [discriminate|now right].
  - split; [now apply handle_preserves|]. split.
    + now apply handle_rows.
    + now rewrite handle_ppb.
Qed.

(** X2. In every reachable state the [User] table has no two rows with the
    same walletAddress and no two with the same id, no row has an empty
    walletAddress, and every id is at most the AUTOINCREMENT counter. *)
Theorem reachable_unique_wallets (w : World) :
  reachable w ->
  NoDup (map walletAddress (users w))
  /\ NoDup (map id (users w))
  /\ forall u, In u (users w) -> walletAddress u <> EmptyString /\ id u <= user_seq w.
Proof.
  intros Hreach. destruct (reachable_invariants w Hreach) as (Hok & _ & _).
  unfold store_ok in Hok.
  apply andb_true_iff in Hok as [Hok Hne].
  apply andb_true_iff in Hok as [Hok Hle].
  apply andb_true_iff in Hok as [Hwallets Hids].
  split; [|split].
  - exact (distinct_by_NoDup String.eqb walletAddress (users w) String.eqb_eq Hwallets).
  - exact (distinct_by_NoDup Z.eqb id (users w) Z.eqb_eq Hids).
  - intros u Hu. split.
    + pose proof (proj1 (forallb_forall _ _) Hne u Hu) as H. cbv beta in H.
      intros Hempty. rewrite Hempty in H. discriminate.
    + pose proof (proj1 (forallb_forall _ _) Hle u Hu) as H. cbv beta in H.
      now apply Z.leb_le.
Qed.

Lemma approved_world_reachable : reachable approved_world.
Proof.
  apply (reach_request env_up (Approve "0xABC") pending_world).
  apply (reach_request env_up (Signup acme) seeded_world).
  apply (reach_startup empty_world). apply reach_empty.
Defined.

Lemma reachable_unique_wallets_witness :
  NoDup (map walletAddress (users approved_world))
  /\ walletAddress acme_approved <> EmptyString
  /\ id acme_approved <= user_seq approved_world.
Proof.
  destruct (reachable_unique_wallets approved_world approved_world_reachable)
    as (H1 & _ & H3).
  split; [exact H1|]. apply H3. left. reflexivity.
Defined.

(** X3. No reachable state holds a row whose status is anything but
    "pending" or "approved": the status "rejected" is never written. *)
Theorem reachable_statuses (w : World) :
  reachable w ->
  forall u, In u (users w) ->
            written_status (status u) = true /\ status u <> "rejected".
Proof.
  intros Hreach u Hu. destruct (reachable_invariants w Hreach) as (_ & Hrows & _).
  destruct (Hrows u Hu) as [->|[-> _]]; split; (reflexivity || discriminate).
Qed.

Lemma reachable_statuses_witness :
  In acme_approved (users approved_world)
  /\ written_status (status acme_approved) = true
  /\ status acme_approved <> "rejected".
Proof.
  assert (In acme_approved (users approved_world)) as Hin by (left; reflexivity).
  split; [exact Hin|].
  exact (reachable_statuses approved_world approved_world_reachable acme_approved Hin).
Defined.

(** ** Signup, rejection and re-registration *)

Lemma filter_all {A} (p : A -> bool) (l : list A) :
  forallb p l = true -> filter p l = l.
Proof.
  induction l as [|h t IH]; simpl; intros H; [reflexivity|].
  apply andb_true_iff in H as [-> Ht]. now rewrite IH.
Qed.

Lemma signup_ok_world (req : Server.SignupBody) (wallet l : string) (w : World) :
  Server.b_walletAddress req = Some wallet ->
  str_nonempty wallet = true ->
  has_wallet wallet w = false ->
  Server.b_licenseNumber req = Some l ->
  known_license l w = true ->
  complete req = true ->
  exists n e r,
    Server.post_signup req w
    = (json Server.msg_signup_ok,
       mkWorld (users w ++ [mkUser (user_seq w + 1) n e r wallet l "pending"])
               (user_seq w + 1) (ppb w) (ppb_seq w) (calls w)).
Proof.
  intros Hw Hne Hfresh Hl Hknown Hcomplete.
  rewrite signup_cases, Hw, Hne, Hfresh, Hl, Hknown, Hcomplete. cbv [negb].
  unfold signed_up. rewrite Hw, Hl. unfold complete in Hcomplete.
  destruct (Server.b_name req) as [n|]; [|discriminate].
  destruct (Server.b_email req) as [e|]; [|discriminate].
  destruct (Server.b_role req) as [r|]; [|discriminate].
  now exists n, e, r.
Qed.

Lemma pending_row_snoc (wallet : string) (w : World) (u : User) (seq : Z) :
  has_wallet wallet w = false ->
  walletAddress u = wallet -> status u = "pending" ->
  pending_row wallet (mkWorld (users w ++ [u]) seq (ppb w) (ppb_seq w) (calls w))
  = Some u.
Proof.
  intros Hfresh Hw Hs. unfold pending_row. cbn [users]. rewrite find_app.
  assert (find (row_matches [(ColWalletAddress, wallet); (ColStatus, "pending")])
               (users w) = None) as ->.
  { apply find_existsb_false. unfold has_wallet in Hfresh.
    apply not_true_is_false. intros Hex.
    apply existsb_exists in Hex as (x & Hx & Hm).
    rewrite row_matches_wallet_status in Hm. apply andb_true_iff in Hm as [Hm _].
    assert (existsb (fun u0 => (walletAddress u0 =? wallet)%string) (users w) = true)
      by (apply existsb_exists; eauto).
    congruence. }
  cbn [find]. rewrite row_matches_wallet_status, Hw, Hs, !String.eqb_refl. reflexivity.
Qed.

(** X5. [Signup] issues no outbound call and leaves the registry mirror
    alone; it answers 200, 400 or 500; it answers 200 exactly when it has
    appended one pending row, built from the request's fields under the next
    AUTOINCREMENT id; on any other answer the world is unchanged. *)
Theorem signup_creates_row_iff_200 (req : Server.SignupBody) (w : World) :
  let r := Server.post_signup req w in
  calls (snd r) = calls w
  /\ ppb (snd r) = ppb w
  /\ (code (fst r) = 200 \/ code (fst r) = 400 \/ code (fst r) = 500)
  /\ (code (fst r) = 200 ->
      exists u, users (snd r) = (users w ++ [u])%list
                /\ id u = user_seq w + 1 /\ user_seq (snd r) = user_seq w + 1
                /\ status u = "pending"
                /\ req = Server.mkSignup (Some (name u)) (Some (email u)) (Some (role u))
                           (Some (walletAddress u)) (Some (licenseNumber u)))
  /\ (code (fst r) <> 200 -> snd r = w).
Proof.
  intros r. subst r.
  destruct (signup_world req w)
    as [Hsame|(Hcode & n & e & ro & wa & l & Hreq & _ & _ & _ & Hnew)].
  - assert (code (fst (Server.post_signup req w)) <> 200) as Hne.
    { intros Hc. rewrite signup_cases in Hsame, Hc.
      unfold signed_up, complete in *.
      destruct (Server.b_walletAddress req) as [wallet|]; [|discriminate].
      destruct (negb (str_nonempty wallet)); [discriminate|].
      destruct (has_wallet wallet w); [discriminate|].
      destruct (Server.b_licenseNumber req) as [l|]; [|discriminate].
      destruct (negb (known_license l w)); [discriminate|].
      destruct (Server.b_name req); [|discriminate].
      destruct (Server.b_email req); [|discriminate].
      destruct (Server.b_role req); [|discriminate].
      cbn [snd] in Hsame.
      apply (f_equal user_seq) in Hsame. cbn [user_seq] in Hsame. lia. }
    rewrite Hsame. split; [reflexivity|]. split; [reflexivity|]. split.
    + rewrite signup_cases.
      destruct (Server.b_walletAddress req) as [wallet|]; [|auto].
      destruct (negb (str_nonempty wallet)); [auto|].
      destruct (has_wallet wallet w); [auto|].
      destruct (Server.b_licenseNumber req) as [l|]; [|auto].
      destruct (negb (known_license l w)); [auto|].
      destruct (complete req); auto.
    + split; [intros Hc; contradiction|reflexivity].
  - rewrite Hnew. cbn [calls ppb users user_seq].
    split; [reflexivity|]. split; [reflexivity|]. split; [now left|]. split.
    + intros _. eexists. split; [reflexivity|]. cbn. repeat split. exact Hreq.
    + intros Hc. contradiction.
Qed.

Lemma signup_creates_row_iff_200_witness :
  code (fst (Server.post_signup acme seeded_world)) = 200
  /\ (exists u, users pending_world = (users seeded_world ++ [u])%list
                /\ id u = user_seq seeded_world + 1)
  /\ snd (Server.post_signup acme_unlicensed seeded_world) = seeded_world.
Proof.
  pose proof (signup_creates_row_iff_200 acme seeded_world) as H. cbv zeta in H.
  destruct H as (_ & _ & _ & Hrow & _).
  pose proof (signup_creates_row_iff_200 acme_unlicensed seeded_world) as H'.
  cbv zeta in H'. destruct H' as (_ & _ & _ & _ & Hsame).
  split; [reflexivity|]. split.
  - destruct (Hrow eq_refl) as (u & Hu & Hid & _). exists u. split; assumption.
  - apply Hsame. discriminate.
Defined.

(** X6. Rejecting a wallet right after its signup puts the [User] table
    back exactly as it was, with no outbound call, but the id is spent: the
    AUTOINCREMENT counter stays advanced, the wallet is unknown again, and
    the same signup then succeeds a second time under the next id. *)
Theorem signup_then_reject_restores
  (req : Server.SignupBody) (wallet l : string) (w : World) :
  store_ok w = true ->
  Server.b_walletAddress req = Some wallet ->
  str_nonempty wallet = true ->
  has_wallet wallet w = false ->
  Server.b_licenseNumber req = Some l ->
  known_license l w = true ->
  complete req = true ->
  let w1 := snd (Server.post_signup req w) in
  let w2 := snd (Server.post_reject_request wallet w1) in
  let w3 := snd (Server.post_signup req w2) in
  users w2 = users w
  /\ user_seq w2 = user_seq w + 1
  /\ calls w2 = calls w
  /\ fst (Server.get_user_status wallet w2) = status_json 404 (status_body "not_found")
  /\ fst (Server.post_signup req w2) = json Server.msg_signup_ok
  /\ exists u, pending_row wallet w3 = Some u /\ id u = user_seq w + 2.
Proof.
  intros Hok Hw Hne Hfresh Hl Hknown Hcomplete w1 w2 w3.
  destruct (signup_ok_world req wallet l w Hw Hne Hfresh Hl Hknown Hcomplete)
    as (n & e & r & Hsignup).
  set (u1 := mkUser (user_seq w + 1) n e r wallet l "pending") in *.
  assert (w1 = mkWorld (users w ++ [u1]) (user_seq w + 1) (ppb w) (ppb_seq w) (calls w))
    as Hw1 by (subst w1; now rewrite Hsignup).
  assert (pending_row wallet w1 = Some u1) as Hrow
      by (rewrite Hw1; now apply pending_row_snoc).
  assert (w2 = mkWorld (users w) (user_seq w + 1) (ppb w) (ppb_seq w) (calls w)) as Hw2.
  { subst w2. rewrite reject_cases, Hrow. cbn [snd]. rewrite Hw1.
    unfold with_users. cbn [users user_seq ppb ppb_seq calls]. f_equal.
    rewrite filter_app. cbn [filter id u1]. rewrite Z.eqb_refl. cbn [negb].
    rewrite app_nil_r. apply filter_all.
    unfold store_ok in Hok.
    apply andb_true_iff in Hok as [Hok _]. apply andb_true_iff in Hok as [_ Hle].
    apply forallb_forall. intros x Hx.
    pose proof (proj1 (forallb_forall _ _) Hle x Hx) as Hx'. cbv beta in Hx'.
    apply Z.leb_le in Hx'. apply negb_true_iff, Z.eqb_neq. lia. }
  assert (has_wallet wallet w2 = false) as Hfresh2 by (now rewrite Hw2).
  assert (known_license l w2 = true) as Hknown2 by (now rewrite Hw2).
  destruct (signup_ok_world req wallet l w2 Hw Hne Hfresh2 Hl Hknown2 Hcomplete)
    as (n' & e' & r' & Hsignup2).
  split; [now rewrite Hw2|]. split; [now rewrite Hw2|]. split; [now rewrite Hw2|].
  split; [|split].
  - rewrite user_status_cases.
    rewrite (find_ext _ (fun u => (walletAddress u =? wallet)%string) (users w2)
               (row_matches_wallet wallet)).
    now rewrite (find_existsb_false _ _ Hfresh2).
  - now rewrite Hsignup2.
  - subst w3. rewrite Hsignup2. cbn [snd]. eexists. split.
    + now apply pending_row_snoc.
    + cbn [id]. rewrite Hw2. cbn [user_seq]. lia.
Qed.

Lemma signup_then_reject_restores_witness :
  let w2 := snd (Server.post_reject_request "0xABC" pending_world) in
  users w2 = users seeded_world
  /\ user_seq w2 = user_seq seeded_world + 1
  /\ exists u, pending_row "0xABC" (snd (Server.post_signup acme w2)) = Some u /\ id u = 2.
Proof.
  pose proof (signup_then_reject_restores acme "0xABC" "PPB-1001" seeded_world
                eq_refl eq_refl eq_refl eq_refl eq_refl eq_refl eq_refl) as H.
  cbv zeta in *. destruct H as (H1 & H2 & _ & _ & _ & H6).
  split; [exact H1|]. split; [exact H2|exact H6].
Defined.

(** ** Reads *)

Lemma row_matches_status (st : string) (u : User) :
  row_matches [(ColStatus, st)] u = (status u =? st)%string.
Proof. unfold row_matches. simpl. apply andb_true_r. Qed.

(** X7. [GET /pending-requests] answers 200 with the pending rows, in table
    order, and changes nothing; a row is listed exactly when it is in the
    table with status "pending"; and a wallet has a listed row exactly when
    [UserStatus] answers "pending" for it. *)
Theorem pending_requests_lists_pending (w : World) :
  Server.get_pending_requests w
  = (json (VObj [("success", VBool true);
                 ("data", VArr (map Server.user_json (pending_rows w)))]), w)
  /\ (forall u, In u (pending_rows w) <-> In u (users w) /\ status u = "pending")
  /\ (store_ok w = true ->
      forall wallet,
        (exists u, In u (pending_rows w) /\ walletAddress u = wallet)
        <-> fst (Server.get_user_status wallet w) = json (status_body "pending")).
Proof.
  assert (forall u, In u (pending_rows w) <-> In u (users w) /\ status u = "pending")
    as Hlisted.
  { intros u. unfold pending_rows. rewrite filter_In, row_matches_status.
    now rewrite String.eqb_eq. }
  split; [reflexivity|]. split; [exact Hlisted|].
  intros Hok wallet. split.
  - intros (u & Hu & Hw). apply Hlisted in Hu as [Hu Hs].
    rewrite <- Hw, (user_status_of_row w u Hok Hu), Hs. reflexivity.
  - rewrite user_status_cases.
    destruct (find _ (users w)) as [v|] eqn:Hf; [|discriminate].
    cbn [fst]. intros Hbody. apply find_some in Hf as [Hv Hm].
    rewrite row_matches_wallet in Hm. apply String.eqb_eq in Hm.
    exists v. split; [|exact Hm]. apply Hlisted. split; [exact Hv|].
    unfold json, status_body in Hbody. congruence.
Qed.

Lemma pending_requests_lists_pending_witness :
  (exists u, In u (pending_rows pending_world) /\ walletAddress u = "0xABC")
  /\ pending_rows approved_world = [].
Proof.
  split.
  - apply (proj2 (proj2 (pending_requests_lists_pending pending_world)) eq_refl "0xABC").
    reflexivity.
  - reflexivity.
Defined.

(** X10. With the unique index in force, [Login] succeeds for a wallet
    exactly when [UserStatus] answers "approved" for it, and [GET /user]
    answers 404 exactly when [UserStatus] answers "not_found". *)
Theorem login_agrees_with_status (wallet : string) (w : World) :
  store_ok w = true ->
  (code (fst (Server.post_login (Some wallet) w)) = 200
   <-> fst (Server.get_user_status wallet w) = json (status_body "approved"))
  /\ (code (fst (Server.get_user wallet w)) = 404
      <-> fst (Server.get_user_status wallet w)
          = status_json 404 (status_body "not_found")).
Proof.
  intros Hok. split.
  - rewrite login_cases, user_status_cases. split.
    + destruct (find (row_matches [(ColWalletAddress, wallet); (ColStatus, "approved")])
                     (users w)) as [u|] eqn:Hf; [|discriminate].
      intros _. apply find_some in Hf as [Hu Hm].
      rewrite row_matches_wallet_status in Hm. apply andb_true_iff in Hm as [Hw Hs].
      apply String.eqb_eq in Hw, Hs. subst wallet.
      now rewrite (find_wallet_row w u Hok Hu), Hs.
    + destruct (find (row_matches [(ColWalletAddress, wallet)]) (users w))
        as [v|] eqn:Hf; [|discriminate].
      cbn [fst]. intros Hbody.
      assert (status v = "approved") as Hs
          by (unfold json, status_body in Hbody; congruence).
      apply find_some in Hf as [Hv Hm].
      rewrite row_matches_wallet in Hm. apply String.eqb_eq in Hm. subst wallet.
      pose proof (find_wallet_status_row w v Hok Hv) as Hfind.
      rewrite Hs in Hfind. now rewrite Hfind.
  - unfold Server.get_user, try_catch, bind, User_findOne, ret.
    simpl compile_where. cbv iota beta. rewrite user_status_cases.
    destruct (find _ (users w)); cbn; split; (reflexivity || discriminate).
Qed.

Lemma login_agrees_with_status_witness :
  code (fst (Server.post_login (Some "0xABC") approved_world)) = 200
  /\ fst (Server.get_user_status "0xABC" approved_world) = json (status_body "approved")
  /\ code (fst (Server.get_user "0xDEF" approved_world)) = 404.
Proof.
  destruct (login_agrees_with_status "0xABC" approved_world eq_refl) as [Hlogin _].
  destruct (login_agrees_with_status "0xDEF" approved_world eq_refl) as [_ Huser].
  split; [apply Hlogin; reflexivity|].
  split; [apply Hlogin; reflexivity|].
  apply Huser. reflexivity.
Defined.

(** ** The registry mirror and start-up *)

(** X8. No request changes the PPBRecord table; in every reachable state it
    is empty or holds exactly the licenses "PPB-1001" to "PPB-1020" in that
    order; and [GET /seeded] reports the table with its length as total,
    the same records [GET /api/ppb] lists. *)
Theorem registry_is_read_only (w : World) :
  (forall env req, ppb (snd (handle env req w)) = ppb w)
  /\ (reachable w -> ppb w = [] \/ map ppb_licenseNumber (ppb w) = seed_licenses)
  /\ Viewer.get_seeded w
     = (json (VObj [("success", VBool true);
                    ("total", VNum (num (Z.of_nat (length (ppb w)))));
                    ("data", VArr (map Server.ppb_json (ppb w)))]), w)
  /\ Server.get_ppb w
     = (json (VObj [("success", VBool true);
                    ("data", VArr (map Server.ppb_json (ppb w)))]), w).
Proof.
  split; [intros env req; apply handle_ppb|].
  split; [intros Hreach; now destruct (reachable_invariants w Hreach) as (_ & _ & H)|].
  split; reflexivity.
Qed.

Lemma registry_is_read_only_witness :
  map ppb_licenseNumber (ppb approved_world) = seed_licenses.
Proof.
  destruct (proj1 (proj2 (registry_is_read_only approved_world)) approved_world_reachable)
    as [Hnil|Hseed]; [discriminate Hnil|exact Hseed].
Defined.

(** X9. Start-up always ends listening, touches neither the [User] table
    nor the call log, leaves a non-empty registry behind, and is idempotent:
    a restart on the state it produced changes nothing. *)
Theorem startup_idempotent (w : World) :
  let w1 := snd (Server.startup w) in
  fst (Server.startup w) = Server.Listening
  /\ users w1 = users w
  /\ user_seq w1 = user_seq w
  /\ calls w1 = calls w
  /\ ppb w1 <> []
  /\ Server.startup w1 = (Server.Listening, w1).
Proof.
  intros w1. subst w1.
  destruct (startup_users w) as [Hu Hs].
  assert (fst (Server.startup w) = Server.Listening
          /\ ppb (snd (Server.startup w)) <> []) as [Hboot Hne].
  { destruct (ppb w) as [|r rest] eqn:Hp.
    - destruct (startup_seeds w Hp) as [Hb Hlic]. split; [exact Hb|].
      intros Hnil. rewrite Hnil in Hlic. discriminate.
    - rewrite startup_nonempty by (rewrite Hp; discriminate).
      cbn [fst snd]. split; [reflexivity|]. rewrite Hp. discriminate. }
  repeat (split; [assumption || apply startup_calls|]).
  now apply startup_nonempty.
Qed.

(** ** Errors and writers *)

Lemma message_or_nonempty (e : JsError) (fallback : string) :
  str_nonempty fallback = true -> str_nonempty (message_or e fallback) = true.
Proof.
  intros Hf. unfold message_or. destruct (message e) as [m|]; [|exact Hf].
  destruct (str_nonempty m) eqn:Hm; assumption.
Qed.

(** X11. Whenever [Approve], [RevokeBatch] or [Signup] answers 500, the body
    is an error object whose message is a non-empty string; and when the
    on-chain registration throws with a non-empty message, [Approve]
    surfaces that message verbatim. *)
Theorem server_errors_never_empty (env : Env) (w : World) :
  (forall wallet,
      code (fst (Server.post_approve_request env wallet w)) = 500 ->
      exists m, body (fst (Server.post_approve_request env wallet w)) = error_body m
                /\ str_nonempty m = true)
  /\ (forall raw reason,
        code (fst (Server.post_revoke_batch env raw reason w)) = 500 ->
        exists m, body (fst (Server.post_revoke_batch env raw reason w)) = error_body m
                  /\ str_nonempty m = true)
  /\ (forall req,
        code (fst (Server.post_signup req w)) = 500 ->
        exists m, body (fst (Server.post_signup req w)) = error_body m
                  /\ str_nonempty m = true)
  /\ (forall wallet user e m,
        pending_row wallet w = Some user ->
        registerUser env (walletAddress user) (name user) (role user) = Throw e ->
        message e = Some m -> str_nonempty m = true ->
        fst (Server.post_approve_request env wallet w) = status_json 500 (error_body m)).
Proof.
  split; [|split; [|split]].
  - intros wallet. rewrite approve_cases.
    destruct (pending_row wallet w) as [user|]; [|discriminate]. cbv zeta.
    destruct (registerUser env _ _ _) as [tx|e].
    + destruct (wait tx) as [?|e]; [discriminate|].
      intros _. eexists. split; [reflexivity|]. now apply message_or_nonempty.
    + intros _. eexists. split; [reflexivity|]. now apply message_or_nonempty.
  - intros raw reason.
    unfold Server.post_revoke_batch, try_catch, bind, call, ret.
    destruct (Server.invalid_batch_id _); [discriminate|].
    destruct (revokeBatch env _) as [tx|e].
    + destruct (wait tx) as [?|e]; [discriminate|].
      intros _. eexists. split; [reflexivity|]. now apply message_or_nonempty.
    + intros _. eexists. split; [reflexivity|]. now apply message_or_nonempty.
  - intros req. rewrite signup_cases.
    destruct (Server.b_walletAddress req) as [wallet|]; [|discriminate].
    destruct (negb (str_nonempty wallet)); [discriminate|].
    destruct (has_wallet wallet w); [discriminate|].
    destruct (Server.b_licenseNumber req) as [l|].
    + destruct (negb (known_license l w)); [discriminate|].
      destruct (complete req); [discriminate|].
      intros _. eexists. split; [reflexivity|]. now apply message_or_nonempty.
    + intros _. eexists. split; [reflexivity|]. now apply message_or_nonempty.
  - intros wallet user e m Hrow Hthrow Hm Hne.
    rewrite approve_cases, Hrow. cbv zeta. rewrite Hthrow. cbn [fst].
    unfold message_or. now rewrite Hm, Hne.
Qed.

Lemma server_errors_never_empty_witness :
  fst (Server.post_approve_request env_down "0xABC" pending_world)
  = status_json 500 (error_body "execution reverted")
  /\ exists m,
       body (fst (Server.post_signup
                    (Server.mkSignup None (Some "a@x.com") (Some 1) (Some "0xABC")
                       (Some "PPB-1001")) seeded_world)) = error_body m
       /\ str_nonempty m = true.
Proof.
  destruct (server_errors_never_empty env_down pending_world) as (_ & _ & _ & Hmsg).
  destruct (server_errors_never_empty env_down seeded_world) as (_ & _ & Hsignup & _).
  split.
  - apply (Hmsg "0xABC" (mkUser 1 "Acme Pharma" "a@x.com" 1 "0xABC" "PPB-1001" "pending")
             (error_of "execution reverted") "execution reverted"); reflexivity.
  - apply Hsignup. reflexivity.
Defined.

(** Among the routes that use the store, only [Signup], [Approve] and
    [Reject] can change the [User] table or its counter, and only [Approve]
    and [RevokeBatch] write to the call log. *)
Lemma only_writers_write (env : Env) (req : Request) (w : World) :
  (writes_users req = false ->
   users (snd (handle env req w)) = users w
   /\ user_seq (snd (handle env req w)) = user_seq w)
  /\ (calls_out req = false -> calls (snd (handle env req w)) = calls w).
Proof.
  split.
  - destruct req; cbn [writes_users handle]; intros H; try discriminate.
    + now rewrite login_pure.
    + now split.
    + now rewrite user_status_pure.
    + now rewrite get_user_pure.
    + now split.
    + apply revoke_users.
  - destruct req; cbn [calls_out handle]; intros H; try discriminate.
    + destruct (signup_world b w) as [->|(_ & n & e & r & wa & l & _ & _ & _ & _ & ->)];
        reflexivity.
    + now rewrite login_pure.
    + reflexivity.
    + rewrite reject_cases. now destruct (pending_row wallet w).
    + now rewrite user_status_pure.
    + now rewrite get_user_pure.
    + reflexivity.
Qed.

(** * Further properties of the pinning back end *)

(** X13. [RegisterProduct] with a falsy name, batchId or details (absent,
    null, empty string, zero, false) answers 400 "Missing fields: name,
    batchId, details" and does nothing else: nothing is pinned and nothing
    is sent to the chain. *)
Theorem register_product_missing_field
  (env : Env) (name batchId details : jsval) (w : World) :
  truthy name = false \/ truthy batchId = false \/ truthy details = false ->
  Proxy.post_register_product env name batchId details w
  = (status_json 400 Proxy.msg_missing_fields, w).
Proof.
  intros H. unfold Proxy.post_register_product.
  destruct H as [ -> | [ -> | -> ] ]; cbn [negb orb]; [reflexivity| |].
  - now rewrite orb_true_r.
  - now rewrite !orb_true_r.
Qed.

Lemma register_product_missing_field_witness :
  Proxy.post_register_product env_up (VStr "Amoxil") (VNum (num 0)) (VObj []) empty_world
  = (status_json 400 Proxy.msg_missing_fields, empty_world)
  /\ Proxy.post_register_product env_up (VStr "Amoxil") (VStr "B-17") VUndefined empty_world
     = (status_json 400 Proxy.msg_missing_fields, empty_world).
Proof.
  split.
  - apply register_product_missing_field. right. left. reflexivity.
  - apply register_product_missing_field. right. right. reflexivity.
Defined.

(** X14. With the three fields present, [RegisterProduct] answers 200 or
    500 and never touches the tables.  It answers 200 exactly when the pin,
    the read of [IpfsHash], the contract call, the confirmation wait and the
    QR rendering all succeed; the run is then pin, [registerProduct(name,
    batchId, hash)], wait, QR of the verify URL, in this order, and the body
    carries the transaction hash, the content identifier, the URL and the
    image. *)
Theorem register_product_success_iff
  (env : Env) (name batchId details : jsval) (w : World) :
  truthy name = true -> truthy batchId = true -> truthy details = true ->
  let r := Proxy.post_register_product env name batchId details w in
  let url := ToString env (FRONTEND_URL env) ++ "/verify/" ++ ToString env batchId in
  (code (fst r) = 200 \/ code (fst r) = 500)
  /\ users (snd r) = users w /\ ppb (snd r) = ppb w
  /\ (code (fst r) = 200 ->
      exists data h tx qr,
        pinFileToIPFS env details = Ok data
        /\ Proxy.get_IpfsHash data = Ok h
        /\ registerProduct env name batchId h = Ok tx
        /\ wait tx = Ok tt
        /\ toDataURL env url = Ok qr)
  /\ (forall data h tx qr,
        pinFileToIPFS env details = Ok data ->
        Proxy.get_IpfsHash data = Ok h ->
        registerProduct env name batchId h = Ok tx ->
        wait tx = Ok tt ->
        toDataURL env url = Ok qr ->
        fst r = json (VObj [("txHash", VStr (hash tx)); ("ipfsHash", h);
                            ("verifyUrl", VStr url); ("qrCode", VStr qr)])
        /\ issued w (snd r)
           = [CallPin details; CallRegisterProduct name batchId h;
              CallWait (hash tx); CallQr url]).
Proof.
  intros Hn Hb Hd r url. subst r.
  unfold Proxy.post_register_product. rewrite Hn, Hb, Hd. cbv [negb orb].
  unfold try_catch, bind, Proxy.uploadToIPFS, Proxy.rethrow, call, lift, ret.
  fold url.
  destruct (pinFileToIPFS env details) as [data|e0] eqn:Hpin.
  2:{ cbn [fst snd code status_json users ppb log].
      repeat split; auto; intros; congruence. }
  destruct (Proxy.get_IpfsHash data) as [h|e1] eqn:Hhash.
  2:{ cbn [fst snd code status_json users ppb log].
      repeat split; auto; intros; congruence. }
  destruct (registerProduct env name batchId h) as [tx|e2] eqn:Hreg.
  2:{ cbn [fst snd code status_json users ppb log].
      repeat split; auto; intros; congruence. }
  destruct (wait tx) as [u|e3] eqn:Hwait.
  2:{ cbn [fst snd code status_json users ppb log].
      repeat split; auto; intros; congruence. }
  destruct (toDataURL env url) as [qr|e4] eqn:Hqr.
  2:{ cbn [fst snd code status_json users ppb log].
      repeat split; auto; intros; congruence. }
  destruct u. cbn [fst snd code json users ppb log].
  split; [now left|]. split; [reflexivity|]. split; [reflexivity|]. split.
  - intros _. now exists data, h, tx, qr.
  - intros data' h' tx' qr' Hd' Hh' Ht' _ Hq'.
    assert (data' = data) by congruence. subst data'.
    assert (h' = h) by congruence. subst h'.
    assert (tx' = tx) by congruence. subst tx'.
    assert (qr' = qr) by congruence. subst qr'.
    split; [reflexivity|].
    apply issued_log. cbn [calls log]. repeat rewrite <- app_assoc. reflexivity.
Qed.

Lemma register_product_success_iff_witness :
  let r := Proxy.post_register_product env_up (VStr "Amoxil") (VStr "B-17")
             (VObj [("dose", VStr "500mg")]) empty_world in
  fst r = json (VObj [("txHash", VStr "0xfeed"); ("ipfsHash", VStr "QmHash");
                      ("verifyUrl", VStr "http://localhost:3000/verify/B-17");
                      ("qrCode", VStr "data:image/png;base64,AAAA")])
  /\ issued empty_world (snd r)
     = [CallPin (VObj [("dose", VStr "500mg")]);
        CallRegisterProduct (VStr "Amoxil") (VStr "B-17") (VStr "QmHash");
        CallWait "0xfeed"; CallQr "http://localhost:3000/verify/B-17"].
Proof.
  pose proof (register_product_success_iff env_up (VStr "Amoxil") (VStr "B-17")
                (VObj [("dose", VStr "500mg")]) empty_world eq_refl eq_refl eq_refl) as H.
  cbv zeta in *. destruct H as (_ & _ & _ & _ & H).
  exact (H (VObj [("IpfsHash", VStr "QmHash")]) (VStr "QmHash") tx_confirmed
           "data:image/png;base64,AAAA" eq_refl eq_refl eq_refl eq_refl eq_refl).
Defined.

(** X15. Three edges of [RegisterProduct] with its fields present.  When
    the pinning service answers an object without [IpfsHash], the contract
    is still called, with [undefined] as content identifier.  When it
    answers null, reading [IpfsHash] throws and the route answers 500
    without any contract call.  When the QR rendering fails after the
    transaction is confirmed, the route answers 500 although the batch has
    been registered on chain. *)
Theorem register_product_edges
  (env : Env) (name batchId details : jsval) (w : World) :
  truthy name = true -> truthy batchId = true -> truthy details = true ->
  let r := Proxy.post_register_product env name batchId details w in
  (forall fields,
      pinFileToIPFS env details = Ok (VObj fields) ->
      Proxy.assoc "IpfsHash" fields = VUndefined ->
      exists rest,
        issued w (snd r)
        = CallPin details :: CallRegisterProduct name batchId VUndefined :: rest)
  /\ (pinFileToIPFS env details = Ok VNull ->
      code (fst r) = 500 /\ issued w (snd r) = [CallPin details])
  /\ (forall data h tx e,
        pinFileToIPFS env details = Ok data ->
        Proxy.get_IpfsHash data = Ok h ->
        registerProduct env name batchId h = Ok tx ->
        wait tx = Ok tt ->
        toDataURL env (ToString env (FRONTEND_URL env) ++ "/verify/"
                       ++ ToString env batchId) = Throw e ->
        fst r = status_json 500 (VObj [("error", opt_str (message e))])
        /\ count_events is_registerProduct (issued w (snd r)) = 1%nat).
Proof.
  intros Hn Hb Hd r. subst r.
  unfold Proxy.post_register_product. rewrite Hn, Hb, Hd. cbv [negb orb].
  unfold try_catch, bind, Proxy.uploadToIPFS, Proxy.rethrow, call, lift, ret.
  split; [|split].
  - intros fields Hpin Hhash. rewrite Hpin. cbn [Proxy.get_IpfsHash]. rewrite Hhash.
    destruct (registerProduct env name batchId VUndefined) as [tx|e].
    + destruct (wait tx) as [?|e'].
      * destruct (toDataURL env _) as [qr|e'']; cbn [fst snd];
          eexists; apply issued_log; cbn [calls log];
          repeat rewrite <- app_assoc; reflexivity.
      * cbn [fst snd]. eexists. apply issued_log. cbn [calls log].
        repeat rewrite <- app_assoc. reflexivity.
    + cbn [fst snd]. eexists. apply issued_log. cbn [calls log].
      repeat rewrite <- app_assoc. reflexivity.
  - intros ->. cbn [Proxy.get_IpfsHash fst snd]. split; [reflexivity|].
    apply issued_log. reflexivity.
  - intros data h tx e -> -> -> -> ->. cbn [fst snd]. split; [reflexivity|].
    erewrite issued_log; [|cbn [calls log]; repeat rewrite <- app_assoc; reflexivity].
    reflexivity.
Qed.

Lemma register_product_edges_witness :
  let r := Proxy.post_register_product env_reverting (VStr "Amoxil") (VStr "B-17")
             (VObj []) empty_world in
  code (fst r) = 500 /\ issued empty_world (snd r) = [CallPin (VObj [])].
Proof.
  pose proof (register_product_edges env_reverting (VStr "Amoxil") (VStr "B-17")
                (VObj []) empty_world eq_refl eq_refl eq_refl) as H.
  cbv zeta in *. destruct H as (_ & H & _). exact (H eq_refl).
Defined.

(** * Properties of the contract gateways *)

Lemma reason_or_nonempty (e : Gateway.Failure) (fallback : string) :
  str_nonempty fallback = true -> str_nonempty (Gateway.reason_or e fallback) = true.
Proof.
  intros Hf. unfold Gateway.reason_or, Gateway.nonempty_opt.
  destruct (Gateway.f_reason e) as [r|];
    [destruct (str_nonempty r) eqn:Hr; [exact Hr|]|];
    (destruct (Gateway.f_data_message e) as [d|];
     [destruct (str_nonempty d) eqn:Hd; [exact Hd|]|]);
    (destruct (Gateway.f_message e) as [m|];
     [destruct (str_nonempty m) eqn:Hm; [exact Hm|exact Hf]|exact Hf]).
Qed.

(** X16. [TransferOwnership] of the pinning back end: a falsy batchId or
    newOwner is answered 400 with no outbound call; otherwise exactly one
    [transferOwnership(batchId, newOwner)] call is issued, followed by the
    wait when it returns a transaction; the answer is 200 with that
    transaction's hash exactly when call and wait both succeed, and a failed
    call is answered 500 with the upstream message. *)
Theorem transfer_ownership_contract (s : Gateway.Services) (batchId newOwner : jsval) :
  let r := Gateway.post_transfer_ownership s batchId newOwner in
  (truthy batchId = false \/ truthy newOwner = false ->
   r = (status_json 400 (VObj [("error", VStr "Missing batchId or newOwner")]), []))
  /\ (truthy batchId = true -> truthy newOwner = true ->
      snd r
      = Gateway.CTransferOwnership batchId newOwner
          :: match Gateway.transferOwnership s batchId newOwner with
             | Gateway.Done tx => [Gateway.CWait (Gateway.tx_hash tx)]
             | Gateway.Failed _ => []
             end
      /\ (code (fst r) = 200
          <-> exists tx, Gateway.transferOwnership s batchId newOwner = Gateway.Done tx
                         /\ Gateway.tx_wait tx = Gateway.Done tt)
      /\ (forall tx, Gateway.transferOwnership s batchId newOwner = Gateway.Done tx ->
                     Gateway.tx_wait tx = Gateway.Done tt ->
                     fst r = json (VObj [("txHash", VStr (Gateway.tx_hash tx))]))
      /\ (forall e, Gateway.transferOwnership s batchId newOwner = Gateway.Failed e ->
                    fst r = status_json 500 (Gateway.message_body e))).
Proof.
  intros r. subst r. unfold Gateway.post_transfer_ownership. split.
  - intros [Hb|Hn].
    + now rewrite Hb.
    + rewrite Hn. cbn [negb]. now rewrite orb_true_r.
  - intros Hb Hn. rewrite Hb, Hn. cbv [negb orb].
    unfold Gateway.guard, Gateway.gbind, Gateway.invoke, Gateway.done.
    destruct (Gateway.transferOwnership s batchId newOwner) as [tx|e] eqn:Hcall.
    + destruct (Gateway.tx_wait tx) as [u|e'] eqn:Hwait; cbn [fst snd code json status_json].
      * destruct u. split; [reflexivity|]. split; [|split].
        -- split; [intros _; now exists tx|reflexivity].
        -- intros tx' [= <-] _. reflexivity.
        -- intros e [=].
      * split; [reflexivity|]. split; [|split].
        -- split; [discriminate|]. intros (tx' & [= <-] & Hw). congruence.
        -- intros tx' [= <-] Hw. congruence.
        -- intros e [=].
    + cbn [fst snd code status_json]. split; [reflexivity|]. split; [|split].
      * split; [discriminate|]. intros (tx' & [=] & _).
      * intros tx' [=].
      * intros e' [= <-]. reflexivity.
Qed.

Lemma transfer_ownership_contract_witness :
  Gateway.post_transfer_ownership services_up (VStr "B-17") VUndefined
  = (status_json 400 (VObj [("error", VStr "Missing batchId or newOwner")]), [])
  /\ fst (Gateway.post_transfer_ownership services_up (VStr "B-17") (VStr "0xDEF"))
     = json (VObj [("txHash", VStr "0xfeed")])
  /\ fst (Gateway.post_transfer_ownership services_down (VStr "B-17") (VStr "0xDEF"))
     = status_json 500 (error_body "execution reverted").
Proof.
  split; [|split].
  - apply (proj1 (transfer_ownership_contract services_up (VStr "B-17") VUndefined)).
    right. reflexivity.
  - destruct (proj2 (transfer_ownership_contract services_up (VStr "B-17") (VStr "0xDEF"))
                eq_refl eq_refl) as (_ & _ & H & _).
    exact (H gtx_confirmed eq_refl eq_refl).
  - destruct (proj2 (transfer_ownership_contract services_down (VStr "B-17") (VStr "0xDEF"))
                eq_refl eq_refl) as (_ & _ & _ & H).
    exact (H (Gateway.plain_error "execution reverted") eq_refl).
Defined.

Lemma chain_signup_cases (s : Gateway.Services) (fields : list (string * jsval)) :
  let username := Proxy.assoc "username" fields in
  let password := Proxy.assoc "password" fields in
  let role := Proxy.assoc "role" fields in
  let failed e := status_json 500 (error_body (Gateway.reason_or e "Signup failed")) in
  Gateway.post_signup s (VObj fields) =
  if negb (truthy username) || negb (truthy password) || negb (truthy role) then
    (status_json 400 (VObj [("error", VStr "All fields are required")]), [])
  else
    match Gateway.ethers_id s password with
    | Gateway.Failed e => (failed e, [])
    | Gateway.Done h =>
        match Gateway.registerUser s username h role with
        | Gateway.Failed e => (failed e, [Gateway.CRegisterUser username h role])
        | Gateway.Done tx =>
            match Gateway.tx_wait tx with
            | Gateway.Failed e =>
                (failed e, [Gateway.CRegisterUser username h role;
                            Gateway.CWait (Gateway.tx_hash tx)])
            | Gateway.Done _ =>
                (json (VObj [("success", VBool true);
                             ("message", VStr "User registered successfully")]),
                 [Gateway.CRegisterUser username h role;
                  Gateway.CWait (Gateway.tx_hash tx)])
            end
        end
    end.
Proof.
  intros username password role failed.
  unfold Gateway.post_signup.
  cbn [Gateway.destructure Gateway.read Gateway.gbind Gateway.done Gateway.guard
       Gateway.invoke Gateway.lift_outcome app].
  fold username password role.
  destruct (negb (truthy username) || negb (truthy password) || negb (truthy role));
    [reflexivity|].
  destruct (Gateway.ethers_id s password) as [h|e]; [|reflexivity].
  destruct (Gateway.registerUser s username h role) as [tx|e]; [|reflexivity].
  destruct (Gateway.tx_wait tx); reflexivity.
Qed.

(** X17. On-chain [Signup]: a body lacking a truthy username, password or
    role is answered 400 with no outbound call; a password that
    [ethers.id] refuses is answered 500 with no outbound call; otherwise
    the one contract call carries the hash of the password, never the
    password; and a 500 answer always carries a non-empty message, the
    contract's [reason] when it has one. *)
Theorem chain_signup_contract (s : Gateway.Services) (fields : list (string * jsval)) :
  let username := Proxy.assoc "username" fields in
  let password := Proxy.assoc "password" fields in
  let role := Proxy.assoc "role" fields in
  let r := Gateway.post_signup s (VObj fields) in
  (truthy username = false \/ truthy password = false \/ truthy role = false ->
   r = (status_json 400 (VObj [("error", VStr "All fields are required")]), []))
  /\ (truthy username = true -> truthy password = true -> truthy role = true ->
      (forall e, Gateway.ethers_id s password = Gateway.Failed e ->
                 r = (status_json 500 (error_body (Gateway.reason_or e "Signup failed")), []))
      /\ (forall h, Gateway.ethers_id s password = Gateway.Done h ->
            snd r
            = Gateway.CRegisterUser username h role
                :: match Gateway.registerUser s username h role with
                   | Gateway.Done tx => [Gateway.CWait (Gateway.tx_hash tx)]
                   | Gateway.Failed _ => []
                   end
            /\ (forall e reason,
                  Gateway.registerUser s username h role = Gateway.Failed e ->
                  Gateway.f_reason e = Some reason -> str_nonempty reason = true ->
                  fst r = status_json 500 (error_body reason))))
  /\ (code (fst r) = 500 ->
      exists m, body (fst r) = error_body m /\ str_nonempty m = true).
Proof.
  intros username password role r. subst r.
  pose proof (chain_signup_cases s fields) as Hcases. cbv zeta in Hcases.
  fold username password role in Hcases. rewrite Hcases. clear Hcases.
  destruct (truthy username) eqn:Hu; cbn [negb orb].
  2:{ split; [reflexivity|]. split; [discriminate|]. cbn. discriminate. }
  destruct (truthy password) eqn:Hp; cbn [negb orb].
  2:{ split; [reflexivity|]. split; [discriminate|]. cbn. discriminate. }
  destruct (truthy role) eqn:Hr; cbn [negb orb].
  2:{ split; [reflexivity|]. split; [discriminate|]. cbn. discriminate. }
  split; [intros [H|[H|H]]; discriminate|].
  destruct (Gateway.ethers_id s password) as [h|e0] eqn:Hid.
  - destruct (Gateway.registerUser s username h role) as [tx|e1] eqn:Hreg.
    + destruct (Gateway.tx_wait tx) as [u|e2] eqn:Hwait.
      * cbn. split; [|discriminate]. intros _ _ _. split; [discriminate|].
        intros h' [= <-]. rewrite Hreg. split; [reflexivity|]. discriminate.
      * cbn. split.
        -- intros _ _ _. split; [discriminate|].
           intros h' [= <-]. rewrite Hreg. split; [reflexivity|]. discriminate.
        -- intros _. eexists. split; [reflexivity|]. now apply reason_or_nonempty.
    + cbn. split.
      * intros _ _ _. split; [discriminate|].
        intros h' [= <-]. rewrite Hreg. split; [reflexivity|].
        intros e reason [= <-] Hreason Hne. unfold Gateway.reason_or.
        rewrite Hreason. cbn [Gateway.nonempty_opt]. now rewrite Hne.
      * intros _. eexists. split; [reflexivity|]. now apply reason_or_nonempty.
  - cbn. split.
    + intros _ _ _. split; [|discriminate]. intros e [= <-]. reflexivity.
    + intros _. eexists. split; [reflexivity|]. now apply reason_or_nonempty.
Qed.

Lemma chain_signup_contract_witness :
  Gateway.post_signup services_up
    (VObj [("username", VStr "acme"); ("password", VStr "s3cret")])
  = (status_json 400 (VObj [("error", VStr "All fields are required")]), [])
  /\ snd (Gateway.post_signup services_up
            (VObj [("username", VStr "acme"); ("password", VStr "s3cret");
                   ("role", VNum (num 1))]))
     = [Gateway.CRegisterUser (VStr "acme") "keccak:s3cret" (VNum (num 1));
        Gateway.CWait "0xfeed"]
  /\ fst (Gateway.post_signup services_down
            (VObj [("username", VStr "acme"); ("password", VStr "s3cret");
                   ("role", VNum (num 1))]))
     = status_json 500 (error_body "Username taken").
Proof.
  split; [|split].
  - apply (proj1 (chain_signup_contract services_up
                    [("username", VStr "acme"); ("password", VStr "s3cret")])).
    right. right. reflexivity.
  - destruct (proj1 (proj2 (chain_signup_contract services_up
                    [("username", VStr "acme"); ("password", VStr "s3cret");
                     ("role", VNum (num 1))])) eq_refl eq_refl eq_refl) as [_ H].
    exact (proj1 (H "keccak:s3cret" eq_refl)).
  - destruct (proj1 (proj2 (chain_signup_contract services_down
                    [("username", VStr "acme"); ("password", VStr "s3cret");
                     ("role", VNum (num 1))])) eq_refl eq_refl eq_refl) as [_ H].
    apply (proj2 (H "keccak:s3cret" eq_refl)
             (Gateway.mkFailure (Some "Username taken") None
                (Some "execution reverted: Username taken")) "Username taken");
      reflexivity.
Defined.

Lemma chain_login_cases (s : Gateway.Services) (fields : list (string * jsval)) :
  let username := Proxy.assoc "username" fields in
  let password := Proxy.assoc "password" fields in
  let failed e := status_json 500 (error_body (Gateway.reason_or e "Login failed")) in
  Gateway.post_login s (VObj fields) =
  if negb (truthy username) || negb (truthy password) then
    (status_json 400 (VObj [("error", VStr "All fields are required")]), [])
  else
    match Gateway.ethers_id s password with
    | Gateway.Failed e => (failed e, [])
    | Gateway.Done h =>
        match Gateway.login s username h with
        | Gateway.Failed e => (failed e, [Gateway.CLogin username h])
        | Gateway.Done user =>
            let invalid :=
              status_json 401 (VObj [("error", VStr "Invalid username or password")]) in
            (match user with
             | VUndefined =>
                 failed (Gateway.plain_error
                           "Cannot read properties of undefined (reading 'exists')")
             | VNull =>
                 failed (Gateway.plain_error
                           "Cannot read properties of null (reading 'exists')")
             | VObj ufields =>
                 if truthy (Proxy.assoc "exists" ufields) then
                   json (VObj [("success", VBool true);
                               ("message", VStr "Login successful");
                               ("user", VObj [("username", username);
                                              ("role", Proxy.assoc "role" ufields);
                                              ("wallet", Proxy.assoc "wallet" ufields)])])
                 else invalid
             | _ => invalid
             end,
             [Gateway.CLogin username h])
        end
    end.
Proof.
  intros username password failed.
  unfold Gateway.post_login.
  cbn [Gateway.destructure Gateway.read Gateway.gbind Gateway.done Gateway.guard
       Gateway.invoke Gateway.lift_outcome app].
  fold username password.
  destruct (negb (truthy username) || negb (truthy password)); [reflexivity|].
  destruct (Gateway.ethers_id s password) as [h|e]; [|reflexivity].
  destruct (Gateway.login s username h) as [user|e]; [|reflexivity].
  destruct user as [| |b|n|str|items|ufields]; cbn; try reflexivity.
  destruct (truthy (Proxy.assoc "exists" ufields)); reflexivity.
Qed.

(** X18. On-chain [Login]: a body lacking a truthy username or password is
    answered 400 with no outbound call; otherwise the only outbound call is
    one read-only [login(username, hash)]; a user the contract reports with
    a falsy [exists] is answered 401; an existing user is answered 200 with
    the request's username and the contract's role and wallet. *)
Theorem chain_login_contract (s : Gateway.Services) (fields : list (string * jsval)) :
  let username := Proxy.assoc "username" fields in
  let password := Proxy.assoc "password" fields in
  let r := Gateway.post_login s (VObj fields) in
  (truthy username = false \/ truthy password = false ->
   r = (status_json 400 (VObj [("error", VStr "All fields are required")]), []))
  /\ (forall c, In c (snd r) -> exists h, c = Gateway.CLogin username h)
  /\ (length (snd r) <= 1)%nat
  /\ (truthy username = true -> truthy password = true ->
      forall h ufields,
        Gateway.ethers_id s password = Gateway.Done h ->
        Gateway.login s username h = Gateway.Done (VObj ufields) ->
        (truthy (Proxy.assoc "exists" ufields) = false ->
         r = (status_json 401 (VObj [("error", VStr "Invalid username or password")]),
              [Gateway.CLogin username h]))
        /\ (truthy (Proxy.assoc "exists" ufields) = true ->
            r = (json (VObj [("success", VBool true);
                             ("message", VStr "Login successful");
                             ("user", VObj [("username", username);
                                            ("role", Proxy.assoc "role" ufields);
                                            ("wallet", Proxy.assoc "wallet" ufields)])]),
                 [Gateway.CLogin username h]))).
Proof.
  intros username password r. subst r.
  pose proof (chain_login_cases s fields) as Hcases. cbv zeta in Hcases.
  fold username password in Hcases. rewrite Hcases. clear Hcases.
  destruct (truthy username) eqn:Hu; cbn [negb orb].
  2:{ split; [reflexivity|]. split; [intros c []|]. split; [cbn; lia|discriminate]. }
  destruct (truthy password) eqn:Hp; cbn [negb orb].
  2:{ split; [reflexivity|]. split; [intros c []|]. split; [cbn; lia|discriminate]. }
  split; [intros [H|H]; discriminate|].
  destruct (Gateway.ethers_id s password) as [h|e0] eqn:Hid.
  2:{ split; [intros c []|]. split; [cbn; lia|]. intros _ _ h ufields [=]. }
  destruct (Gateway.login s username h) as [user|e1] eqn:Hlogin.
  2:{ cbn [snd]. split; [intros c [<-|[]]; now exists h|]. split; [cbn; lia|].
      intros _ _ h' ufields Hh Hl.
      assert (h' = h) by congruence. subst h'. congruence. }
  cbn [snd]. split; [intros c [<-|[]]; now exists h|]. split; [cbn; lia|].
  intros _ _ h' ufields Hh Hl.
  assert (h' = h) by congruence. subst h'.
  assert (user = VObj ufields) by congruence. subst user.
  split; intros Hex; rewrite Hex; reflexivity.
Qed.

Lemma chain_login_contract_witness :
  Gateway.post_login services_down
    (VObj [("username", VStr "acme"); ("password", VStr "wrong")])
  = (status_json 401 (VObj [("error", VStr "Invalid username or password")]),
     [Gateway.CLogin (VStr "acme") "keccak:wrong"])
  /\ Gateway.post_login services_up (VObj [("username", VStr "acme")])
     = (status_json 400 (VObj [("error", VStr "All fields are required")]), [])
  /\ code (fst (Gateway.post_login services_up
                  (VObj [("username", VStr "acme"); ("password", VStr "s3cret")]))) = 200.
Proof.
  split; [|split].
  - destruct (chain_login_contract services_down
                [("username", VStr "acme"); ("password", VStr "wrong")])
      as (_ & _ & _ & H).
    apply (proj1 (H eq_refl eq_refl "keccak:wrong"
                    [("exists", VBool false); ("role", VStr EmptyString);
                     ("wallet", VStr "0x0")] eq_refl eq_refl)).
    reflexivity.
  - apply (proj1 (chain_login_contract services_up [("username", VStr "acme")])).
    right. reflexivity.
  - destruct (chain_login_contract services_up
                [("username", VStr "acme"); ("password", VStr "s3cret")])
      as (_ & _ & _ & H).
    rewrite (proj2 (H eq_refl eq_refl "keccak:s3cret"
                      [("exists", VBool true); ("role", VStr "Manufacturer");
                       ("wallet", VStr "0xABC")] eq_refl eq_refl) eq_refl).
    reflexivity.
Defined.

(** X19. [Verify] with QR code: the QR image encodes the batch id itself
    and is rendered only after the contract has answered; when the contract
    read fails nothing is rendered, and when the rendering fails the route
    answers 500 although the read succeeded; on success the body carries
    the contract's four fields and the image.  The route issues no write. *)
Theorem verify_with_qr (s : Gateway.Services) (batchId : string) :
  let r := Gateway.get_verify s batchId in
  (forall e, Gateway.verifyBatch s batchId = Gateway.Failed e ->
             r = (status_json 500 (Gateway.message_body e),
                  [Gateway.CVerifyBatch batchId]))
  /\ (forall data e,
        Gateway.verifyBatch s batchId = Gateway.Done data ->
        Gateway.toDataURL s batchId = Gateway.Failed e ->
        r = (status_json 500 (Gateway.message_body e),
             [Gateway.CVerifyBatch batchId; Gateway.CQr batchId]))
  /\ (forall fields qr,
        Gateway.verifyBatch s batchId = Gateway.Done (VObj fields) ->
        Gateway.toDataURL s batchId = Gateway.Done qr ->
        r = (json (VObj [("valid", Proxy.assoc "valid" fields);
                         ("owner", Proxy.assoc "owner" fields);
                         ("revoked", Proxy.assoc "revoked" fields);
                         ("history", Proxy.assoc "history" fields);
                         ("qrCode", VStr qr)]),
             [Gateway.CVerifyBatch batchId; Gateway.CQr batchId]))
  /\ (forall c, In c (snd r) -> Gateway.is_write c = false).
Proof.
  intros r. subst r. unfold Gateway.get_verify.
  unfold Gateway.guard, Gateway.gbind, Gateway.invoke.
  destruct (Gateway.verifyBatch s batchId) as [data|e0].
  - destruct (Gateway.toDataURL s batchId) as [qr|e1].
    + split; [intros e [=]|]. split; [intros data' e [=] [=]|]. split.
      * intros fields qr' [= ->] [= <-]. reflexivity.
      * destruct data as [| |b|n|str|items|fields]; cbn;
          intros c [<-|[<-|[]]]; reflexivity.
    + split; [intros e [=]|]. split; [|split].
      * intros data' e _ [= <-]. reflexivity.
      * intros fields qr _ [=].
      * cbn. intros c [<-|[<-|[]]]; reflexivity.
  - split; [intros e [= <-]; reflexivity|]. split; [intros data e [=]|].
    split; [intros fields qr [=]|]. cbn. intros c [<-|[]]. reflexivity.
Qed.

Lemma verify_with_qr_witness :
  Gateway.get_verify services_down "B-17"
  = (status_json 500 (error_body "Input too long"),
     [Gateway.CVerifyBatch "B-17"; Gateway.CQr "B-17"])
  /\ fst (Gateway.get_verify services_up "B-17")
     = json (VObj [("valid", VBool true); ("owner", VStr "0xABC");
                   ("revoked", VBool false); ("history", VArr []);
                   ("qrCode", VStr "data:image/png;base64,AAAA")]).
Proof.
  split.
  - apply (proj1 (proj2 (verify_with_qr services_down "B-17"))
             (VObj [("valid", VBool true); ("owner", VStr "0xABC");
                    ("revoked", VBool false); ("history", VArr [])])
             (Gateway.plain_error "Input too long")); reflexivity.
  - rewrite (proj1 (proj2 (proj2 (verify_with_qr services_up "B-17")))
               [("valid", VBool true); ("owner", VStr "0xABC");
                ("revoked", VBool false); ("history", VArr [])]
               "data:image/png;base64,AAAA" eq_refl eq_refl).
    reflexivity.
Defined.

(** X20. The bare proxy validates nothing: whatever the body fields, absent
    ones included, its [revoke-batch], [transfer-ownership] and
    [register-product] routes each begin with the contract call on exactly
    those values, and they answer 200 or 500, never 400. *)
Theorem bare_proxy_validates_nothing (s : Gateway.Services) (a b c : jsval) :
  (exists rest,
      snd (Gateway.bare_revoke_batch s a) = Gateway.CRevokeBatch a :: rest)
  /\ (exists rest,
        snd (Gateway.bare_transfer_ownership s a b)
        = Gateway.CTransferOwnership a b :: rest)
  /\ (exists rest,
        snd (Gateway.bare_register_product s a b c)
        = Gateway.CRegisterProduct a b c :: rest)
  /\ (code (fst (Gateway.bare_revoke_batch s a)) = 200
      \/ code (fst (Gateway.bare_revoke_batch s a)) = 500)
  /\ (code (fst (Gateway.bare_transfer_ownership s a b)) = 200
      \/ code (fst (Gateway.bare_transfer_ownership s a b)) = 500)
  /\ (code (fst (Gateway.bare_register_product s a b c)) = 200
      \/ code (fst (Gateway.bare_register_product s a b c)) = 500).
Proof.
  unfold Gateway.bare_revoke_batch, Gateway.bare_transfer_ownership,
    Gateway.bare_register_product, Gateway.guard, Gateway.gbind, Gateway.invoke,
    Gateway.done.
  destruct (Gateway.revokeBatch s a) as [tx1|e1];
    [destruct (Gateway.tx_wait tx1)|];
    (destruct (Gateway.transferOwnership s a b) as [tx2|e2];
     [destruct (Gateway.tx_wait tx2)|]);
    (destruct (Gateway.registerProduct s a b c) as [tx3|e3];
     [destruct (Gateway.tx_wait tx3)|]);
    cbn; repeat split; eauto.
Qed.

Lemma pinata_upload_cases (s : Gateway.Services) (fields : list (string * jsval)) :
  let metadata := nullish_or (Proxy.assoc "metadata" fields) (VObj fields) in
  let pinName :=
    nullish_or (Gateway.field metadata "name")
               (VStr ("batch-" ++ string_of_Z (Gateway.Date_now s))) in
  let thrown (e : Gateway.Failure) :=
    status_json 500
      (error_body (match Gateway.nonempty_opt (Gateway.f_message e) with
                   | Some m => m
                   | None => "Pinata upload failed"
                   end)) in
  Gateway.post_pinata_upload s (VObj fields) =
  match Gateway.nonempty_opt (Gateway.PINATA_JWT s) with
  | None => (status_json 500 (error_body "Pinata JWT not configured on server"), [])
  | Some token =>
      (match Gateway.fetch_pin s token pinName metadata with
       | Gateway.Failed e => thrown e
       | Gateway.Done response =>
           if negb (Gateway.resp_ok response) then
             match Gateway.resp_text response with
             | Gateway.Failed e => thrown e
             | Gateway.Done text =>
                 status_json 500 (VObj [("error", VStr "Pinata upload failed");
                                        ("details", VStr text)])
             end
           else
             match Gateway.resp_json response with
             | Gateway.Failed e => thrown e
             | Gateway.Done raw =>
                 if negb (Gateway.is_object raw) then
                   status_json 500 (VObj [("error", VStr "Invalid Pinata response");
                                          ("raw", raw)])
                 else
                   let ipfsHash :=
                     Gateway.or_else
                       (Gateway.or_else (Gateway.field raw "IpfsHash")
                                        (Gateway.field raw "ipfsHash")) VNull in
                   if negb (truthy ipfsHash) then
                     status_json 500 (VObj [("error", VStr "Pinata response missing hash");
                                            ("raw", raw)])
                   else json (VObj [("success", VBool true); ("ipfsHash", ipfsHash)])
             end
       end,
       [Gateway.CFetchPin token pinName metadata])
  end.
Proof.
  intros metadata pinName thrown.
  unfold Gateway.post_pinata_upload.
  cbn [Gateway.read Gateway.gbind Gateway.done app]. fold metadata.
  destruct (Gateway.nonempty_opt (Gateway.PINATA_JWT s)) as [token|]; [|reflexivity].
  assert (Gateway.read metadata "name" = Gateway.done (Gateway.field metadata "name"))
    as Hname.
  { subst metadata. destruct (Proxy.assoc "metadata" fields); reflexivity. }
  rewrite Hname. cbn [Gateway.gbind Gateway.done Gateway.invoke app]. fold pinName.
  destruct (Gateway.fetch_pin s token pinName metadata) as [response|e]; [|reflexivity].
  unfold Gateway.lift_outcome.
  destruct (Gateway.resp_ok response); cbn [negb].
  - destruct (Gateway.resp_json response) as [raw|e]; [|reflexivity].
    destruct raw as [| |b|n|str|items|rf]; cbn; try reflexivity.
    destruct (truthy (Gateway.or_else
                        (Gateway.or_else (Proxy.assoc "IpfsHash" rf)
                                         (Proxy.assoc "ipfsHash" rf)) VNull));
      reflexivity.
  - destruct (Gateway.resp_text response); reflexivity.
Qed.

(** X21. [POST /pinata/upload] with an object body.  Without a configured
    JWT it answers 500 and contacts nobody.  Otherwise it issues exactly one
    upload, of [body.metadata ?? body] under the metadata's name (or
    "batch-<now>" when it has none).  It answers 200 or 500, and 200 always
    carries a truthy content identifier: [IpfsHash] when truthy, else
    [ipfsHash]; a response object with neither is answered 500 "Pinata
    response missing hash", and a non-ok response 500 with its text as
    details. *)
Theorem pinata_upload_contract (s : Gateway.Services) (fields : list (string * jsval)) :
  let metadata := nullish_or (Proxy.assoc "metadata" fields) (VObj fields) in
  let pinName :=
    nullish_or (Gateway.field metadata "name")
               (VStr ("batch-" ++ string_of_Z (Gateway.Date_now s))) in
  let r := Gateway.post_pinata_upload s (VObj fields) in
  (Gateway.nonempty_opt (Gateway.PINATA_JWT s) = None ->
   r = (status_json 500 (error_body "Pinata JWT not configured on server"), []))
  /\ (forall token, Gateway.nonempty_opt (Gateway.PINATA_JWT s) = Some token ->
                    snd r = [Gateway.CFetchPin token pinName metadata])
  /\ (code (fst r) = 200 \/ code (fst r) = 500)
  /\ (code (fst r) = 200 ->
      exists h, body (fst r) = VObj [("success", VBool true); ("ipfsHash", h)]
                /\ truthy h = true)
  /\ (forall token response rf,
        Gateway.nonempty_opt (Gateway.PINATA_JWT s) = Some token ->
        Gateway.fetch_pin s token pinName metadata = Gateway.Done response ->
        Gateway.resp_ok response = true ->
        Gateway.resp_json response = Gateway.Done (VObj rf) ->
        let upper := Proxy.assoc "IpfsHash" rf in
        let lower := Proxy.assoc "ipfsHash" rf in
        fst r
        = if truthy upper then json (VObj [("success", VBool true); ("ipfsHash", upper)])
          else if truthy lower then
                 json (VObj [("success", VBool true); ("ipfsHash", lower)])
               else status_json 500 (VObj [("error", VStr "Pinata response missing hash");
                                           ("raw", VObj rf)]))
  /\ (forall token response text,
        Gateway.nonempty_opt (Gateway.PINATA_JWT s) = Some token ->
        Gateway.fetch_pin s token pinName metadata = Gateway.Done response ->
        Gateway.resp_ok response = false ->
        Gateway.resp_text response = Gateway.Done text ->
        fst r = status_json 500 (VObj [("error", VStr "Pinata upload failed");
                                       ("details", VStr text)])).
Proof.
  intros metadata pinName r. subst r.
  pose proof (pinata_upload_cases s fields) as Hcases. cbv zeta in Hcases.
  fold metadata pinName in Hcases. rewrite Hcases. clear Hcases.
  destruct (Gateway.nonempty_opt (Gateway.PINATA_JWT s)) as [token|].
  2:{ split; [reflexivity|]. split; [discriminate|]. split; [now right|].
      split; [discriminate|]. split; discriminate. }
  split; [discriminate|]. split; [intros token' [= <-]; reflexivity|]. cbn [fst snd].
  destruct (Gateway.fetch_pin s token pinName metadata) as [response|e] eqn:Hfetch.
  2:{ split; [now right|]. split; [discriminate|]. split; intros; congruence. }
  destruct (Gateway.resp_ok response) eqn:Hok; cbn [negb].
  - destruct (Gateway.resp_json response) as [raw|e] eqn:Hjson.
    2:{ split; [now right|]. split; [discriminate|]. split; intros; congruence. }
    destruct (Gateway.is_object raw) eqn:Hobj; cbn [negb].
    2:{ split; [now right|]. split; [discriminate|]. split; [|intros; congruence].
        intros token' response' rf [= <-] Hf Hk Hj.
        assert (response' = response) by congruence. subst response'.
        assert (raw = VObj rf) by congruence. subst raw. discriminate. }
    cbv zeta.
    destruct (truthy (Gateway.or_else
                        (Gateway.or_else (Gateway.field raw "IpfsHash")
                                         (Gateway.field raw "ipfsHash")) VNull))
      eqn:Hhash; cbn [negb].
    + split; [now left|]. split; [intros _; eexists; split; [reflexivity|exact Hhash]|].
      split; [|intros; congruence].
      intros token' response' rf [= <-] Hf Hk Hj.
      assert (response' = response) by congruence. subst response'.
      assert (raw = VObj rf) by congruence. subst raw.
      cbn [Gateway.field] in *. unfold Gateway.or_else in *.
      destruct (truthy (Proxy.assoc "IpfsHash" rf)) eqn:Hu;
        [cbn; rewrite ?Hu; reflexivity|].
      destruct (truthy (Proxy.assoc "ipfsHash" rf)) eqn:Hl;
        [cbn; rewrite ?Hl; reflexivity|].
      cbn in Hhash. rewrite ?Hu, ?Hl in Hhash. cbn in Hhash.
      rewrite ?Hu, ?Hl in Hhash. discriminate.
    + split; [now right|]. split; [discriminate|]. split; [|intros; congruence].
      intros token' response' rf [= <-] Hf Hk Hj.
      assert (response' = response) by congruence. subst response'.
      assert (raw = VObj rf) by congruence. subst raw.
      cbn [Gateway.field] in *. unfold Gateway.or_else in *.
      destruct (truthy (Proxy.assoc "IpfsHash" rf)) eqn:Hu;
        [cbn in Hhash; rewrite ?Hu in Hhash; cbn in Hhash; rewrite ?Hu in Hhash;
         discriminate|].
      destruct (truthy (Proxy.assoc "ipfsHash" rf)) eqn:Hl;
        [cbn in Hhash; rewrite ?Hu, ?Hl in Hhash; cbn in Hhash;
         rewrite ?Hu, ?Hl in Hhash; discriminate|].
      reflexivity.
  - destruct (Gateway.resp_text response) as [text|e] eqn:Htext.
    + split; [now right|]. split; [discriminate|]. split; [intros; congruence|].
      intros token' response' text' [= <-] Hf Hk Ht.
      assert (response' = response) by congruence. subst response'.
      assert (text' = text) by congruence. now subst text'.
    + split; [now right|]. split; [discriminate|]. split; intros; congruence.
Qed.

Lemma pinata_upload_contract_witness :
  Gateway.post_pinata_upload services_down (VObj [("name", VStr "batch 17")])
  = (status_json 500 (error_body "Pinata JWT not configured on server"), [])
  /\ Gateway.post_pinata_upload services_up
       (VObj [("metadata", VObj [("name", VStr "batch 17"); ("dose", VStr "500mg")])])
     = (json (VObj [("success", VBool true); ("ipfsHash", VStr "QmHash")]),
        [Gateway.CFetchPin "jwt-token" (VStr "batch 17")
           (VObj [("name", VStr "batch 17"); ("dose", VStr "500mg")])]).
Proof.
  split.
  - apply (proj1 (pinata_upload_contract services_down [("name", VStr "batch 17")])).
    reflexivity.
  - pose proof (pinata_upload_contract services_up
                  [("metadata", VObj [("name", VStr "batch 17"); ("dose", VStr "500mg")])])
      as H.
    cbv zeta in H. destruct H as (_ & Hcall & _ & _ & Hok & _).
    rewrite (surjective_pairing (Gateway.post_pinata_upload _ _)).
    rewrite (Hcall "jwt-token" eq_refl).
    rewrite (Hok "jwt-token" pinata_ok
               [("IpfsHash", VStr "QmHash"); ("PinSize", VNum (num 42))]
               eq_refl eq_refl eq_refl eq_refl).
    reflexivity.
Defined.

(** X22. The batch listings.  [GET /manufacturer/batches] without a
    non-empty walletAddress answers 400 and calls nothing; with one it makes
    the single read [getBatchesByManufacturer(wallet)] and lists one entry
    per batch, in the contract's order, each id printed as the exact decimal
    string of the chain's integer; a failed read is answered 500 with a
    fixed message that hides the upstream one, whereas [GET /batches]
    surfaces it. *)
Theorem batch_listings (s : Gateway.Services) :
  (forall walletAddress,
      Gateway.nonempty_opt walletAddress = None ->
      Gateway.get_manufacturer_batches s walletAddress
      = (status_json 400 (VObj [("success", VBool false);
                                ("message", VStr "Missing wallet address")]), []))
  /\ (forall wallet, str_nonempty wallet = true ->
        snd (Gateway.get_manufacturer_batches s (Some wallet))
        = [Gateway.CGetBatchesByManufacturer wallet]
        /\ (forall e, Gateway.getBatchesByManufacturer s wallet = Gateway.Failed e ->
              fst (Gateway.get_manufacturer_batches s (Some wallet))
              = status_json 500
                  (VObj [("success", VBool false);
                         ("message", VStr "Error fetching manufacturer batches")]))
        /\ (forall batches,
              Gateway.getBatchesByManufacturer s wallet = Gateway.Done batches ->
              exists data,
                fst (Gateway.get_manufacturer_batches s (Some wallet))
                = json (VObj [("success", VBool true); ("data", VArr data)])
                /\ length data = length batches
                /\ forall i b z,
                     nth_error batches i = Some b -> Gateway.cb_id b = Some z ->
                     exists entry, nth_error data i = Some entry
                                   /\ Gateway.field entry "id" = VStr (string_of_Z z)))
  /\ (forall e, Gateway.getAllBatches s = Gateway.Failed e ->
        Gateway.get_batches s
        = (status_json 500
             (VObj [("success", VBool false);
                    ("message", VStr "Failed to fetch batches from blockchain");
                    ("error", opt_str (Gateway.f_message e))]),
           [Gateway.CGetAllBatches])).
Proof.
  split; [|split].
  - intros walletAddress Hw. unfold Gateway.get_manufacturer_batches. now rewrite Hw.
  - intros wallet Hne. unfold Gateway.get_manufacturer_batches.
    cbn [Gateway.nonempty_opt]. rewrite Hne.
    unfold Gateway.guard, Gateway.gbind, Gateway.invoke, Gateway.done.
    destruct (Gateway.getBatchesByManufacturer s wallet) as [batches|e]; cbn [fst snd].
    + split; [reflexivity|]. split; [intros e [=]|].
      intros batches' [= <-]. eexists. split; [reflexivity|].
      split; [apply length_map|].
      intros i b z Hb Hz. exists (Gateway.format_manufacturer_batch s b). split.
      * now apply map_nth_error.
      * cbn. now rewrite Hz.
    + split; [reflexivity|]. split; [reflexivity|]. intros batches [=].
  - intros e He. unfold Gateway.get_batches, Gateway.guard, Gateway.gbind, Gateway.invoke.
    now rewrite He.
Qed.

Lemma batch_listings_witness :
  Gateway.get_manufacturer_batches services_up (Some EmptyString)
  = (status_json 400 (VObj [("success", VBool false);
                            ("message", VStr "Missing wallet address")]), [])
  /\ snd (Gateway.get_manufacturer_batches services_up (Some "0xABC"))
     = [Gateway.CGetBatchesByManufacturer "0xABC"]
  /\ fst (Gateway.get_manufacturer_batches services_down (Some "0xABC"))
     = status_json 500 (VObj [("success", VBool false);
                              ("message", VStr "Error fetching manufacturer batches")]).
Proof.
  destruct (batch_listings services_up) as (Hmissing & Hup & _).
  destruct (batch_listings services_down) as (_ & Hdown & _).
  split; [apply Hmissing; reflexivity|]. split.
  - exact (proj1 (Hup "0xABC" eq_refl)).
  - exact (proj1 (proj2 (Hdown "0xABC" eq_refl)) (Gateway.plain_error "network down") eq_refl).
Defined.

(** * Outcomes of approval and rejection; the seeding loop *)

(** X23. [Approve] answers 200, 404 or 500 and [Reject] 200 or 404; each
    answers 404 exactly when the wallet has no pending row, and then changes
    nothing; [Approve] answers 200 exactly when the pending row's on-chain
    registration and its confirmation both succeed; unless it answers 200
    the [User] table is untouched; and one request issues at most one
    [registerUser] call. *)
Theorem approve_reject_outcomes (env : Env) (wallet : string) (w : World) :
  let a := Server.post_approve_request env wallet w in
  let r := Server.post_reject_request wallet w in
  (code (fst a) = 404 <-> pending_row wallet w = None)
  /\ (code (fst r) = 404 <-> pending_row wallet w = None)
  /\ (code (fst r) = 200 \/ code (fst r) = 404)
  /\ (code (fst a) = 200 \/ code (fst a) = 404 \/ code (fst a) = 500)
  /\ (code (fst a) = 200
      <-> exists user tx,
            pending_row wallet w = Some user
            /\ registerUser env (walletAddress user) (name user) (role user) = Ok tx
            /\ wait tx = Ok tt)
  /\ (code (fst a) <> 200 -> users (snd a) = users w)
  /\ (count_events is_registerUser (issued w (snd a)) <= 1)%nat
  /\ (pending_row wallet w = None -> snd a = w /\ snd r = w).
Proof.
  intros a r. subst a r. rewrite approve_cases, reject_cases.
  destruct (pending_row wallet w) as [user|] eqn:Hrow.
  2:{ cbn. rewrite issued_same. cbn.
      repeat split; auto; try discriminate; try lia.
      intros (user & tx & [=] & _). }
  cbv zeta.
  destruct (registerUser env _ _ _) as [tx|e] eqn:Hcall.
  - destruct (wait tx) as [u|e] eqn:Hwait.
    + destruct u. cbn [fst snd code json status_json users with_users log].
      erewrite issued_log;
        [|cbn [calls with_users log]; rewrite <- app_assoc; reflexivity].
      cbn. repeat split; auto; try discriminate; try lia; try congruence.
      intros _. now exists user, tx.
    + cbn [fst snd code json status_json users with_users log].
      erewrite issued_log; [|cbn [calls log]; rewrite <- app_assoc; reflexivity].
      cbn. repeat split; auto; try discriminate; try lia.
      intros (user' & tx' & [= <-] & Hc & Hw). congruence.
  - cbn [fst snd code json status_json users with_users log].
    erewrite issued_log; [|reflexivity].
    cbn. repeat split; auto; try discriminate; try lia.
    intros (user' & tx' & [= <-] & Hc & _). congruence.
Qed.

Lemma approve_reject_outcomes_witness :
  code (fst (Server.post_approve_request env_up "0xDEF" pending_world)) = 404
  /\ code (fst (Server.post_approve_request env_up "0xABC" pending_world)) = 200
  /\ users (snd (Server.post_approve_request env_down "0xABC" pending_world))
     = users pending_world.
Proof.
  pose proof (approve_reject_outcomes env_up "0xDEF" pending_world) as H1.
  pose proof (approve_reject_outcomes env_up "0xABC" pending_world) as H2.
  pose proof (approve_reject_outcomes env_down "0xABC" pending_world) as H3.
  cbv zeta in *.
  destruct H1 as (H1 & _). destruct H2 as (_ & _ & _ & _ & H2 & _).
  destruct H3 as (_ & _ & _ & _ & _ & H3 & _).
  split; [apply H1; reflexivity|]. split.
  - apply H2. exists (mkUser 1 "Acme Pharma" "a@x.com" 1 "0xABC" "PPB-1001" "pending").
    exists tx_confirmed. repeat split.
  - apply H3. discriminate.
Defined.

Lemma string_of_Z_inj (a b : Z) : string_of_Z a = string_of_Z b -> a = b.
Proof.
  unfold string_of_Z. intros H.
  assert (forall z, NilZero.int_of_string (NilZero.string_of_int (Z.to_int z))
                    = Some (Z.to_int z)) as Hround.
  { intros z. apply NilZero.isi; destruct z; cbn; try discriminate;
      intros [= Hp]; exact (DecimalPos.Unsigned.to_uint_nonnil _ Hp). }
  apply DecimalZ.to_int_inj.
  pose proof (Hround a) as Ha. rewrite H, Hround in Ha. congruence.
Qed.

Lemma append_inj (p a b : string) : (p ++ a = p ++ b)%string -> a = b.
Proof.
  induction p as [|c p IH]; cbn; intros H; [exact H|].
  injection H as H. now apply IH.
Qed.

Lemma seed_loop_from (fuel : nat) :
  forall (i : Z) (acc : list PPBAttrs),
    1 <= i ->
    (Z.to_nat (21 - i) <= fuel)%nat ->
    Server.seed_loop fuel i acc
    = (acc ++ map (fun k => Server.seed_entry (i + Z.of_nat k))
                  (seq 0 (Z.to_nat (21 - i))))%list.
Proof.
  induction fuel as [|fuel IH]; intros i acc Hi Hfuel.
  - assert (Z.to_nat (21 - i) = 0%nat) as -> by lia. cbn. now rewrite app_nil_r.
  - cbn [Server.seed_loop]. destruct (Z.leb_spec i 20) as [Hle|Hgt].
    + rewrite IH by lia.
      replace (Z.to_nat (21 - i)) with (S (Z.to_nat (21 - (i + 1)))) by lia.
      cbn [seq map]. rewrite <- app_assoc. cbn [app]. f_equal.
      rewrite Z.add_0_r. f_equal.
      rewrite <- seq_shift, map_map. apply map_ext. intros k. f_equal. lia.
    + assert (Z.to_nat (21 - i) = 0%nat) as -> by lia. cbn. now rewrite app_nil_r.
Qed.

(** X24. The seeding loop, given at least 20 steps, builds exactly the
    entries for i = 1 to 20, in order, whatever the bound; every entry for
    i >= 1 has a role between 1 and 3; and entries for different i carry
    different license numbers, so that seeding cannot violate the unique
    index. *)
Theorem seed_loop_spec :
  (forall fuel, (20 <= fuel)%nat ->
                Server.seed_loop fuel 1 []
                = map Server.seed_entry (map Z.of_nat (seq 1 20)))
  /\ (forall i, 1 <= i -> 1 <= p_role (Server.seed_entry i) <= 3)
  /\ (forall i j, p_licenseNumber (Server.seed_entry i)
                  = p_licenseNumber (Server.seed_entry j) -> i = j).
Proof.
  split; [|split].
  - intros fuel Hfuel. rewrite seed_loop_from by (cbn; lia).
    cbn [app]. replace (Z.to_nat (21 - 1)) with 20%nat by reflexivity.
    rewrite <- seq_shift, !map_map. apply map_ext. intros k. f_equal. lia.
  - intros i Hi. cbn [Server.seed_entry p_role].
    pose proof (Z.rem_bound_pos (i - 1) 3). lia.
  - intros i j H. cbn [Server.seed_entry p_licenseNumber] in H.
    apply append_inj, string_of_Z_inj in H. lia.
Qed.

Lemma seed_loop_spec_witness :
  Server.seed_loop 20 1 [] = Server.seed_sample
  /\ 1 <= p_role (Server.seed_entry 20) <= 3.
Proof.
  destruct seed_loop_spec as (Hloop & Hrole & _).
  split.
  - rewrite (Hloop 20%nat (le_n 20)). symmetry. apply (Hloop 21%nat). repeat constructor.
  - apply Hrole. lia.
Defined.

(** * Overlapping requests *)

Lemma forall_split {A} (P : A -> Prop) (t1 t2 : list A) (x : A) :
  Forall P (t1 ++ x :: t2) -> P x /\ Forall P (t1 ++ t2).
Proof.
  intros H. apply Forall_app in H as [H1 H2].
  apply Forall_cons_iff in H2 as [Hx H2].
  split; [exact Hx|]. apply Forall_app. now split.
Qed.

Lemma forall_insert {A} (P : A -> Prop) (t1 t2 : list A) (y : A) :
  Forall P (t1 ++ t2) -> P y -> Forall P (t1 ++ y :: t2).
Proof.
  intros H Hy. apply Forall_app in H as [H1 H2].
  apply Forall_app. split; [exact H1|]. now constructor.
Qed.

Lemma same_identity_refl (u : User) : same_identity u u.
Proof. repeat split. Qed.

Lemma same_identity_trans (u v x : User) :
  same_identity u v -> same_identity v x -> same_identity u x.
Proof. intros (H1 & H2 & H3) (H4 & H5 & H6). repeat split; congruence. Qed.

Lemma same_identity_call (u v : User) :
  same_identity u v -> registerUser_call u = registerUser_call v.
Proof. intros (H1 & H2 & H3). unfold registerUser_call. congruence. Qed.

Lemma call_logged_app (u : User) (l evs : list Event) :
  call_logged u l -> call_logged u (l ++ evs).
Proof.
  intros (before & after & ->). exists before, (after ++ evs)%list.
  now rewrite <- app_assoc.
Qed.

Lemma wait_logged_app (u : User) (h : string) (l evs : list Event) :
  wait_logged u h l -> wait_logged u h (l ++ evs).
Proof.
  intros (before & between & after & ->).
  exists before, between, (after ++ evs)%list.
  rewrite <- app_assoc. cbn [app]. rewrite <- app_assoc. reflexivity.
Qed.

Lemma confirmation_logged_app (u : User) (l evs : list Event) :
  confirmation_logged u l -> confirmation_logged u (l ++ evs).
Proof. intros (h & H). exists h. now apply wait_logged_app. Qed.

Lemma rows_logged_app (w w' : World) (evs : list Event) :
  users w' = users w -> calls w' = (calls w ++ evs)%list ->
  rows_logged w -> rows_logged w'.
Proof.
  intros Hu Hc Hrows u Hin. rewrite Hu in Hin. rewrite Hc.
  destruct (Hrows u Hin) as [Hp|[Ha Hl]]; [now left|right].
  split; [exact Ha|now apply confirmation_logged_app].
Qed.

Lemma grows_refl (w : World) : grows w w.
Proof.
  split; [lia|]. split; [exists []; now rewrite app_nil_r|].
  intros v Hv. left. exists v. split; [exact Hv|]. split; [reflexivity|].
  apply same_identity_refl.
Qed.

Lemma grows_same_users (w w' : World) (evs : list Event) :
  users w' = users w -> user_seq w' = user_seq w ->
  calls w' = (calls w ++ evs)%list -> grows w w'.
Proof.
  intros Hu Hs Hc. split; [lia|]. split; [now exists evs|].
  intros v Hv. rewrite Hu in Hv. left. exists v.
  split; [exact Hv|]. split; [reflexivity|apply same_identity_refl].
Qed.

Lemma grows_save (user : User) (s : string) (w : World) :
  grows w (snd (User_save_status user s w)).
Proof.
  cbn [User_save_status snd]. split; [cbn; lia|].
  split; [exists []; cbn; now rewrite app_nil_r|].
  cbn [with_users users]. intros v' Hv. apply in_map_iff in Hv as (v & <- & Hv).
  left. exists v. split; [exact Hv|].
  destruct (id v =? id user); split; try reflexivity; repeat split.
Qed.

Lemma grows_destroy (user : User) (w : World) :
  grows w (snd (User_destroy user w)).
Proof.
  cbn [User_destroy snd]. split; [cbn; lia|].
  split; [exists []; cbn; now rewrite app_nil_r|].
  cbn [with_users users]. intros v Hv. apply filter_In in Hv as [Hv _].
  left. exists v. split; [exact Hv|]. split; [reflexivity|apply same_identity_refl].
Qed.

Lemma grows_snoc (w : World) (u : User) :
  id u = user_seq w + 1 ->
  grows w (mkWorld (users w ++ [u]) (user_seq w + 1) (ppb w) (ppb_seq w) (calls w)).
Proof.
  intros Hid. split; [cbn; lia|]. split; [exists []; cbn; now rewrite app_nil_r|].
  cbn [users]. intros v Hv. apply in_app_or in Hv as [Hv|[<-|[]]].
  - left. exists v. split; [exact Hv|]. split; [reflexivity|apply same_identity_refl].
  - right. lia.
Qed.

(** What [User.create] leaves behind, for the attributes of a signup. *)
Lemma create_world (req : Server.SignupBody) (w : World) :
  snd (User_create (signup_attrs req) w) = w
  \/ exists n e r wallet l,
       req = Server.mkSignup (Some n) (Some e) (Some r) (Some wallet) (Some l)
       /\ has_wallet wallet w = false
       /\ snd (User_create (signup_attrs req) w)
          = mkWorld (users w ++ [mkUser (user_seq w + 1) n e r wallet l "pending"])
                    (user_seq w + 1) (ppb w) (ppb_seq w) (calls w).
Proof.
  destruct req as [n e r wa l]. unfold User_create, signup_attrs.
  cbn [Server.b_name Server.b_email Server.b_role Server.b_walletAddress
       Server.b_licenseNumber a_name a_email a_role a_walletAddress a_licenseNumber
       a_status].
  destruct n as [n|]; [|now left]. destruct e as [e|]; [|now left].
  destruct r as [r|]; [|now left]. destruct wa as [wa|]; [|now left].
  destruct l as [l|]; [|now left].
  destruct (existsb _ (users w)) eqn:Hex; [now left|].
  right. exists n, e, r, wa, l. repeat split. exact Hex.
Qed.

Lemma grows_handle (env : Env) (req : Request) (w : World) :
  grows w (snd (handle env req w)).
Proof.
  destruct req; cbn [handle].
  - destruct (signup_world b w) as [->|(_ & n & e & r & wa & l & _ & _ & _ & _ & ->)];
      [apply grows_refl|now apply grows_snoc].
  - rewrite login_pure. apply grows_refl.
  - apply grows_refl.
  - rewrite approve_cases. destruct (pending_row wallet w) as [user|];
      [|apply grows_refl]. cbv zeta.
    destruct (registerUser env _ _ _) as [tx|e].
    + destruct (wait tx) as [?|e]; cbn [snd].
      * split; [cbn; lia|]. split.
        -- eexists. cbn [calls with_users log]. rewrite <- app_assoc. reflexivity.
        -- cbn [with_users users log]. intros v' Hv.
           apply in_map_iff in Hv as (v & <- & Hv). left. exists v.
           split; [exact Hv|].
           destruct (id v =? id user); split; try reflexivity; repeat split.
      * eapply (grows_same_users w); try reflexivity.
        cbn [calls log]. rewrite <- app_assoc. reflexivity.
    + eapply (grows_same_users w); reflexivity.
  - rewrite reject_cases. destruct (pending_row wallet w) as [user|];
      [|apply grows_refl]. apply (grows_destroy user w).
  - rewrite user_status_pure. apply grows_refl.
  - rewrite get_user_pure. apply grows_refl.
  - apply grows_refl.
  - unfold Server.post_revoke_batch, try_catch, bind, call, ret.
    destruct (Server.invalid_batch_id _); [apply grows_refl|].
    destruct (revokeBatch env _) as [tx|e].
    + destruct (wait tx); cbn [snd]; eapply (grows_same_users w); try reflexivity;
        cbn [calls log]; rewrite <- app_assoc; reflexivity.
    + cbn [snd]. eapply (grows_same_users w); reflexivity.
Qed.

Lemma task_ok_grows (w w' : World) (t : InFlight) :
  grows w w' -> task_ok w t -> task_ok w' t.
Proof.
  intros (Hseq & (evs & Hcalls) & Hrows).
  assert (forall user,
             id user <= user_seq w ->
             (forall v, In v (users w) -> id v = id user -> same_identity v user) ->
             forall v', In v' (users w') -> id v' = id user -> same_identity v' user)
    as Hsame.
  { intros user Hle Hold v' Hv' Hid.
    destruct (Hrows v' Hv') as [(v & Hv & Hvid & Hvs)|Hfresh]; [|lia].
    destruct Hvs as (H1 & H2 & H3).
    destruct (Hold v Hv (eq_trans Hvid Hid)) as (H4 & H5 & H6).
    repeat split; congruence. }
  destruct t as [req|user|user tx|user]; cbn [task_ok]; [auto| | |auto].
  - intros (Hle & Hold & Hlog). split; [lia|]. split; [now apply Hsame|].
    rewrite Hcalls. now apply call_logged_app.
  - intros (Hle & Hold & Hlog). split; [lia|]. split; [now apply Hsame|].
    rewrite Hcalls. now apply wait_logged_app.
Qed.

Lemma handle_rows_logged (env : Env) (req : Request) (w : World) :
  store_ok w = true -> rows_logged w -> rows_logged (snd (handle env req w)).
Proof.
  intros Hok Hrows. destruct req; cbn [handle].
  - destruct (signup_world b w) as [->|(_ & n & e & r & wa & l & _ & _ & _ & _ & ->)];
      [exact Hrows|].
    intros v Hv. cbn [users calls] in *. apply in_app_or in Hv as [Hv|[<-|[]]].
    + now apply Hrows.
    + now left.
  - now rewrite login_pure.
  - exact Hrows.
  - rewrite approve_cases.
    destruct (pending_row wallet w) as [user|] eqn:Hrow; [|exact Hrows]. cbv zeta.
    pose proof (pending_row_spec _ _ _ Hrow) as (Hin & _ & _).
    destruct (registerUser env _ _ _) as [tx|e].
    + destruct (wait tx) as [?|e]; cbn [snd].
      * intros v Hv. cbn [users calls log with_users] in *.
        apply (approved_rows w user Hok Hin) in Hv as [->|[Hv _]].
        -- right. split; [reflexivity|].
           exists (hash tx), (calls w), [], []. cbn [app].
           rewrite <- app_assoc. reflexivity.
        -- rewrite <- app_assoc.
           destruct (Hrows v Hv) as [Hp|[Ha Hl]]; [now left|right].
           split; [exact Ha|now apply confirmation_logged_app].
      * eapply (rows_logged_app w); [reflexivity| |exact Hrows].
        cbn [calls log]. rewrite <- app_assoc. reflexivity.
    + eapply (rows_logged_app w); [reflexivity|reflexivity|exact Hrows].
  - rewrite reject_cases.
    destruct (pending_row wallet w) as [user|]; [|exact Hrows].
    intros v Hv. cbn [snd users calls with_users] in *.
    apply filter_In in Hv as [Hv _]. now apply Hrows.
  - now rewrite user_status_pure.
  - now rewrite get_user_pure.
  - exact Hrows.
  - unfold Server.post_revoke_batch, try_catch, bind, call, ret.
    destruct (Server.invalid_batch_id _); [exact Hrows|].
    destruct (revokeBatch env _) as [tx|e].
    + destruct (wait tx); cbn [snd]; (eapply (rows_logged_app w); [reflexivity| |exact Hrows]);
        cbn [calls log]; rewrite <- app_assoc; reflexivity.
    + cbn [snd]. eapply (rows_logged_app w); [reflexivity|reflexivity|exact Hrows].
Qed.

(** What every state of the overlapping runs satisfies. *)
Lemma overlapping_invariants (w : World) (ts : list InFlight) :
  overlapping w ts ->
  store_ok w = true /\ rows_logged w /\ Forall (task_ok w) ts.
Proof.
  induction 1 as
      [ | w ts H (Hok & Hrows & Hts)
        | env req w ts H (Hok & Hrows & Hts)
        | ev w ts H (Hok & Hrows & Hts) Hev
        | req wallet l w ts H (Hok & Hrows & Hts) Hw Hne Hfresh Hl Hknown
        | req w t1 t2 H (Hok & Hrows & Hts)
        | wallet user w ts H (Hok & Hrows & Hts) Hrow
        | user tx w t1 t2 H (Hok & Hrows & Hts)
        | user tx w t1 t2 H (Hok & Hrows & Hts) Hwait
        | wallet user w ts H (Hok & Hrows & Hts) Hrow
        | user w t1 t2 H (Hok & Hrows & Hts)
        | task w t1 t2 H (Hok & Hrows & Hts) ].
  - split; [reflexivity|]. split; [intros u []|constructor].
  - destruct (startup_users w) as [Hu Hs]. split; [|split; [|constructor]].
    + now rewrite (store_ok_ext _ _ Hu Hs).
    + apply (rows_logged_app w _ []); [exact Hu| |exact Hrows].
      now rewrite startup_calls, app_nil_r.
  - split; [now apply handle_preserves|]. split; [now apply handle_rows_logged|].
    eapply Forall_impl; [|exact Hts]. intros t. apply task_ok_grows, grows_handle.
  - split; [exact Hok|]. split.
    + now apply (rows_logged_app w _ [ev]).
    + eapply Forall_impl; [|exact Hts]. intros t. apply task_ok_grows.
      now apply (grows_same_users w _ [ev]).
  - split; [exact Hok|]. split; [exact Hrows|]. constructor; [|exact Hts].
    now exists wallet.
  - apply forall_split in Hts as [(wallet & Hw & Hne) Hts].
    destruct (create_world req w)
      as [->|(n & e & r & wa & l & -> & Hfresh & ->)]; [now repeat split|].
    cbn [Server.b_walletAddress] in Hw. injection Hw as ->.
    split; [|split].
    + apply (store_ok_signed_up
               (Server.mkSignup (Some n) (Some e) (Some r) (Some wallet) (Some l))
               wallet w Hok eq_refl Hne Hfresh).
    + intros v Hv. cbn [users calls] in *. apply in_app_or in Hv as [Hv|[<-|[]]].
      * now apply Hrows.
      * now left.
    + eapply Forall_impl; [|exact Hts]. intros t. apply task_ok_grows.
      now apply grows_snoc.
  - pose proof (pending_row_spec _ _ _ Hrow) as (Hin & _ & _).
    split; [exact Hok|]. split.
    + now apply (rows_logged_app w _ [registerUser_call user]).
    + constructor.
      * split; [|split].
        -- unfold store_ok in Hok. apply andb_true_iff in Hok as [Hok _].
           apply andb_true_iff in Hok as [_ Hle].
           pose proof (proj1 (forallb_forall _ _) Hle user Hin) as Hu.
           cbv beta in Hu. cbn [log user_seq]. now apply Z.leb_le.
        -- cbn [log users]. intros v Hv Hid.
           rewrite (store_ok_ids w Hok v user Hv Hin Hid). apply same_identity_refl.
        -- exists (calls w), []. reflexivity.
      * eapply Forall_impl; [|exact Hts]. intros t. apply task_ok_grows.
        now apply (grows_same_users w _ [registerUser_call user]).
  - apply forall_split in Hts as [(Hle & Hsame & (before & after & Hlog)) Hts].
    split; [exact Hok|]. split.
    + now apply (rows_logged_app w _ [CallWait (hash tx)]).
    + apply forall_insert.
      * eapply Forall_impl; [|exact Hts]. intros t. apply task_ok_grows.
        now apply (grows_same_users w _ [CallWait (hash tx)]).
      * split; [exact Hle|]. split; [exact Hsame|].
        exists before, after, []. cbn [log calls]. rewrite Hlog.
        rewrite <- app_assoc. reflexivity.
  - apply forall_split in Hts as [(Hle & Hsame & Hlog) Hts].
    split; [|split].
    + cbn [User_save_status snd]. now rewrite store_ok_save.
    + intros v' Hv. cbn [User_save_status snd with_users users calls] in *.
      apply in_map_iff in Hv as (v & <- & Hv).
      destruct (Z.eqb_spec (id v) (id user)) as [Hid|Hid]; [|now apply Hrows].
      right. split; [reflexivity|]. exists (hash tx).
      destruct Hlog as (before & between & after & Hlog).
      exists before, between, after.
      assert (registerUser_call (set_status "approved" v) = registerUser_call user)
        as -> by (apply same_identity_call; exact (Hsame v Hv Hid)).
      exact Hlog.
    + eapply Forall_impl; [|exact Hts]. intros t. apply task_ok_grows, grows_save.
  - split; [exact Hok|]. split; [exact Hrows|]. now constructor.
  - apply forall_split in Hts as [_ Hts]. split; [|split].
    + cbn [User_destroy snd]. now apply store_ok_destroy.
    + intros v Hv. cbn [User_destroy snd with_users users calls] in *.
      apply filter_In in Hv as [Hv _]. now apply Hrows.
    + eapply Forall_impl; [|exact Hts]. intros t. apply task_ok_grows, grows_destroy.
  - apply forall_split in Hts as [_ Hts]. now repeat split.
Qed.

(** The sequential runs are overlapping runs with nothing in flight. *)
Lemma reachable_overlapping (w : World) : reachable w -> overlapping w [].
Proof.
  induction 1 as [|w Hw IH|env req w Hw IH].
  - constructor.
  - now apply (over_startup w []).
  - now apply over_request.
Qed.

(** X4. However the signups, approvals, rejections and revocations in
    flight interleave at their awaits, an approved row has its on-chain
    registration on the log of outbound calls: a [registerUser] call with
    the row's walletAddress, name and role, and after it a confirmation
    wait; and an approval that is waiting for its confirmation has its own
    [registerUser] call and, after it, the wait for its own transaction on
    the log. *)
Theorem approved_rows_registered (w : World) (ts : list InFlight) :
  overlapping w ts ->
  (forall u, In u (users w) -> status u = "approved" ->
             confirmation_logged u (calls w))
  /\ (forall user tx, In (Confirming user tx) ts ->
                      wait_logged user (hash tx) (calls w)).
Proof.
  intros Hover.
  destruct (overlapping_invariants w ts Hover) as (_ & Hrows & Hts). split.
  - intros u Hu Hs.
    destruct (Hrows u Hu) as [Hp|[_ Hl]]; [congruence|exact Hl].
  - intros user tx Hin.
    pose proof (proj1 (Forall_forall _ _) Hts _ Hin) as Hok.
    cbn [task_ok] in Hok. now destruct Hok as (_ & _ & Hlog).
Qed.

Lemma overlapped_world_runs : overlapping overlapped_world [].
Proof.
  assert (overlapping two_pending_world []) as H0.
  { apply (over_request env_up (Signup beta) pending_world).
    apply (over_request env_up (Signup acme) seeded_world).
    apply (over_startup empty_world []). apply over_empty. }
  assert (overlapping overlap1 [Registering acme_pending]) as H1
      by (apply (over_approve_found "0xABC" acme_pending _ [] H0); reflexivity).
  assert (overlapping overlap2 [Registering beta_pending; Registering acme_pending])
    as H2 by (apply (over_approve_found "0xDEF" beta_pending _ _ H1); reflexivity).
  assert (overlapping overlap3 [Registering beta_pending; Confirming acme_pending tx_a])
    as H3 by exact (over_approve_returned acme_pending tx_a overlap2
                      [Registering beta_pending] [] H2).
  assert (overlapping overlap4 [Confirming beta_pending tx_b; Confirming acme_pending tx_a])
    as H4 by exact (over_approve_returned beta_pending tx_b overlap3
                      [] [Confirming acme_pending tx_a] H3).
  assert (overlapping overlap5 [Confirming beta_pending tx_b]) as H5
      by exact (over_approve_confirmed acme_pending tx_a overlap4
                  [Confirming beta_pending tx_b] [] H4 eq_refl).
  exact (over_approve_confirmed beta_pending tx_b overlap5 [] [] H5 eq_refl).
Defined.

Lemma approved_rows_registered_witness :
  calls overlapped_world
  = [CallRegisterUser "0xABC" "Acme Pharma" 1; CallRegisterUser "0xDEF" "Beta Labs" 2;
     CallWait "0xaaaa"; CallWait "0xbbbb"]
  /\ In acme_approved (users overlapped_world)
  /\ confirmation_logged acme_approved (calls overlapped_world).
Proof.
  split; [reflexivity|].
  assert (In acme_approved (users overlapped_world)) as Hin by (left; reflexivity).
  split; [exact Hin|].
  exact (proj1 (approved_rows_registered overlapped_world [] overlapped_world_runs)
           acme_approved Hin eq_refl).
Defined.

(** * Every route of the registration back end *)

Lemma gateway_issues_no_write (s : Gateway.Services) (to_number : string -> jsnum) :
  (forall c, In c (snd (Gateway.get_batches s)) -> Gateway.is_write c = false)
  /\ (forall walletAddress c,
        In c (snd (Gateway.get_manufacturer_batches s walletAddress)) ->
        Gateway.is_write c = false)
  /\ (forall c, In c (snd (Gateway.get_all_batches s to_number)) ->
                Gateway.is_write c = false)
  /\ (forall body c, In c (snd (Gateway.post_pinata_upload s body)) ->
                     Gateway.is_write c = false).
Proof.
  split; [|split; [|split]].
  - unfold Gateway.get_batches, Gateway.guard, Gateway.gbind, Gateway.invoke.
    destruct (Gateway.getAllBatches s); cbn; intros c [<-|[]]; reflexivity.
  - intros walletAddress.
    unfold Gateway.get_manufacturer_batches, Gateway.guard, Gateway.gbind,
      Gateway.invoke, Gateway.done.
    destruct (Gateway.nonempty_opt walletAddress) as [wallet|]; [|intros c []].
    destruct (Gateway.getBatchesByManufacturer s wallet); cbn;
      intros c [<-|[]]; reflexivity.
  - unfold Gateway.get_all_batches, Gateway.guard, Gateway.gbind, Gateway.invoke,
      Gateway.lift_outcome, Gateway.done.
    destruct (Gateway.getAllBatches s) as [raw|e]; [|cbn; intros c [<-|[]]; reflexivity].
    destruct (Gateway.map_outcome _ raw); cbn; intros c [<-|[]]; reflexivity.
  - intros body.
    assert (forall fields c,
               In c (snd (Gateway.post_pinata_upload s (VObj fields))) ->
               Gateway.is_write c = false) as Hobj.
    { intros fields c. rewrite pinata_upload_cases. cbv zeta.
      destruct (Gateway.nonempty_opt (Gateway.PINATA_JWT s)); [|intros []].
      cbn [snd]. intros [<-|[]]. reflexivity. }
    destruct body as [| |b|n|str|items|fields]; try (apply Hobj);
      unfold Gateway.post_pinata_upload;
      cbn [Gateway.read Gateway.gbind Gateway.done Gateway.guard Gateway.lift_outcome
           nullish_or app];
      try (intros c []);
      (destruct (Gateway.nonempty_opt (Gateway.PINATA_JWT s)) as [token|];
       [|intros c []]);
      cbn [Gateway.gbind Gateway.invoke Gateway.done Gateway.lift_outcome app];
      (destruct (Gateway.fetch_pin s token _ _) as [response|e];
       [|cbn; intros c [<-|[]]; reflexivity]);
      (destruct (Gateway.resp_ok response); cbn [negb];
       [destruct (Gateway.resp_json response) as [raw|e];
        [destruct raw as [| |b'|n'|str'|items'|rf]; cbn;
         try (intros c [<-|[]]; reflexivity);
         destruct (truthy _); cbn; intros c [<-|[]]; reflexivity
        |cbn; intros c [<-|[]]; reflexivity]
       |destruct (Gateway.resp_text response); cbn; intros c [<-|[]]; reflexivity]).
Qed.

(** X12. Over all thirteen routes of the registration back end: none
    changes the PPBRecord table; only [Signup], [Approve] and [Reject] can
    change the [User] table or its counter; [Signup], [Login],
    [pending-requests], [Reject], [user-status], [user] and [ppb] issue no
    outbound call of any kind; the two batch listings, the manufacturer
    listing and the Pinata upload leave the whole store and the chain log
    untouched, and what they issue are reads and the upload, never a
    contract write. *)
Theorem route_effects
  (env : Env) (s : Gateway.Services) (to_number : string -> jsnum)
  (r : Route) (w : World) :
  let w' := snd (fst (serve env s to_number r w)) in
  let outside := snd (serve env s to_number r w) in
  ppb w' = ppb w
  /\ (route_writes_users r = false -> users w' = users w /\ user_seq w' = user_seq w)
  /\ (route_is_silent r = true -> calls w' = calls w /\ outside = [])
  /\ ((forall req, r <> Stored req) -> w' = w)
  /\ (forall c, In c outside -> Gateway.is_write c = false).
Proof.
  intros w' outside. subst w' outside.
  destruct (gateway_issues_no_write s to_number) as (Hb & Hm & Ha & Hp).
  destruct r as [req| |body|walletAddress|]; cbn [serve fst snd route_writes_users
                                                   route_is_silent].
  - split; [apply handle_ppb|]. split; [apply only_writers_write|]. split.
    + intros Hsilent. split; [|reflexivity].
      apply (proj2 (only_writers_write env req w)).
      now apply negb_true_iff.
    + split; [intros Hne; now destruct (Hne req)|intros c []].
  - repeat split; try discriminate. exact Hb.
  - repeat split; try discriminate. exact (Hp body).
  - repeat split; try discriminate. exact (Hm walletAddress).
  - repeat split; try discriminate. exact Ha.
Qed.

Lemma route_effects_witness :
  users (snd (fst (serve env_up services_up integer_literal
                     (Stored (RevokeBatch "12" VUndefined)) pending_world)))
  = users pending_world
  /\ snd (serve env_up services_up integer_literal (Stored (Reject "0xABC")) pending_world)
     = []
  /\ calls (snd (fst (serve env_up services_up integer_literal
                        (Stored (Reject "0xABC")) pending_world)))
     = calls pending_world
  /\ snd (fst (serve env_up services_up integer_literal AdminAllBatches pending_world))
     = pending_world.
Proof.
  pose proof (route_effects env_up services_up integer_literal
                (Stored (RevokeBatch "12" VUndefined)) pending_world) as H1.
  pose proof (route_effects env_up services_up integer_literal
                (Stored (Reject "0xABC")) pending_world) as H2.
  pose proof (route_effects env_up services_up integer_literal
                AdminAllBatches pending_world) as H3.
  cbv zeta in *.
  destruct H1 as (_ & H1 & _). destruct H2 as (_ & _ & H2 & _).
  destruct H3 as (_ & _ & _ & H3 & _).
  split; [exact (proj1 (H1 eq_refl))|].
  split; [exact (proj2 (H2 eq_refl))|].
  split; [exact (proj1 (H2 eq_refl))|].
  apply H3. intros req. discriminate.
Defined.

(** * Product registration with an unidentified pin *)

(** C2, at the failing input.  The pinning service answers success with
    an object that has no [IpfsHash].  The route does not abort:
    [registerProduct] is called once, with [undefined] as content
    identifier, and the answer is 200 with [ipfsHash] undefined. *)
Theorem register_product_registers_unidentified :
  let details := VObj [("dose", VStr "500mg")] in
  let r := Proxy.post_register_product env_unidentified (VStr "Amoxil") (VStr "B-17")
             details empty_world in
  pinFileToIPFS env_unidentified details = Ok (VObj [("PinSize", VNum (num 42))])
  /\ fst r = json (VObj [("txHash", VStr "0xfeed"); ("ipfsHash", VUndefined);
                         ("verifyUrl", VStr "http://localhost:3000/verify/B-17");
                         ("qrCode", VStr "data:image/png;base64,AAAA")])
  /\ issued empty_world (snd r)
     = [CallPin details;
        CallRegisterProduct (VStr "Amoxil") (VStr "B-17") VUndefined;
        CallWait "0xfeed"; CallQr "http://localhost:3000/verify/B-17"]
  /\ count_events is_registerProduct (issued empty_world (snd r)) = 1%nat.
Proof.
  cbv zeta. split; [reflexivity|]. split; [reflexivity|]. split; reflexivity.
Qed.
